(** * A verification model of [frontend/server.py]

  The program is a [http.server.SimpleHTTPRequestHandler] subclass that
  adds three CORS headers in [end_headers] and answers [OPTIONS], plus a
  [main] that changes directory, binds a [socketserver.TCPServer] on port
  3000 and serves until interrupted.

  The subclass inherits almost all of its behaviour, so the embedding
  follows the inherited methods of CPython 3.11's [http.server] and
  [posixpath] line by line, under the names they have there; the three
  methods and [main] written in [server.py] are embedded from that file. *)

From Stdlib Require Import String Ascii List ZArith NArith Bool Lia.
From Stdlib Require Import DecimalString Permutation Sorted.
Import ListNotations.

Open Scope string_scope.

(** ** Python [str] operations

  A request line is decoded with [iso-8859-1], so every character of
  [self.path] is one of the 256 values of [ascii]; [string] stands for the
  Python [str] values the handler manipulates. *)
Module PyStr.

Definition code (c : ascii) : N := N_of_ascii c.

Fixpoint rev (s : string) : string :=
  match s with
  | "" => ""
  | String c s' => rev s' ++ String c ""
  end.

(** [s.startswith(p)] and [s.endswith(p)]. *)
Definition startswith (s p : string) : bool := String.prefix p s.
Definition endswith (s p : string) : bool := String.prefix (rev p) (rev s).

(** [c in s] for a one-character [c]. *)
Fixpoint contains (c : ascii) (s : string) : bool :=
  match s with
  | "" => false
  | String a s' => Ascii.eqb a c || contains c s'
  end.

(** [s.split(c)]: never empty, keeps empty fields. *)
Fixpoint split (c : ascii) (s : string) : list string :=
  match s with
  | "" => [""]
  | String a s' =>
      if Ascii.eqb a c then "" :: split c s'
      else match split c s' with
           | w :: ws => String a w :: ws
           | [] => [String a ""]
           end
  end.

(** [s.split(c, 1)[0]] and [s.split(c, 1)[1]] (the latter raises
    [IndexError] when [c] does not occur). *)
Fixpoint before (c : ascii) (s : string) : string :=
  match s with
  | "" => ""
  | String a s' => if Ascii.eqb a c then "" else String a (before c s')
  end.

Fixpoint after (c : ascii) (s : string) : option string :=
  match s with
  | "" => None
  | String a s' => if Ascii.eqb a c then Some s' else after c s'
  end.

(** [str.isspace] on the Latin-1 range: TAB, LF, VT, FF, CR, FS, GS, RS,
    US, SPACE, NEL and NBSP. *)
Definition isspace (c : ascii) : bool :=
  let n := code c in
  ((9 <=? n) && (n <=? 13) || (28 <=? n) && (n <=? 32)
   || (n =? 133) || (n =? 160))%N.

Definition cons_word (w : string) (ws : list string) : list string :=
  match w with "" => ws | _ => w :: ws end.

Fixpoint words_from (s : string) : string * list string :=
  match s with
  | "" => ("", [])
  | String a s' =>
      let (w, ws) := words_from s' in
      if isspace a then ("", cons_word w ws) else (String a w, ws)
  end.

(** [s.split()] with no argument: the maximal runs of non-space
    characters. *)
Definition split_ws (s : string) : list string :=
  let (w, ws) := words_from s in cons_word w ws.

(** [s.lstrip(chars)] and [s.rstrip(chars)] for a predicate on
    characters. *)
Fixpoint lstrip (p : ascii -> bool) (s : string) : string :=
  match s with
  | "" => ""
  | String a s' => if p a then lstrip p s' else s
  end.

Definition rstrip (p : ascii -> bool) (s : string) : string :=
  rev (lstrip p (rev s)).

Definition is_char (c : ascii) : ascii -> bool := fun a => Ascii.eqb a c.
Definition is_crlf (a : ascii) : bool :=
  Ascii.eqb a "013"%char || Ascii.eqb a "010"%char.

(** [str.lower] on the Latin-1 range. *)
Definition lower_char (c : ascii) : ascii :=
  let n := code c in
  if ((65 <=? n) && (n <=? 90)
      || (192 <=? n) && (n <=? 222) && negb (n =? 215))%N
  then ascii_of_N (n + 32) else c.

Fixpoint lower (s : string) : string :=
  match s with
  | "" => ""
  | String c s' => String (lower_char c) (lower s')
  end.

(** [sep.join(l)]. *)
Definition join (sep : string) (l : list string) : string :=
  String.concat sep l.

(** [str(n)] and ["%d" % n] for a non-negative integer. *)
Definition of_N (n : N) : string :=
  NilEmpty.string_of_uint (N.to_uint n).

(** [len(s)], kept in binary. *)
Definition len (s : string) : N := N.of_nat (String.length s).

Definition isdigit (c : ascii) : bool :=
  let n := code c in ((48 <=? n) && (n <=? 57))%N.

(** The digits of an [int] literal: decimal digits, single underscores
    allowed between two digits.  [acc] is the value so far, [cnt] the
    number of digits read, [us] whether the previous character was an
    underscore. *)
Fixpoint digits (s : string) (acc : Z) (cnt : N) (us : bool)
  : option (Z * N) :=
  match s with
  | "" => if us then None else Some (acc, cnt)
  | String c s' =>
      if isdigit c
      then digits s' (10 * acc + Z.of_N (code c - 48)) (cnt + 1) false
      else if Ascii.eqb c "_" && negb us && (0 <? cnt)%N
           then digits s' acc cnt true
           else None
  end.

(** [int(s)] for a [str] without surrounding white space: [None] where
    Python raises [ValueError], which includes literals of more than
    4300 digits. *)
Definition int (s : string) : option Z :=
  let (sign, body) :=
    match s with
    | String "-" s' => ((-1)%Z, s')
    | String "+" s' => (1%Z, s')
    | _ => (1%Z, s)
    end in
  match digits body 0 0 false with
  | Some (v, cnt) =>
      if ((cnt =? 0) || (4300 <? cnt))%N then None else Some (sign * v)%Z
  | None => None
  end.

End PyStr.

(** ** [posixpath] and [pathlib] *)
Module PosixPath.
Import PyStr.

(** [s.rfind(c)]: the index of the last [c], or [-1]. *)
Fixpoint rfind_from (c : ascii) (s : string) (i last : Z) : Z :=
  match s with
  | "" => last
  | String a s' =>
      rfind_from c s' (i + 1) (if Ascii.eqb a c then i else last)
  end.

Definition rfind (c : ascii) (s : string) : Z := rfind_from c s 0 (-1).

(** The slices [s[:i]] and [s[i:]] for [0 <= i]. *)
Definition slice_to (s : string) (i : Z) : string :=
  String.substring 0 (Z.to_nat i) s.

Definition slice_from (s : string) (i : Z) : string :=
  String.substring (Z.to_nat i) (String.length s - Z.to_nat i) s.

Fixpoint all_chars (c : ascii) (s : string) : bool :=
  match s with
  | "" => true
  | String a s' => Ascii.eqb a c && all_chars c s'
  end.

(** [posixpath.join(a, b)]. *)
Definition join (path b : string) : string :=
  if startswith b "/" then b
  else if String.eqb path "" || endswith path "/" then path ++ b
  else path ++ "/" ++ b.

(** [posixpath.dirname(p)]. *)
Definition dirname (p : string) : string :=
  let i := (rfind "/" p + 1)%Z in
  let head := slice_to p i in
  if negb (String.eqb head "") && negb (all_chars "/" head)
  then rstrip (is_char "/") head
  else head.

(** The loop of [genericpath._splitext] that skips leading dots: is
    there an index in [[i, i + n)] whose character is not a dot? *)
Fixpoint name_char_before (p : string) (i : nat) (n : nat) : bool :=
  match n with
  | O => false
  | S n' =>
      match String.get i p with
      | Some a => if Ascii.eqb a "." then name_char_before p (S i) n'
                  else true
      | None => name_char_before p (S i) n'
      end
  end.

(** [posixpath.splitext(p)]. *)
Definition splitext (p : string) : string * string :=
  let sepIndex := rfind "/" p in
  let dotIndex := rfind "." p in
  if (sepIndex <? dotIndex)%Z
     && name_char_before p (Z.to_nat (sepIndex + 1))
          (Z.to_nat (dotIndex - (sepIndex + 1)))
  then (slice_to p dotIndex, slice_from p dotIndex)
  else (p, "").

Definition initial_slashes (path : string) : nat :=
  if startswith path "/"
  then if startswith path "//" && negb (startswith path "///")
       then 2 else 1
  else 0.

(** The loop of [posixpath.normpath]; [new_comps] is kept last
    component first, so that [append] and [pop] work on its head. *)
Fixpoint normpath_loop (slashes : nat) (comps new_comps : list string)
  : list string :=
  match comps with
  | [] => List.rev new_comps
  | comp :: rest =>
      if String.eqb comp "" || String.eqb comp "."
      then normpath_loop slashes rest new_comps
      else if negb (String.eqb comp "..")
              || (Nat.eqb slashes 0
                  && match new_comps with [] => true | _ => false end)
              || match new_comps with
                 | top :: _ => String.eqb top ".."
                 | [] => false
                 end
      then normpath_loop slashes rest (comp :: new_comps)
      else normpath_loop slashes rest (List.tl new_comps)
  end.

Fixpoint repeat_sep (n : nat) : string :=
  match n with O => "" | S n' => "/" ++ repeat_sep n' end.

(** [posixpath.normpath(path)]. *)
Definition normpath (path : string) : string :=
  if String.eqb path "" then "."
  else
    let slashes := initial_slashes path in
    let comps := normpath_loop slashes (split "/" path) [] in
    let path' := repeat_sep slashes ++ PyStr.join "/" comps in
    if String.eqb path' "" then "." else path'.

(** [str(pathlib.PurePosixPath(s).parent)]: the root is ["//"] for
    exactly two leading slashes, ["/"] for any other number; empty and
    ["."] components are dropped when the path is parsed; the parent
    drops the last remaining component. *)
Definition path_root (s : string) : string :=
  if startswith s "/"
  then if (len s - len (lstrip (is_char "/") s) =? 2)%N then "//" else "/"
  else "".

Definition path_parts (s : string) : list string :=
  List.filter (fun c => negb (String.eqb c "" || String.eqb c "."))
    (split "/" (lstrip (is_char "/") s)).

Definition path_str (root : string) (parts : list string) : string :=
  let s := root ++ PyStr.join "/" parts in
  if String.eqb s "" then "." else s.

Definition parent (s : string) : string :=
  path_str (path_root s) (List.removelast (path_parts s)).

End PosixPath.

(** ** The operating system's file interface

  The handler reaches the disk through [os.path.isdir], [os.path.isfile],
  [os.path.islink], [open(path, 'rb')] followed by [os.fstat] and a read
  of the whole file, and [os.listdir].  [None] stands for an [OSError];
  for [open], which also raises [ValueError] (for a path with a null
  byte, or with a character the encoding of the file system has not),
  [open_raises] tells whether the exception that left no file is of
  that other kind. *)
Module Os.
Import PyStr.

Record file := { content : string; st_mtime : Z }.

Record filesystem := {
  isdir : string -> bool;
  isfile : string -> bool;
  islink : string -> bool;
  open_rb : string -> option file;
  open_raises : string -> bool;
  listdir : string -> option (list string)
}.

(** A concrete file system without symbolic links: a tree of
    directories and regular files, each file with its bytes, its
    modification time in seconds and whether the server's user may read
    it. *)
#[warnings="-register-all"] Inductive node :=
| File (bytes : string) (mtime : Z) (readable : bool)
| Dir (entries : list (string * node)).

Fixpoint entry (name : string) (es : list (string * node)) : option node :=
  match es with
  | [] => None
  | (n, x) :: es' => if String.eqb n name then Some x else entry name es'
  end.

(** Path resolution as the kernel does it: component by component from
    the root, [up] holding the directories passed on the way down.  An
    empty component (a doubled or trailing slash) and ["."] stay where
    they are, which a regular file does not allow. *)
Fixpoint walk (up : list node) (cur : node) (comps : list string)
  : option node :=
  match comps with
  | [] => Some cur
  | c :: cs =>
      match cur with
      | File _ _ _ => None
      | Dir es =>
          if String.eqb c "" || String.eqb c "." then walk up cur cs
          else if String.eqb c ".."
          then match up with
               | p :: up' => walk up' p cs
               | [] => walk [] cur cs
               end
          else match entry c es with
               | Some n => walk (cur :: up) n cs
               | None => None
               end
      end
  end.

Definition resolve (root : node) (cwd path : string) : option node :=
  if String.eqb path "" then None
  else if startswith path "/" then walk [] root (split "/" path)
  else walk [] root (split "/" cwd ++ split "/" path).

Definition tree_fs (root : node) (cwd : string) : filesystem :=
  {| isdir p := match resolve root cwd p with
                | Some (Dir _) => true
                | _ => false
                end;
     isfile p := match resolve root cwd p with
                 | Some (File _ _ _) => true
                 | _ => false
                 end;
     islink _ := false;
     open_rb p := match resolve root cwd p with
                  | Some (File b m true) =>
                      Some {| content := b; st_mtime := m |}
                  | _ => None
                  end;
     open_raises p := contains "000" p;
     listdir p := match resolve root cwd p with
                  | Some (Dir es) => Some (List.map fst es)
                  | _ => None
                  end |}.

End Os.

(** ** Library functions kept abstract

    What the handler obtains from the clock, the interpreter and the parts
    of [urllib], [email] and [mimetypes] whose results no property below
    depends on. *)
Class Library := {
  (** ["Python/" + sys.version.split()[0]] *)
  sys_version : string;
  (** [email.utils.formatdate(timestamp, usegmt=True)], of the current
      time for [None] *)
  date_time_string : option Z -> string;
  (** [urllib.parse.unquote(s, errors='surrogatepass')], falling back to
      [urllib.parse.unquote(s)], on a [str] that contains a percent sign *)
  unquote_escapes : string -> string;
  (** [urllib.parse.urlsplit(s).path] *)
  urlsplit_path : string -> string;
  (** [urllib.parse.urlunsplit] of the parts of [s] with a slash appended
      to the path *)
  urlunsplit_slash : string -> string;
  (** the first component of [mimetypes.guess_type(path)] *)
  mimetypes_guess_type : string -> option string;
  (** [email.utils.parsedate_to_datetime(s)] as seconds since the epoch
      when [s] parses and its time zone is absent or UTC; [None] when the
      handler makes no comparison with it *)
  parsedate_utc : string -> option Z;
  (** [sys.getfilesystemencoding()] *)
  filesystem_encoding : string;
  (** the encoded page [list_directory] builds for a request path from the
      names in the directory, each with [os.path.isdir] and
      [os.path.islink] of its full name *)
  listing_page : string -> list (string * bool * bool) -> string
}.

(** ** [http.server] *)
Module HttpServer.
Import PyStr Os.

(** *** What the handler writes

    [_headers_buffer] holds the status line and the header lines until
    [flush_headers] writes them to [wfile] in one piece; bodies are
    written to [wfile] directly. *)
Inductive line :=
| StatusLine (protocol : string) (code : N) (message : string)
| Header (keyword value : string)
| EndOfHeaders.

Inductive write :=
| HeaderBlock (lines : list line)
| Data (bytes : string).

(** What [log_message] receives: from [log_request], the request line
    and the code; from [log_error] in [send_error], the code and the
    message.  And, on the same stream, the traceback that
    [socketserver] prints ([handle_error]) for an exception that left
    the handler. *)
Inductive log_entry :=
| LogRequest (requestline : string) (code : N)
| LogError (code : N) (message : string)
| LogException (name : string).

(** The calls into the file system, in order, and among them the calls
    of [mimetypes.guess_type]: the first of these in a process runs
    [mimetypes.init()], which tests and opens the [mime.types] files of
    the system ([mimetypes.knownfiles]); they lie outside the served
    directory. *)
Inductive fs_op :=
| OpIsdir (path : string)
| OpIsfile (path : string)
| OpIslink (path : string)
| OpOpen (path : string)
| OpListdir (path : string)
| OpMimetypes (path : string).

(** The path a call is made with. *)
Definition op_path (o : fs_op) : string :=
  match o with
  | OpIsdir p | OpIsfile p | OpIslink p | OpOpen p | OpListdir p
  | OpMimetypes p => p
  end.

Definition crlf : string := String "013" (String "010" "").
Definition nl : string := String "010" "".
Definition dq : string := String "034" "".

(** The bytes of a line and of a write, as [send_response_only],
    [send_header] and [end_headers] encode them. *)
Definition line_bytes (l : line) : string :=
  match l with
  | StatusLine protocol code message =>
      protocol ++ " " ++ of_N code ++ " " ++ message ++ crlf
  | Header keyword value => keyword ++ ": " ++ value ++ crlf
  | EndOfHeaders => crlf
  end.

Definition write_bytes (w : write) : string :=
  match w with
  | HeaderBlock ls => String.concat "" (List.map line_bytes ls)
  | Data b => b
  end.

(** One request as the handler reads it from [rfile]: the request line
    decoded as [iso-8859-1], and what [http.client.parse_headers] makes of
    the lines that follow it. *)
Inductive header_input :=
| HeaderFields (fields : list (string * string))
| LineTooLong
| TooManyHeaders.

Record request := {
  raw_requestline : string;
  raw_headers : header_input
}.

(** The attributes of a handler object. *)
Record handler := {
  directory : string;
  requestline : string;
  command : option string;
  path : string;
  request_version : string;
  headers : list (string * string);
  close_connection : bool;
  headers_buffer : list line;
  wfile : list write;
  log : list log_entry;
  fs_trace : list fs_op
}.

(** A handler as [socketserver] creates it for a connection, before
    [handle] runs. *)
Definition new_handler (dir : string) : handler :=
  {| directory := dir; requestline := ""; command := None; path := "";
     request_version := ""; headers := []; close_connection := true;
     headers_buffer := []; wfile := []; log := []; fs_trace := [] |}.

Definition set_requestline (v : string) (h : handler) : handler :=
  {| directory := directory h; requestline := v; command := command h;
     path := path h; request_version := request_version h;
     headers := headers h; close_connection := close_connection h;
     headers_buffer := headers_buffer h; wfile := wfile h; log := log h;
     fs_trace := fs_trace h |}.

Definition set_command (v : option string) (h : handler) : handler :=
  {| directory := directory h; requestline := requestline h; command := v;
     path := path h; request_version := request_version h;
     headers := headers h; close_connection := close_connection h;
     headers_buffer := headers_buffer h; wfile := wfile h; log := log h;
     fs_trace := fs_trace h |}.

Definition set_path (v : string) (h : handler) : handler :=
  {| directory := directory h; requestline := requestline h;
     command := command h; path := v; request_version := request_version h;
     headers := headers h; close_connection := close_connection h;
     headers_buffer := headers_buffer h; wfile := wfile h; log := log h;
     fs_trace := fs_trace h |}.

Definition set_request_version (v : string) (h : handler) : handler :=
  {| directory := directory h; requestline := requestline h;
     command := command h; path := path h; request_version := v;
     headers := headers h; close_connection := close_connection h;
     headers_buffer := headers_buffer h; wfile := wfile h; log := log h;
     fs_trace := fs_trace h |}.

Definition set_headers (v : list (string * string)) (h : handler) : handler :=
  {| directory := directory h; requestline := requestline h;
     command := command h; path := path h;
     request_version := request_version h; headers := v;
     close_connection := close_connection h;
     headers_buffer := headers_buffer h; wfile := wfile h; log := log h;
     fs_trace := fs_trace h |}.

Definition set_close_connection (v : bool) (h : handler) : handler :=
  {| directory := directory h; requestline := requestline h;
     command := command h; path := path h;
     request_version := request_version h; headers := headers h;
     close_connection := v; headers_buffer := headers_buffer h;
     wfile := wfile h; log := log h; fs_trace := fs_trace h |}.

Definition set_headers_buffer (v : list line) (h : handler) : handler :=
  {| directory := directory h; requestline := requestline h;
     command := command h; path := path h;
     request_version := request_version h; headers := headers h;
     close_connection := close_connection h; headers_buffer := v;
     wfile := wfile h; log := log h; fs_trace := fs_trace h |}.

Definition set_wfile (v : list write) (h : handler) : handler :=
  {| directory := directory h; requestline := requestline h;
     command := command h; path := path h;
     request_version := request_version h; headers := headers h;
     close_connection := close_connection h;
     headers_buffer := headers_buffer h; wfile := v; log := log h;
     fs_trace := fs_trace h |}.

Definition set_log (v : list log_entry) (h : handler) : handler :=
  {| directory := directory h; requestline := requestline h;
     command := command h; path := path h;
     request_version := request_version h; headers := headers h;
     close_connection := close_connection h;
     headers_buffer := headers_buffer h; wfile := wfile h; log := v;
     fs_trace := fs_trace h |}.

Definition set_fs_trace (v : list fs_op) (h : handler) : handler :=
  {| directory := directory h; requestline := requestline h;
     command := command h; path := path h;
     request_version := request_version h; headers := headers h;
     close_connection := close_connection h;
     headers_buffer := headers_buffer h; wfile := wfile h; log := log h;
     fs_trace := v |}.

(** *** State passing

    A method of the handler is a function from the handler's attributes
    to its result and the attributes it leaves. *)
Definition M (A : Type) : Type := handler -> A * handler.

Definition ret {A : Type} (a : A) : M A := fun h => (a, h).

Definition bind {A B : Type} (m : M A) (k : A -> M B) : M B :=
  fun h => let r := m h in k (fst r) (snd r).

Definition get {A : Type} (f : handler -> A) : M A := fun h => (f h, h).

Definition modify (f : handler -> handler) : M unit := fun h => (tt, f h).

Definition when (b : bool) (m : M unit) : M unit :=
  if b then m else ret tt.

Notation "x <- m ;; k" := (bind m (fun x => k))
  (at level 61, m at next level, right associativity).
Notation "m ;; k" := (bind m (fun _ => k))
  (at level 61, right associativity).

Definition wfile_write (w : write) : M unit :=
  modify (fun h => set_wfile (wfile h ++ [w]) h).

Definition buffer_append (l : line) : M unit :=
  modify (fun h => set_headers_buffer (headers_buffer h ++ [l]) h).

Definition trace (o : fs_op) : M unit :=
  modify (fun h => set_fs_trace (fs_trace h ++ [o]) h).

(** *** Class attributes and small helpers *)
Definition protocol_version : string := "HTTP/1.0".
Definition server_version : string := "SimpleHTTP/0.6".
Definition default_request_version : string := "HTTP/0.9".
Definition error_content_type : string := "text/html;charset=utf-8".

(** The entries of [responses] (phrase and description of
    [http.HTTPStatus]) for the codes this handler passes to
    [send_response], [send_response_only] and [send_error]. *)
Definition responses (code : N) : option (string * string) :=
  match code with
  | 100 => Some ("Continue", "Request received, please continue")
  | 200 => Some ("OK", "Request fulfilled, document follows")
  | 301 => Some ("Moved Permanently",
                 "Object moved permanently -- see URI list")
  | 304 => Some ("Not Modified",
                 "Document has not changed since given time")
  | 400 => Some ("Bad Request",
                 "Bad request syntax or unsupported method")
  | 403 => Some ("Forbidden",
                 "Request forbidden -- authorization will not help")
  | 404 => Some ("Not Found", "Nothing matches the given URI")
  | 414 => Some ("Request-URI Too Long", "URI is too long")
  | 431 => Some ("Request Header Fields Too Large",
                 "The server is unwilling to process the request because its header fields are too large")
  | 501 => Some ("Not Implemented",
                 "Server does not support this operation")
  | 505 => Some ("HTTP Version Not Supported", "Cannot fulfill request")
  | _ => None
  end%N.

(** [DEFAULT_ERROR_MESSAGE % {'code': .., 'message': .., 'explain': ..}] *)
Definition error_message_format (code : N) (message explain : string)
  : string :=
  "<!DOCTYPE HTML>" ++ nl ++
  "<html lang=" ++ dq ++ "en" ++ dq ++ ">" ++ nl ++
  "    <head>" ++ nl ++
  "        <meta charset=" ++ dq ++ "utf-8" ++ dq ++ ">" ++ nl ++
  "        <title>Error response</title>" ++ nl ++
  "    </head>" ++ nl ++
  "    <body>" ++ nl ++
  "        <h1>Error response</h1>" ++ nl ++
  "        <p>Error code: " ++ of_N code ++ "</p>" ++ nl ++
  "        <p>Message: " ++ message ++ ".</p>" ++ nl ++
  "        <p>Error code explanation: " ++ of_N code ++ " - " ++ explain
    ++ ".</p>" ++ nl ++
  "    </body>" ++ nl ++
  "</html>" ++ nl.

(** [html.escape(s, quote=False)] *)
Fixpoint html_escape (s : string) : string :=
  match s with
  | "" => ""
  | String c s' =>
      (if Ascii.eqb c "&" then "&amp;"
       else if Ascii.eqb c "<" then "&lt;"
       else if Ascii.eqb c ">" then "&gt;"
       else String c "") ++ html_escape s'
  end.

(** [s.encode('UTF-8')] for characters below U+0100. *)
Fixpoint encode_utf8 (s : string) : string :=
  match s with
  | "" => ""
  | String c s' =>
      let n := code c in
      (if (n <? 128)%N then String c ""
       else String (ascii_of_N (192 + n / 64))
              (String (ascii_of_N (128 + n mod 64)) ""))
      ++ encode_utf8 s'
  end.

Definition hex_digit (n : N) : ascii :=
  if (n <? 10)%N then ascii_of_N (48 + n) else ascii_of_N (87 + n).

(** [repr(s)] of a [str] of characters below U+0100: quoted with an
    apostrophe unless [s] has one and no quotation mark; the quote, the
    backslash, TAB, LF and CR escaped with a backslash; other characters
    that are not printable written as a two-digit hexadecimal escape. *)
Definition printable (c : ascii) : bool :=
  let n := code c in
  ((32 <=? n) && (n <? 127) || (161 <=? n) && negb (n =? 173))%N.

Definition repr_char (quote c : ascii) : string :=
  if Ascii.eqb c quote || Ascii.eqb c "\" then String "\" (String c "")
  else if Ascii.eqb c "009" then "\t"
  else if Ascii.eqb c "010" then "\n"
  else if Ascii.eqb c "013" then "\r"
  else if printable c then String c ""
  else String "\" (String "x" (String (hex_digit (code c / 16))
                                 (String (hex_digit (code c mod 16)) ""))).

Fixpoint repr_body (quote : ascii) (s : string) : string :=
  match s with
  | "" => ""
  | String c s' => repr_char quote c ++ repr_body quote s'
  end.

Definition repr (s : string) : string :=
  let quote : ascii :=
    if contains "'" s && negb (contains "034" s) then "034"%char
    else "'"%char in
  String quote (repr_body quote s ++ String quote "").

(** [headers.get(name, "")] and [name in headers]: field names compare
    without regard to case, the first field wins. *)
Fixpoint header_get (name : string) (fields : list (string * string))
  : option string :=
  match fields with
  | [] => None
  | (k, v) :: rest =>
      if String.eqb (lower k) (lower name) then Some v
      else header_get name rest
  end.

Definition header_in (name : string) (fields : list (string * string))
  : bool :=
  match header_get name fields with Some _ => true | None => false end.

(** The tuple comparison [(a, b) >= (c, d)] and the string comparison
    [s >= t]. *)
Definition pair_ge (x y : Z * Z) : bool :=
  ((fst y <? fst x) || (fst x =? fst y) && (snd y <=? snd x))%Z.

Definition str_ge (s t : string) : bool := String.leb t s.

Section Handler.
Context {lib : Library}.
Variable fs : filesystem.

(** *** [BaseHTTPRequestHandler]: responses *)

Definition version_string : string := server_version ++ " " ++ sys_version.

Definition log_request (code : N) : M unit :=
  modify (fun h => set_log (log h ++ [LogRequest (requestline h) code]) h).

Definition log_error (code : N) (message : string) : M unit :=
  modify (fun h => set_log (log h ++ [LogError code message]) h).

(** An exception that no method catches leaves [handle] at once:
    nothing more of the handler runs, and [socketserver] reports it. *)
Definition raise_uncaught (name : string) : M unit :=
  modify (fun h => set_log (log h ++ [LogException name]) h).

Definition send_response_only (code : N) (message : option string)
  : M unit :=
  v <- get request_version ;;
  when (negb (String.eqb v "HTTP/0.9"))
    (let message :=
       match message with
       | Some m => m
       | None => match responses code with
                 | Some (phrase, _) => phrase
                 | None => ""
                 end
       end in
     buffer_append (StatusLine protocol_version code message)).

Definition send_header (keyword value : string) : M unit :=
  v <- get request_version ;;
  when (negb (String.eqb v "HTTP/0.9")) (buffer_append (Header keyword value)) ;;
  when (String.eqb (lower keyword) "connection")
    (if String.eqb (lower value) "close"
     then modify (set_close_connection true)
     else when (String.eqb (lower value) "keep-alive")
            (modify (set_close_connection false))).

Definition flush_headers : M unit :=
  modify (fun h =>
            set_headers_buffer []
              (set_wfile (wfile h ++ [HeaderBlock (headers_buffer h)]) h)).

(** [BaseHTTPRequestHandler.end_headers], which the subclass reaches as
    [super().end_headers()]. *)
Definition super_end_headers : M unit :=
  v <- get request_version ;;
  when (negb (String.eqb v "HTTP/0.9"))
    (buffer_append EndOfHeaders ;; flush_headers).

(** *** [CustomHTTPRequestHandler.end_headers] ([server.py], lines 22-27) *)
Definition end_headers : M unit :=
  send_header "Access-Control-Allow-Origin" "*" ;;
  send_header "Access-Control-Allow-Methods" "GET, POST, OPTIONS" ;;
  send_header "Access-Control-Allow-Headers" "Content-Type" ;;
  super_end_headers.

Definition send_response (code : N) (message : option string) : M unit :=
  log_request code ;;
  send_response_only code message ;;
  send_header "Server" version_string ;;
  send_header "Date" (date_time_string None).

(** *** [CustomHTTPRequestHandler.do_OPTIONS] ([server.py], lines 29-32) *)
Definition do_OPTIONS : M unit :=
  send_response 200 None ;;
  end_headers.

Definition send_error (code : N) (message explain : option string)
  : M unit :=
  let (shortmsg, longmsg) :=
    match responses code with
    | Some r => r
    | None => ("???", "???")
    end in
  let message := match message with Some m => m | None => shortmsg end in
  let explain := match explain with Some e => e | None => longmsg end in
  log_error code message ;;
  send_response code (Some message) ;;
  send_header "Connection" "close" ;;
  let body :=
    if ((200 <=? code) && negb ((code =? 204) || (code =? 205)
                                || (code =? 304)))%N
    then Some (encode_utf8
                 (error_message_format code (html_escape message)
                    (html_escape explain)))
    else None in
  match body with
  | Some b =>
      send_header "Content-Type" error_content_type ;;
      send_header "Content-Length" (of_N (len b))
  | None => ret tt
  end ;;
  end_headers ;;
  cmd <- get command ;;
  match body with
  | Some b =>
      when (negb (match cmd with
                  | Some c => String.eqb c "HEAD"
                  | None => false
                  end)
            && negb (String.eqb b ""))
        (wfile_write (Data b))
  | None => ret tt
  end.

(** [handle_expect_100] *)
Definition handle_expect_100 : M bool :=
  send_response_only 100 None ;;
  end_headers ;;
  ret true.

(** *** [BaseHTTPRequestHandler.parse_request] *)

(** The [try] block on the version: the text after ["HTTP/"] and the
    pair of numbers, or [None] for [ValueError] and [IndexError]. *)
Definition version_number (version : string) : option (string * (Z * Z)) :=
  if negb (startswith version "HTTP/") then None
  else match after "/" version with
       | None => None
       | Some base_version_number =>
           match split "." base_version_number with
           | [major; minor] =>
               match int major, int minor with
               | Some a, Some b => Some (base_version_number, (a, b))
               | _, _ => None
               end
           | _ => None
           end
       end.

(** The part of [parse_request] after the request line: the headers,
    [Connection] and [Expect]. *)
Definition parse_request_headers (r : request) : M bool :=
  match raw_headers r with
  | LineTooLong =>
      send_error 431 (Some "Line too long")
        (Some "got more than 65536 bytes when reading header line") ;;
      ret false
  | TooManyHeaders =>
      send_error 431 (Some "Too many headers")
        (Some "got more than 100 headers") ;;
      ret false
  | HeaderFields fields =>
      modify (set_headers fields) ;;
      let conntype :=
        match header_get "Connection" fields with
        | Some v => v
        | None => ""
        end in
      (if String.eqb (lower conntype) "close"
       then modify (set_close_connection true)
       else when (String.eqb (lower conntype) "keep-alive"
                  && str_ge protocol_version "HTTP/1.1")
              (modify (set_close_connection false))) ;;
      let expect :=
        match header_get "Expect" fields with
        | Some v => v
        | None => ""
        end in
      v <- get request_version ;;
      if String.eqb (lower expect) "100-continue"
         && str_ge protocol_version "HTTP/1.1"
         && str_ge v "HTTP/1.1"
      then handle_expect_100
      else ret true
  end.

Definition parse_request (r : request) : M bool :=
  modify (set_command None) ;;
  modify (set_request_version default_request_version) ;;
  modify (set_close_connection true) ;;
  let requestline := rstrip is_crlf (raw_requestline r) in
  modify (set_requestline requestline) ;;
  let words := split_ws requestline in
  match words with
  | [] => ret false
  | _ =>
      version_ok <-
        (if (3 <=? List.length words)%nat
         then
           let version := List.last words "" in
           match version_number version with
           | None =>
               send_error 400
                 (Some ("Bad request version (" ++ repr version ++ ")"))
                 None ;;
               ret false
           | Some (base_version_number, number) =>
               when (pair_ge number (1, 1)%Z
                     && str_ge protocol_version "HTTP/1.1")
                 (modify (set_close_connection false)) ;;
               if pair_ge number (2, 0)%Z
               then
                 send_error 505
                   (Some ("Invalid HTTP version (" ++ base_version_number
                          ++ ")"))
                   None ;;
                 ret false
               else modify (set_request_version version) ;; ret true
           end
         else ret true) ;;
      if negb version_ok then ret false
      else
        match words with
        | [cmd; p] =>
            modify (set_close_connection true) ;;
            if negb (String.eqb cmd "GET")
            then
              send_error 400
                (Some ("Bad HTTP/0.9 request type (" ++ repr cmd ++ ")"))
                None ;;
              ret false
            else
              modify (set_command (Some cmd)) ;;
              modify (set_path
                        (if startswith p "//"
                         then "/" ++ lstrip (is_char "/") p else p)) ;;
              parse_request_headers r
        | [cmd; p; _] =>
            modify (set_command (Some cmd)) ;;
            modify (set_path
                      (if startswith p "//"
                       then "/" ++ lstrip (is_char "/") p else p)) ;;
            parse_request_headers r
        | _ =>
            send_error 400
              (Some ("Bad request syntax (" ++ repr requestline ++ ")"))
              None ;;
            ret false
        end
  end.

(** *** [SimpleHTTPRequestHandler] *)

Definition unquote (s : string) : string :=
  if contains "%" s then unquote_escapes s else s.

(** The test of the loop in [translate_path] that skips a word. *)
Definition skipped (word : string) : bool :=
  negb (String.eqb (PosixPath.dirname word) "")
  || String.eqb word "." || String.eqb word "..".

Fixpoint join_words (path : string) (words : list string) : string :=
  match words with
  | [] => path
  | word :: rest =>
      if skipped word then join_words path rest
      else join_words (PosixPath.join path word) rest
  end.

Definition translate_path (dir p : string) : string :=
  let p := before "?" p in
  let p := before "#" p in
  let trailing_slash := endswith (rstrip isspace p) "/" in
  let p := unquote p in
  let p := PosixPath.normpath p in
  let words := List.filter (fun w => negb (String.eqb w "")) (split "/" p) in
  let p := join_words dir words in
  if trailing_slash then p ++ "/" else p.

Definition extensions_map (ext : string) : option string :=
  if String.eqb ext ".gz" then Some "application/gzip"
  else if String.eqb ext ".Z" then Some "application/octet-stream"
  else if String.eqb ext ".bz2" then Some "application/x-bzip2"
  else if String.eqb ext ".xz" then Some "application/x-xz"
  else None.

Definition guess_type (p : string) : M string :=
  let ext := snd (PosixPath.splitext p) in
  match extensions_map ext with
  | Some t => ret t
  | None =>
      match extensions_map (lower ext) with
      | Some t => ret t
      | None =>
          trace (OpMimetypes p) ;;
          match mimetypes_guess_type p with
          | Some guess =>
              if String.eqb guess "" then ret "application/octet-stream"
              else ret guess
          | None => ret "application/octet-stream"
          end
      end
  end.

(** [list.sort(key=lambda a: a.lower())]: a stable sort, here by
    insertion from the last name to the first. *)
Fixpoint insert_by_lower (a : string) (l : list string) : list string :=
  match l with
  | [] => [a]
  | b :: l' =>
      if String.leb (lower a) (lower b) then a :: l
      else b :: insert_by_lower a l'
  end.

Definition sort_by_lower (l : list string) : list string :=
  List.fold_right insert_by_lower [] l.

(** The loop of [list_directory] over the sorted names: each name with
    [os.path.isdir] and [os.path.islink] of its full name. *)
Fixpoint listing_entries (p : string) (names : list string)
  : M (list (string * bool * bool)) :=
  match names with
  | [] => ret []
  | name :: rest =>
      let fullname := PosixPath.join p name in
      trace (OpIsdir fullname) ;;
      trace (OpIslink fullname) ;;
      entries <- listing_entries p rest ;;
      ret ((name, isdir fs fullname, islink fs fullname) :: entries)
  end.

(** [list_directory] and [send_head] return the bytes of the file object
    the caller is to copy, or [None]. *)
Definition list_directory (p : string) : M (option string) :=
  trace (OpListdir p) ;;
  match listdir fs p with
  | None =>
      send_error 404 (Some "No permission to list directory") None ;;
      ret None
  | Some names =>
      entries <- listing_entries p (sort_by_lower names) ;;
      self_path <- get path ;;
      let encoded := listing_page self_path entries in
      send_response 200 None ;;
      send_header "Content-type"
        ("text/html; charset=" ++ filesystem_encoding) ;;
      send_header "Content-Length" (of_N (len encoded)) ;;
      end_headers ;;
      ret (Some encoded)
  end.

(** The part of [send_head] from [guess_type] on, for the path of a
    file.  The [try] around [open] catches [OSError] only: another
    exception leaves [send_head], [do_GET] or [do_HEAD], and
    [handle], none of which does anything more, so the handler is left
    as it is at that point. *)
Definition send_file_head (p : string) : M (option string) :=
  ctype <- guess_type p ;;
  if endswith p "/"
  then send_error 404 (Some "File not found") None ;; ret None
  else
    trace (OpOpen p) ;;
    match open_rb fs p with
    | None =>
        if open_raises fs p
        then raise_uncaught "ValueError" ;; ret None
        else send_error 404 (Some "File not found") None ;; ret None
    | Some f =>
        hs <- get headers ;;
        let not_modified :=
          if header_in "If-Modified-Since" hs
             && negb (header_in "If-None-Match" hs)
          then match header_get "If-Modified-Since" hs with
               | Some v =>
                   match parsedate_utc v with
                   | Some ims => (st_mtime f <=? ims)%Z
                   | None => false
                   end
               | None => false
               end
          else false in
        if not_modified
        then send_response 304 None ;; end_headers ;; ret None
        else
          send_response 200 None ;;
          send_header "Content-type" ctype ;;
          send_header "Content-Length" (of_N (len (content f))) ;;
          send_header "Last-Modified" (date_time_string (Some (st_mtime f))) ;;
          end_headers ;;
          ret (Some (content f))
    end.

Definition send_head : M (option string) :=
  self_path <- get path ;;
  dir <- get directory ;;
  let p := translate_path dir self_path in
  trace (OpIsdir p) ;;
  if isdir fs p
  then
    if negb (endswith (urlsplit_path self_path) "/")
    then
      send_response 301 None ;;
      send_header "Location" (urlunsplit_slash self_path) ;;
      send_header "Content-Length" "0" ;;
      end_headers ;;
      ret None
    else
      let index := PosixPath.join p "index.html" in
      trace (OpIsfile index) ;;
      if isfile fs index then send_file_head index
      else
        let index := PosixPath.join p "index.htm" in
        trace (OpIsfile index) ;;
        if isfile fs index then send_file_head index
        else list_directory p
  else send_file_head p.

Definition do_GET : M unit :=
  f <- send_head ;;
  match f with
  | Some bytes => wfile_write (Data bytes)
  | None => ret tt
  end.

Definition do_HEAD : M unit :=
  _ <- send_head ;;
  ret tt.

(** *** [BaseHTTPRequestHandler.handle_one_request] and [handle] *)

(** [hasattr(self, mname)] and [getattr(self, mname)] for the names that
    start with [do_]: the two methods of [SimpleHTTPRequestHandler] and
    the one [server.py] adds. *)
Definition getattr (mname : string) : option (M unit) :=
  if String.eqb mname "do_GET" then Some do_GET
  else if String.eqb mname "do_HEAD" then Some do_HEAD
  else if String.eqb mname "do_OPTIONS" then Some do_OPTIONS
  else None.

Definition handle_one_request (r : request) : M unit :=
  if (65536 <? len (raw_requestline r))%N
  then
    modify (set_requestline "") ;;
    modify (set_request_version "") ;;
    modify (set_command (Some "")) ;;
    send_error 414 None None
  else if String.eqb (raw_requestline r) ""
  then modify (set_close_connection true)
  else
    ok <- parse_request r ;;
    if negb ok then ret tt
    else
      cmd <- get command ;;
      let cmd := match cmd with Some c => c | None => "" end in
      match getattr ("do_" ++ cmd) with
      | None =>
          send_error 501
            (Some ("Unsupported method (" ++ repr cmd ++ ")")) None
      | Some method => method
      end.

(** [handle]: one request, then more while [close_connection] is
    false.  The requests still to come on the connection are the list. *)
Fixpoint handle_loop (rs : list request) : M unit :=
  match rs with
  | [] => modify (set_close_connection true)
  | r :: rest =>
      handle_one_request r ;;
      closing <- get close_connection ;;
      if closing then ret tt else handle_loop rest
  end.

Definition handle (rs : list request) : M unit :=
  modify (set_close_connection true) ;;
  handle_loop rs.

End Handler.

End HttpServer.

(** ** [server.py]: configuration and [main]

    A run of the process is determined by what the world does to it:
    whether [os.chdir] and the creation of the [TCPServer] raise, which
    connections arrive while [serve_forever] runs, and the exception that
    ends [serve_forever] (it has no other way to end: nothing calls
    [shutdown]).  When the constructor of the [TCPServer] raises,
    [bind_reached] tells whether it had come to [server_bind]: from
    there on [TCPServer.__init__] calls [server_close] itself before it
    raises again (a port in use is such a failure); an exception before
    that, while the socket is made, closes nothing. *)
Module Main.
Import PyStr Os HttpServer.

Inductive exn :=
| KeyboardInterrupt
| OSError (errno : Z) (strerror : string)
| OtherError (name : string).

(** What the process does that can be seen from outside, in order. *)
Inductive event :=
| Chdir (dir : string) (ok : bool)
| CreateServer (host : string) (port : Z) (ok : bool)
| Print (text : string)
| Serve (requests : list request) (response : list write)
| ServerClose
| Traceback (e : exn).

(** How the process ends: with an exit code, or killed by the signal the
    interpreter sends itself for a [KeyboardInterrupt] nobody caught. *)
Inductive exit_status :=
| ExitCode (n : Z)
| KilledBy (signal : Z).

Record world := {
  script_file : string;
  disk : filesystem;
  chdir_raises : option exn;
  create_server_raises : option exn;
  bind_reached : bool;
  connections : list (list request);
  serve_forever_raises : exn
}.

(** How a call of [main] ends. *)
Inductive outcome :=
| Returns
| Raises (e : exn)
| SystemExit (n : Z).

Definition PORT : Z := 3000.

(** [Path(__file__).parent], as [str] gives it. *)
Definition FRONTEND_DIR (w : world) : string :=
  PosixPath.parent (script_file w).

Definition utf8 (codes : list N) : string :=
  List.fold_right (fun n s => String (ascii_of_N n) s) "" codes.

(** The lines [main] prints, as the bytes of their UTF-8 encoding. *)
Definition banner (w : world) : list string :=
  [ utf8 [240; 159; 154; 128]%N
      ++ " Frontend server running at http://localhost:3000";
    utf8 [240; 159; 147; 129]%N
      ++ " Serving files from: " ++ FRONTEND_DIR w;
    utf8 [240; 159; 140; 144]%N
      ++ " Open your browser and go to: http://localhost:3000";
    utf8 [226; 143; 185; 239; 184; 143]%N
      ++ "  Press Ctrl+C to stop the server";
    "" ].

Definition shutdown_notice : string :=
  nl ++ utf8 [240; 159; 155; 145]%N ++ " Server stopped".

Section Run.
Context {lib : Library}.

(** [CustomHTTPRequestHandler(request, client_address, server)]: the
    constructor passes [directory=str(FRONTEND_DIR)] on and runs
    [handle] on the connection. *)
Definition CustomHTTPRequestHandler (w : world) (rs : list request) : event :=
  Serve rs
    (wfile (snd (handle (disk w) rs (new_handler (FRONTEND_DIR w))))).

(** [main] ([server.py], lines 34-50): the events and how the call
    ends. *)
Definition main (w : world) : list event * outcome :=
  match chdir_raises w with
  | Some e => ([Chdir (FRONTEND_DIR w) false], Raises e)
  | None =>
      match create_server_raises w with
      | Some e =>
          (([Chdir (FRONTEND_DIR w) true; CreateServer "" PORT false]
            ++ (if bind_reached w then [ServerClose] else []))%list,
           Raises e)
      | None =>
          let started :=
            ([Chdir (FRONTEND_DIR w) true; CreateServer "" PORT true]
             ++ List.map Print (banner w)
             ++ List.map (CustomHTTPRequestHandler w) (connections w))%list in
          match serve_forever_raises w with
          | KeyboardInterrupt =>
              ((started ++ [Print shutdown_notice; ServerClose])%list,
               SystemExit 0)
          | e => ((started ++ [ServerClose])%list, Raises e)
          end
      end
  end.

(** [python3 server.py]: the interpreter runs [main()] and ends the
    process; an exception nobody caught is reported with its traceback
    on standard error. *)
Definition run (w : world) : list event * exit_status :=
  let (events, result) := main w in
  match result with
  | Returns => (events, ExitCode 0)
  | SystemExit n => (events, ExitCode n)
  | Raises KeyboardInterrupt =>
      ((events ++ [Traceback KeyboardInterrupt])%list, KilledBy 2)
  | Raises e => ((events ++ [Traceback e])%list, ExitCode 1)
  end.

End Run.

(** The current directory after a list of events, from [cwd]. *)
Fixpoint cwd_after (cwd : string) (events : list event) : string :=
  match events with
  | [] => cwd
  | Chdir dir true :: rest => cwd_after dir rest
  | _ :: rest => cwd_after cwd rest
  end.

Definition is_chdir (e : event) : bool :=
  match e with Chdir _ _ => true | _ => false end.

Definition is_network (e : event) : bool :=
  match e with CreateServer _ _ _ | Serve _ _ => true | _ => false end.

Definition stdout (events : list event) : list string :=
  List.flat_map (fun e => match e with Print t => [t] | _ => [] end) events.

Definition stderr (events : list event) : list exn :=
  List.flat_map (fun e => match e with Traceback x => [x] | _ => [] end)
    events.

End Main.

(** ** The vocabulary of the properties *)
Module Props.
Import PyStr Os HttpServer.

(** The three headers [end_headers] adds. *)
Definition cors_headers : list line :=
  [Header "Access-Control-Allow-Origin" "*";
   Header "Access-Control-Allow-Methods" "GET, POST, OPTIONS";
   Header "Access-Control-Allow-Headers" "Content-Type"].

(** A handler whose request version is ["HTTP/0.9"] buffers no status
    line and no header, and [end_headers] flushes nothing. *)
Definition quiet (h : handler) : bool :=
  String.eqb (request_version h) "HTTP/0.9".

(** The message of a status line. *)
Definition phrase (code : N) (message : option string) : string :=
  match message with
  | Some m => m
  | None => match responses code with Some (p, _) => p | None => "" end
  end.

(** The handler after [ls] went to the headers buffer, and after the
    buffer, closed by the empty line, went to [wfile]. *)
Definition buffered (ls : list line) (h : handler) : handler :=
  if quiet h then h else set_headers_buffer (headers_buffer h ++ ls) h.

Definition flushed (h : handler) : handler :=
  if quiet h then h
  else set_headers_buffer []
         (set_wfile
            (wfile h ++ [HeaderBlock (headers_buffer h ++ [EndOfHeaders])])
            h).

Definition logged (e : log_entry) (h : handler) : handler :=
  set_log (log h ++ [e]) h.

(** Reading a response off [wfile]: the code of the first status line,
    the header lines, and the bytes that follow the headers. *)
Fixpoint first_status (ls : list line) : option N :=
  match ls with
  | [] => None
  | StatusLine _ code _ :: _ => Some code
  | _ :: rest => first_status rest
  end.

Fixpoint status (ws : list write) : option N :=
  match ws with
  | [] => None
  | HeaderBlock ls :: rest =>
      match first_status ls with
      | Some c => Some c
      | None => status rest
      end
  | Data _ :: rest => status rest
  end.

Definition header_lines (ws : list write) : list line :=
  List.flat_map (fun w => match w with HeaderBlock ls => ls | Data _ => [] end)
    ws.

Definition body (ws : list write) : string :=
  String.concat ""
    (List.flat_map (fun w => match w with Data b => [b] | HeaderBlock _ => [] end)
       ws).

(** A request line whose last of three words is an HTTP/1.x version. *)
Definition http1 (v : string) : Prop :=
  exists base minor, version_number v = Some (base, (1%Z, minor)).

(** A request the handler parses as method [cmd], target [p] and version
    [v] of HTTP/1.x with the header fields [fields]. *)
Definition wellformed (r : request) (cmd p v : string)
    (fields : list (string * string)) : Prop :=
  (len (raw_requestline r) <=? 65536)%N = true
  /\ split_ws (rstrip is_crlf (raw_requestline r)) = [cmd; p; v]
  /\ http1 v
  /\ raw_headers r = HeaderFields fields.

(** [self.path] for the target [p]. *)
Definition fix_path (p : string) : string :=
  if startswith p "//" then "/" ++ lstrip (is_char "/") p else p.

(** The handler after [parse_request] accepted such a request. *)
Definition parsed (line cmd p v : string) (fields : list (string * string))
    (h : handler) : handler :=
  {| directory := directory h; requestline := rstrip is_crlf line;
     command := Some cmd; path := fix_path p; request_version := v;
     headers := fields; close_connection := true;
     headers_buffer := headers_buffer h; wfile := wfile h; log := log h;
     fs_trace := fs_trace h |}.

(** What [send_error] makes of its arguments. *)
Definition error_message (code : N) (message : option string) : string :=
  match message with
  | Some m => m
  | None => match responses code with Some (s, _) => s | None => "???" end
  end.

Definition error_explain (code : N) (explain : option string) : string :=
  match explain with
  | Some e => e
  | None => match responses code with Some (_, l) => l | None => "???" end
  end.

Definition error_page (code : N) (message explain : option string)
  : string :=
  encode_utf8
    (error_message_format code (html_escape (error_message code message))
       (html_escape (error_explain code explain))).

Definition has_body (code : N) : bool :=
  ((200 <=? code)
   && negb ((code =? 204) || (code =? 205) || (code =? 304)))%N.

Definition is_head (h : handler) : bool :=
  match command h with
  | Some c => String.eqb c "HEAD"
  | None => false
  end.

(** The status line and the two headers of [send_response]. *)
Definition response_lines {lib : Library} (code : N) (message : string)
  : list line :=
  [StatusLine protocol_version code message;
   Header "Server" version_string;
   Header "Date" (date_time_string None)].

(** The handler after [send_error]. *)
Definition sent_error {lib : Library} (code : N)
    (message explain : option string) (h : handler) : handler :=
  let msg := error_message code message in
  let page := error_page code message explain in
  let lines :=
    (response_lines code msg ++ [Header "Connection" "close"]
     ++ (if has_body code
         then [Header "Content-Type" error_content_type;
               Header "Content-Length" (of_N (len page))]
         else [])
     ++ cors_headers)%list in
  let h' :=
    flushed
      (buffered lines
         (set_close_connection true
            (logged (LogRequest (requestline h) code)
               (logged (LogError code msg) h)))) in
  if has_body code && negb (is_head h)
  then set_wfile (wfile h' ++ [Data page]) h'
  else h'.

(** *** Paths inside the served directory

    A name that [posixpath.join] appends as one component below a
    directory: no slash in it, and neither ["."] nor [".."]. *)
Definition plain_name (w : string) : bool :=
  negb (contains "/" w) && negb (String.eqb w ".")
  && negb (String.eqb w "..").

(** The paths inside [root]: [root] itself, a path inside it joined with
    a plain name, and a path inside it followed by a slash.  Resolving
    such a path never leaves the tree below [root] unless a symbolic link
    on the way leads out. *)
Inductive inside (root : string) : string -> Prop :=
| inside_root : inside root root
| inside_child q w :
    inside root q -> plain_name w = true ->
    inside root (PosixPath.join q w)
| inside_slash q : inside root q -> inside root (q ++ "/").

(** [os.listdir] gives plain names (the kernel's directory entries have
    no slash, and [os.listdir] leaves ["."] and [".."] out). *)
Definition listdir_plain (fs : filesystem) : Prop :=
  forall q names name,
    listdir fs q = Some names -> In name names -> plain_name name = true.

(** A tree all of whose entries have plain names. *)
Fixpoint names_plain (n : node) : bool :=
  match n with
  | File _ _ _ => true
  | Dir es =>
      (fix all (es : list (string * node)) : bool :=
         match es with
         | [] => true
         | (name, x) :: rest => plain_name name && names_plain x && all rest
         end) es
  end.

(** The request path escapes the served directory when it is resolved
    the plain way: joined to the root and normalised, it is no longer
    the root or a path below it. *)
Definition below (root p : string) : bool :=
  String.eqb p root || startswith p (root ++ "/").

Definition resolves_outside (root request_path : string) : bool :=
  negb (below root
          (PosixPath.normpath
             (root ++ "/" ++ before "?" (before "#" request_path)))).

(** *** What every run of the handler maintains

    [path_ok root p] is the condition on the paths handed to the file
    system, left open here: the properties below take it as "[p] lies
    inside [root]", or as no condition at all. *)
Section Invariant.
Context {lib : Library}.
Variable fs : filesystem.
Variable path_ok : string -> string -> Prop.

Definition line_ok (l : line) : Prop :=
  match l with
  | StatusLine _ c _ => c <> 403%N
  | _ => True
  end.

(** Where the bytes of a body come from: the error page of
    [send_error], the listing of a directory, or a file that was
    opened. *)
Definition data_ok (root b : string) : Prop :=
  (exists code message explain, b = error_page code message explain)
  \/ (exists p names self_path entries,
        path_ok root p /\ listdir fs p = Some names
        /\ b = listing_page self_path entries)
  \/ (exists p f, path_ok root p /\ open_rb fs p = Some f /\ b = content f).

Definition write_ok (root : string) (w : write) : Prop :=
  match w with
  | HeaderBlock ls => incl cors_headers ls /\ Forall line_ok ls
  | Data b => data_ok root b
  end.

Definition log_ok (e : log_entry) : Prop :=
  match e with
  | LogRequest _ c => c <> 403%N
  | LogError c _ => c <> 403%N
  | LogException _ => True
  end.

Definition Inv (root : string) (h : handler) : Prop :=
  directory h = root
  /\ Forall line_ok (headers_buffer h)
  /\ Forall (write_ok root) (wfile h)
  /\ Forall log_ok (log h)
  /\ Forall (fun o => path_ok root (op_path o)) (fs_trace h).

(** A method keeps a property of the handler. *)
Definition preserves {A : Type} (P : handler -> Prop) (m : M A) : Prop :=
  forall h, P h -> P (snd (m h)).

(** A method keeps [Inv] and returns a value that satisfies [Q]. *)
Definition returns {A : Type} (root : string) (m : M A) (Q : A -> Prop)
  : Prop :=
  forall h, Inv root h -> Inv root (snd (m h)) /\ Q (fst (m h)).

(** What [send_head] and [list_directory] return is in order as a
    body. *)
Definition body_ok (root : string) (r : option string) : Prop :=
  forall b, r = Some b -> data_ok root b.

End Invariant.

(** The handler's answer to one request on a fresh connection. *)
Definition respond {lib : Library} (fs : filesystem) (dir : string)
    (r : request) : handler :=
  snd (handle_one_request fs r (new_handler dir)).

(** Two file systems that answer alike at every path inside [root]. *)
Definition agree_inside (root : string) (fs1 fs2 : filesystem) : Prop :=
  forall p,
    inside root p ->
    isdir fs1 p = isdir fs2 p /\ isfile fs1 p = isfile fs2 p
    /\ islink fs1 p = islink fs2 p /\ open_rb fs1 p = open_rb fs2 p
    /\ open_raises fs1 p = open_raises fs2 p
    /\ listdir fs1 p = listdir fs2 p.

(** *** The type of a file

    What [guess_type] returns for a path, and the call of
    [mimetypes.guess_type] it makes for that when the extension of the
    path is not in [extensions_map]. *)
Definition content_type {lib : Library} (p : string) : string :=
  let ext := snd (PosixPath.splitext p) in
  match extensions_map ext with
  | Some t => t
  | None =>
      match extensions_map (lower ext) with
      | Some t => t
      | None =>
          match mimetypes_guess_type p with
          | Some guess =>
              if String.eqb guess "" then "application/octet-stream"
              else guess
          | None => "application/octet-stream"
          end
      end
  end.

Definition guess_ops (p : string) : list fs_op :=
  let ext := snd (PosixPath.splitext p) in
  match extensions_map ext with
  | Some _ => []
  | None =>
      match extensions_map (lower ext) with
      | Some _ => []
      | None => [OpMimetypes p]
      end
  end.

Definition is_mimetypes (o : fs_op) : bool :=
  match o with OpMimetypes _ => true | _ => false end.

(** *** The files a GET serves *)

(** A character that stands for itself in a segment of a request target:
    it is no separator of the path, of the query or of the fragment, no
    percent sign and no white space. *)
Definition segment_char (c : ascii) : bool :=
  negb (isspace c) && negb (Ascii.eqb c "/") && negb (Ascii.eqb c "?")
  && negb (Ascii.eqb c "#") && negb (Ascii.eqb c "%").

Fixpoint segment_chars (s : string) : bool :=
  match s with
  | "" => true
  | String c s' => segment_char c && segment_chars s'
  end.

(** A segment that names an entry of a directory. *)
Definition segment (w : string) : bool :=
  negb (String.eqb w "") && segment_chars w
  && negb (String.eqb w ".") && negb (String.eqb w "..").

(** The request target made of the segments [ws], and the entry of the
    file system these segments name below [root]. *)
Definition target (ws : list string) : string := "/" ++ PyStr.join "/" ws.

Definition location (root : string) (ws : list string) : string :=
  List.fold_left PosixPath.join ws root.

(** The test of [send_head] on [If-Modified-Since]. *)
Definition not_modified {lib : Library} (fields : list (string * string))
    (f : file) : bool :=
  if header_in "If-Modified-Since" fields
     && negb (header_in "If-None-Match" fields)
  then match header_get "If-Modified-Since" fields with
       | Some v =>
           match parsedate_utc v with
           | Some ims => (st_mtime f <=? ims)%Z
           | None => false
           end
       | None => false
       end
  else false.

(** *** The listing of a directory *)

(** What [list_directory] hands to the page for the names [names] of the
    directory [p], and the calls it makes for that. *)
Definition listed (fs : filesystem) (p : string) (names : list string)
  : list (string * bool * bool) :=
  List.map (fun name =>
              (name, isdir fs (PosixPath.join p name),
               islink fs (PosixPath.join p name))) names.

Definition listing_ops (p : string) (names : list string) : list fs_op :=
  List.flat_map (fun name =>
                   [OpIsdir (PosixPath.join p name);
                    OpIslink (PosixPath.join p name)]) names.


(** The connection is to be closed after the request at hand. *)
Definition closing (h : handler) : Prop := close_connection h = true.

End Props.

(** ** Concrete data for the examples

    An instance of the abstract library functions, a small disk and a few
    requests, on which the model runs by computation. *)
Module Examples.
Import PyStr Os HttpServer Props.

Definition hex_value (c : ascii) : option N :=
  let n := code c in
  if ((48 <=? n) && (n <=? 57))%N then Some (n - 48)%N
  else if ((65 <=? n) && (n <=? 70))%N then Some (n - 55)%N
  else if ((97 <=? n) && (n <=? 102))%N then Some (n - 87)%N
  else None.

(** Percent-decoding, exact where the decoded bytes are ASCII. *)
Fixpoint percent_decode (s : string) : string :=
  match s with
  | String "%" (String a (String b rest as tail) as tail') =>
      match hex_value a, hex_value b with
      | Some x, Some y => String (ascii_of_N (16 * x + y)) (percent_decode rest)
      | _, _ => String "%" (percent_decode tail')
      end
  | String c rest => String c (percent_decode rest)
  | "" => ""
  end.

(** [urlunsplit] of the parts of a target with a slash appended to the
    path: the query and the fragment stay (exact for a target without
    scheme and host whose query and fragment, when there, are not
    empty). *)
Definition example_urlunsplit_slash (s : string) : string :=
  let p := before "?" (before "#" s) in
  p ++ "/" ++ String.substring (String.length p)
                (String.length s - String.length p) s.

(** A few entries of the table of [mimetypes] in Python 3.11. *)
Definition example_guess_type (p : string) : option string :=
  if endswith p ".html" then Some "text/html"
  else if endswith p ".css" then Some "text/css"
  else if endswith p ".js" then Some "application/javascript"
  else if endswith p ".json" then Some "application/json"
  else if endswith p ".txt" then Some "text/plain"
  else if endswith p ".png" then Some "image/png"
  else None.

#[export] Instance example_library : Library :=
  {| sys_version := "Python/3.11.2";
     date_time_string := fun _ => "Thu, 01 Jan 1970 00:00:00 GMT";
     unquote_escapes := percent_decode;
     urlsplit_path := fun s => before "?" (before "#" s);
     urlunsplit_slash := example_urlunsplit_slash;
     mimetypes_guess_type := example_guess_type;
     parsedate_utc := fun _ => None;
     filesystem_encoding := "utf-8";
     listing_page :=
       fun p entries =>
         "Directory listing for " ++ p ++ nl
         ++ String.concat nl (List.map (fun e => fst (fst e)) entries) |}.

(** The disk: the served directory [/srv/frontend] with [index.html], a
    file the server may not read, and a subdirectory; and, outside it,
    [/etc/passwd] and [/srv/index.html]. *)
Definition example_tree : node :=
  Dir [("etc", Dir [("passwd", File "root:x:0:0:root:/root:/bin/sh" 0 true)]);
       ("srv",
        Dir [("index.html", File "<h1>Outside</h1>" 0 true);
             ("frontend",
              Dir [("index.html", File "<h1>Hi</h1>" 0 true);
                   ("private.key", File "secret" 0 false);
                   ("assets", Dir [("app.js", File "main()" 0 true)])])])].

Definition example_root : string := "/srv/frontend".

Definition example_fs : filesystem := tree_fs example_tree example_root.

Definition request_of (line : string) : request :=
  {| raw_requestline := line ++ crlf;
     raw_headers := HeaderFields [("Host", "localhost:3000")] |}.

(** Worlds: the script is [/srv/frontend/server.py] on that disk. *)
Definition example_world (chdir create : option Main.exn)
    (conns : list (list request)) (stop : Main.exn) : Main.world :=
  {| Main.script_file := "/srv/frontend/server.py";
     Main.disk := example_fs;
     Main.chdir_raises := chdir;
     Main.create_server_raises := create;
     Main.bind_reached := true;
     Main.connections := conns;
     Main.serve_forever_raises := stop |}.

(** A request line of more than 65536 bytes. *)
Definition long_target : string :=
  "/" ++ PyStr.join "" (List.repeat "a" (N.to_nat 65536)).

(** The same library with a parser for the one date it prints, and a
    request that carries this date. *)
Definition dated_library : Library :=
  {| sys_version := "Python/3.11.2";
     date_time_string := fun _ => "Thu, 01 Jan 1970 00:00:00 GMT";
     unquote_escapes := percent_decode;
     urlsplit_path := fun s => before "?" (before "#" s);
     urlunsplit_slash := example_urlunsplit_slash;
     mimetypes_guess_type := example_guess_type;
     parsedate_utc :=
       fun s => if String.eqb s "Thu, 01 Jan 1970 00:00:00 GMT"
                then Some 0%Z else None;
     filesystem_encoding := "utf-8";
     listing_page :=
       fun p entries =>
         "Directory listing for " ++ p ++ nl
         ++ String.concat nl (List.map (fun e => fst (fst e)) entries) |}.

Definition conditional_request (line : string) : request :=
  {| raw_requestline := line ++ crlf;
     raw_headers :=
       HeaderFields [("Host", "localhost:3000");
                     ("If-Modified-Since", "Thu, 01 Jan 1970 00:00:00 GMT")] |}.

End Examples.
Import PyStr Os HttpServer Props.

Ltac hsimpl :=
  cbn [fst snd directory requestline command path request_version headers
       close_connection headers_buffer wfile log fs_trace
       set_requestline set_command set_path set_request_version set_headers
       set_close_connection set_headers_buffer set_wfile set_log
       set_fs_trace].
Ltac hsimpl_in H :=
  cbn [fst snd directory requestline command path request_version headers
       close_connection headers_buffer wfile log fs_trace
       set_requestline set_command set_path set_request_version set_headers
       set_close_connection set_headers_buffer set_wfile set_log
       set_fs_trace] in H.

Lemma handler_ext (h1 h2 : handler) :
  directory h1 = directory h2 ->
  requestline h1 = requestline h2 ->
  command h1 = command h2 ->
  path h1 = path h2 ->
  request_version h1 = request_version h2 ->
  headers h1 = headers h2 ->
  close_connection h1 = close_connection h2 ->
  headers_buffer h1 = headers_buffer h2 ->
  wfile h1 = wfile h2 ->
  log h1 = log h2 ->
  fs_trace h1 = fs_trace h2 ->
  h1 = h2.
Proof.
  destruct h1, h2. cbn. intros. subst. reflexivity.
Qed.

Ltac hext :=
  apply handler_ext; hsimpl; rewrite <- ?app_assoc; try reflexivity.

Ltac by_quiet h :=
  unfold buffered, flushed, logged, quiet; hsimpl;
  destruct (String.eqb (request_version h) "HTTP/0.9") eqn:?E;
  hsimpl; rewrite ?E; hsimpl; try reflexivity.

Section Equations.
Context {lib : Library}.
Variable fs : filesystem.

Lemma http1_not_09 v : http1 v -> String.eqb v "HTTP/0.9" = false.
Proof.
  intros (b & m & H). destruct (String.eqb_spec v "HTTP/0.9") as [->|]; auto.
  vm_compute in H. discriminate.
Qed.

Lemma send_response_only_eq code m h :
  send_response_only code m h
  = (tt, buffered [StatusLine protocol_version code (phrase code m)] h).
Proof.
  unfold send_response_only, buffered, quiet, bind, get, when, buffer_append,
    modify, ret.
  hsimpl.
  destruct (String.eqb (request_version h) "HTTP/0.9"); cbn [negb];
    destruct m; try reflexivity.
Qed.

Lemma send_header_eq k v h :
  String.eqb (lower k) "connection" = false ->
  send_header k v h = (tt, buffered [Header k v] h).
Proof.
  intros Hk.
  unfold send_header, buffered, quiet, bind, get, when, buffer_append, modify,
    ret.
  hsimpl. rewrite Hk.
  destruct (String.eqb (request_version h) "HTTP/0.9"); reflexivity.
Qed.

Lemma send_header_connection_close h :
  send_header "Connection" "close" h
  = (tt, set_close_connection true (buffered [Header "Connection" "close"] h)).
Proof.
  unfold send_header, buffered, quiet, bind, get, when, buffer_append, modify,
    ret.
  hsimpl.
  destruct (String.eqb (request_version h) "HTTP/0.9"); reflexivity.
Qed.

Lemma super_end_headers_eq h : super_end_headers h = (tt, flushed h).
Proof.
  unfold super_end_headers, flushed, quiet, bind, get, when, buffer_append,
    flush_headers, modify, ret.
  hsimpl.
  destruct (String.eqb (request_version h) "HTTP/0.9"); reflexivity.
Qed.

Lemma buffered_buffered l1 l2 h :
  buffered l2 (buffered l1 h) = buffered (l1 ++ l2) h.
Proof.
  unfold buffered, quiet.
  destruct (String.eqb (request_version h) "HTTP/0.9") eqn:E.
  - rewrite E. reflexivity.
  - hsimpl. rewrite E. unfold set_headers_buffer. hsimpl.
    rewrite <- app_assoc. reflexivity.
Qed.

Lemma end_headers_eq h :
  end_headers h = (tt, flushed (buffered cors_headers h)).
Proof.
  unfold end_headers, bind.
  repeat (rewrite send_header_eq by reflexivity; hsimpl).
  rewrite super_end_headers_eq, !buffered_buffered. reflexivity.
Qed.

Lemma send_response_eq code m h :
  send_response code m h
  = (tt, buffered (response_lines code (phrase code m))
           (logged (LogRequest (requestline h) code) h)).
Proof.
  unfold send_response, bind, log_request, modify. hsimpl.
  rewrite send_response_only_eq. hsimpl.
  repeat (rewrite send_header_eq by reflexivity; hsimpl).
  rewrite !buffered_buffered. reflexivity.
Qed.

Lemma encode_utf8_nonempty c s :
  String.eqb (encode_utf8 (String c s)) "" = false.
Proof. cbn [encode_utf8]. destruct (_ <? _)%N; reflexivity. Qed.

Lemma error_page_nonempty code m e :
  String.eqb (error_page code m e) "" = false.
Proof.
  unfold error_page, error_message_format. cbn [append].
  apply encode_utf8_nonempty.
Qed.

Lemma send_error_unfold code m e h :
  send_error code m e h
  = (log_error code (error_message code m) ;;
     send_response code (Some (error_message code m)) ;;
     send_header "Connection" "close" ;;
     (if has_body code
      then send_header "Content-Type" error_content_type ;;
           send_header "Content-Length" (of_N (len (error_page code m e)))
      else ret tt) ;;
     end_headers ;;
     cmd <- get command ;;
     if has_body code
     then when (negb (match cmd with
                      | Some c => String.eqb c "HEAD"
                      | None => false
                      end)
                && negb (String.eqb (error_page code m e) ""))
            (wfile_write (Data (error_page code m e)))
     else ret tt) h.
Proof.
  unfold send_error, error_page, error_message, error_explain, has_body.
  destruct m, e, (responses code) as [[? ?]|];
    destruct ((200 <=? code)
              && negb ((code =? 204) || (code =? 205) || (code =? 304)))%N;
    reflexivity.
Qed.

#[local] Opaque error_page version_string of_N len.

Lemma buffered_set_close b l h :
  set_close_connection b (buffered l h)
  = buffered l (set_close_connection b h).
Proof. by_quiet h. Qed.

Lemma quiet_buffered l h : quiet (buffered l h) = quiet h.
Proof. by_quiet h; unfold quiet; hsimpl; assumption. Qed.

Lemma quiet_flushed h : quiet (flushed h) = quiet h.
Proof. by_quiet h; unfold quiet; hsimpl; assumption. Qed.

Lemma command_buffered l h : command (buffered l h) = command h.
Proof. by_quiet h. Qed.

Lemma command_flushed h : command (flushed h) = command h.
Proof. by_quiet h. Qed.

Lemma is_head_emitted l h : is_head (flushed (buffered l h)) = is_head h.
Proof. unfold is_head. rewrite command_flushed, command_buffered. reflexivity. Qed.

Lemma send_error_eq code m e h :
  send_error code m e h = (tt, sent_error code m e h).
Proof.
  rewrite send_error_unfold.
  unfold bind, log_error, modify, get, when, wfile_write, ret.
  hsimpl. rewrite send_response_eq. hsimpl.
  rewrite send_header_connection_close. hsimpl.
  unfold sent_error. fold (is_head h).
  destruct (has_body code) eqn:B.
  - repeat (rewrite send_header_eq by reflexivity; hsimpl).
    rewrite end_headers_eq. hsimpl.
    rewrite error_page_nonempty.
    rewrite !buffered_set_close, !buffered_buffered.
    unfold phrase, logged. hsimpl.
    rewrite <- !app_assoc. cbn [app andb negb].
    match goal with
    | |- context [negb match command ?x with _ => _ end] =>
        change (match command x with
                | Some c => String.eqb c "HEAD"
                | None => false
                end) with (is_head x)
    end.
    rewrite is_head_emitted.
    match goal with
    | |- context [is_head ?x] =>
        lazymatch x with h => fail | _ => change (is_head x) with (is_head h) end
    end.
    rewrite andb_true_r. unfold modify.
    destruct (is_head h); reflexivity.
  - rewrite end_headers_eq. hsimpl.
    rewrite !buffered_set_close, !buffered_buffered.
    unfold phrase, logged. hsimpl.
    rewrite <- !app_assoc. cbn [app andb negb]. reflexivity.
Qed.

End Equations.

Section Requests.
Context {lib : Library}.
Variable fs : filesystem.

Lemma emitted_loud l h :
  quiet h = false ->
  flushed (buffered l h)
  = set_headers_buffer []
      (set_wfile
         (wfile h ++ [HeaderBlock (headers_buffer h ++ l ++ [EndOfHeaders])])
         h).
Proof.
  unfold flushed, buffered, quiet. intros Q. rewrite Q. hsimpl. rewrite Q.
  hext.
Qed.

Lemma emitted_quiet l h : quiet h = true -> flushed (buffered l h) = h.
Proof.
  unfold flushed, buffered, quiet. intros Q. rewrite Q. rewrite Q. reflexivity.
Qed.

Lemma do_OPTIONS_eq h :
  do_OPTIONS h
  = (tt, flushed (buffered (response_lines 200 "OK" ++ cors_headers)
                    (logged (LogRequest (requestline h) 200) h))).
Proof.
  unfold do_OPTIONS, bind. rewrite send_response_eq. hsimpl.
  rewrite end_headers_eq, buffered_buffered. reflexivity.
Qed.

Lemma parse_request_http1 line cmd p v fields h :
  split_ws (rstrip is_crlf line) = [cmd; p; v] ->
  http1 v ->
  parse_request {| raw_requestline := line; raw_headers := HeaderFields fields |} h
  = (true, parsed line cmd p v fields h).
Proof.
  intros Hsplit (b & m & Hv).
  unfold parse_request. cbn [raw_requestline raw_headers].
  rewrite Hsplit.
  unfold bind, modify, ret, when, get, parse_request_headers.
  cbn [raw_requestline raw_headers List.length Nat.leb List.last fst snd].
  rewrite Hv. cbn [fst snd pair_ge].
  replace (str_ge protocol_version "HTTP/1.1") with false by reflexivity.
  replace (pair_ge (1%Z, m) (2, 0)%Z) with false by reflexivity.
  rewrite !andb_false_r. cbn [negb fst snd]. hsimpl.
  unfold bind, modify, ret, when, get. cbn [andb]. hsimpl.
  unfold parsed, fix_path.
  destruct (String.eqb (lower _) "close"); f_equal; hext.
Qed.

Lemma handle_wellformed r cmd p v fields h :
  wellformed r cmd p v fields ->
  handle_one_request fs r h
  = match getattr fs ("do_" ++ cmd) with
    | Some method => method
    | None =>
        send_error 501 (Some ("Unsupported method (" ++ repr cmd ++ ")")) None
    end (parsed (raw_requestline r) cmd p v fields h).
Proof.
  intros (Hlen & Hsplit & Hv & Hh).
  destruct r as [line rh]. cbn [raw_requestline raw_headers] in *. subst rh.
  unfold handle_one_request. cbn [raw_requestline].
  rewrite N.ltb_antisym, Hlen. cbn [negb].
  destruct (String.eqb_spec line "") as [->|Hne];
    [vm_compute in Hsplit; discriminate|].
  unfold bind at 1. rewrite (parse_request_http1 _ _ _ _ _ _ Hsplit Hv).
  reflexivity.
Qed.

Lemma guess_type_eq p h :
  guess_type p h
  = (content_type p, set_fs_trace (fs_trace h ++ guess_ops p) h).
Proof.
  unfold guess_type, content_type, guess_ops. cbv zeta.
  destruct (extensions_map (snd (PosixPath.splitext p)));
    [unfold ret; f_equal; hext; rewrite app_nil_r; reflexivity|].
  destruct (extensions_map (lower (snd (PosixPath.splitext p))));
    [unfold ret; f_equal; hext; rewrite app_nil_r; reflexivity|].
  unfold bind, trace, modify, ret. hsimpl.
  destruct (mimetypes_guess_type p) as [g|]; [destruct (String.eqb g "")|];
    reflexivity.
Qed.

End Requests.

Section Methods.
Context {lib : Library}.
Variable fs : filesystem.

Lemma quiet_parsed line cmd p v fields h :
  http1 v -> quiet (parsed line cmd p v fields h) = false.
Proof. intros Hv. unfold quiet. hsimpl. apply http1_not_09, Hv. Qed.

Lemma options_response dir r p v fields :
  wellformed r "OPTIONS" p v fields ->
  respond fs dir r
  = set_headers_buffer []
      (set_wfile
         [HeaderBlock (response_lines 200 "OK" ++ cors_headers
                       ++ [EndOfHeaders])]
         (logged (LogRequest (rstrip is_crlf (raw_requestline r)) 200)
            (parsed (raw_requestline r) "OPTIONS" p v fields
               (new_handler dir)))).
Proof.
  intros W. unfold respond. rewrite (handle_wellformed fs _ _ _ _ _ _ W).
  destruct W as (_ & _ & Hv & _).
  change (getattr fs ("do_" ++ "OPTIONS")) with (Some do_OPTIONS).
  cbv beta iota.
  rewrite do_OPTIONS_eq. hsimpl.
  rewrite emitted_loud
    by (unfold quiet, logged; hsimpl; apply http1_not_09, Hv).
  hext.
Qed.

Lemma post_response dir r p v fields :
  wellformed r "POST" p v fields ->
  respond fs dir r
  = sent_error 501 (Some "Unsupported method ('POST')") None
      (parsed (raw_requestline r) "POST" p v fields (new_handler dir)).
Proof.
  intros W. unfold respond. rewrite (handle_wellformed fs _ _ _ _ _ _ W).
  change (getattr fs ("do_" ++ "POST")) with (@None (M unit)).
  cbv beta iota.
  change ("Unsupported method (" ++ repr "POST" ++ ")")
    with "Unsupported method ('POST')".
  rewrite send_error_eq. reflexivity.
Qed.


(** C3, as the code has it.  For every request path, an OPTIONS request
    that the handler parses (a request line of at most 65536 bytes and
    of three words, the last an HTTP/1.x version, and headers that
    parse) receives a response with status 200, an empty body and the
    three CORS headers. *)
Theorem options_preflight dir r p v fields :
  wellformed r "OPTIONS" p v fields ->
  status (wfile (respond fs dir r)) = Some 200%N
  /\ body (wfile (respond fs dir r)) = ""
  /\ incl cors_headers (header_lines (wfile (respond fs dir r))).
Proof.
  intros W. rewrite (options_response _ _ _ _ _ W). hsimpl.
  repeat split.
  intros l Hl. cbn [header_lines flat_map app].
  rewrite app_nil_r. apply in_or_app. right. apply in_or_app. left. exact Hl.
Qed.

(** C9, as the code has it.  Every response advertises POST in
    Access-Control-Allow-Methods, yet a POST request that the handler
    parses (a request line of at most 65536 bytes and of three words,
    the last an HTTP/1.x version, and headers that parse) is rejected
    with the unsupported-method error 501, and the handler touches no
    file while answering it. *)
Theorem post_not_implemented dir r p v fields :
  wellformed r "POST" p v fields ->
  status (wfile (respond fs dir r)) = Some 501%N
  /\ In (Header "Access-Control-Allow-Methods" "GET, POST, OPTIONS")
        (header_lines (wfile (respond fs dir r)))
  /\ body (wfile (respond fs dir r))
     = error_page 501 (Some "Unsupported method ('POST')") None
  /\ In (LogError 501 "Unsupported method ('POST')") (log (respond fs dir r))
  /\ fs_trace (respond fs dir r) = [].
Proof.
  intros W. rewrite (post_response _ _ _ _ _ W).
  destruct W as (_ & _ & Hv & _).
  unfold sent_error, is_head, parsed, new_handler. hsimpl.
  change (has_body 501) with true.
  change ("POST" =? "HEAD") with false. cbn [andb negb].
  rewrite emitted_loud
    by (unfold quiet, logged; hsimpl; apply http1_not_09, Hv).
  unfold logged. hsimpl.
  repeat split.
  - cbn [header_lines flat_map app response_lines cors_headers In]. tauto.
  - cbn [app In]. tauto.
Qed.

End Methods.

(** C8, as the code has it.  The answer to an OPTIONS request that the
    handler parses (a request line of at most 65536 bytes and of three
    words, the last an HTTP/1.x version, and headers that parse) does
    not depend on the request path or on the file system: for any two
    such requests and any two file systems the handler writes the same
    bytes, with status 200, and makes no call into the file system. *)
Theorem options_independent {lib : Library} (fs1 fs2 : filesystem) dir
    r1 r2 p1 p2 v1 v2 fields1 fields2 :
  wellformed r1 "OPTIONS" p1 v1 fields1 ->
  wellformed r2 "OPTIONS" p2 v2 fields2 ->
  wfile (respond fs1 dir r1) = wfile (respond fs2 dir r2)
  /\ status (wfile (respond fs1 dir r1)) = Some 200%N
  /\ fs_trace (respond fs1 dir r1) = []
  /\ fs_trace (respond fs2 dir r2) = [].
Proof.
  intros W1 W2.
  rewrite (options_response fs1 _ _ _ _ _ W1).
  rewrite (options_response fs2 _ _ _ _ _ W2).
  hsimpl. repeat split.
Qed.

Import Examples.

Ltac prove_wellformed :=
  unfold wellformed;
  split; [vm_compute; reflexivity|];
  split; [vm_compute; reflexivity|];
  split; [exists "1.1", 1%Z; vm_compute; reflexivity|reflexivity].

Lemma options_preflight_witness :
  wellformed (request_of "OPTIONS /api/prices HTTP/1.1") "OPTIONS"
    "/api/prices" "HTTP/1.1" [("Host", "localhost:3000")]
  /\ status (wfile (respond example_fs example_root
                      (request_of "OPTIONS /api/prices HTTP/1.1")))
     = Some 200%N
  /\ body (wfile (respond example_fs example_root
                    (request_of "OPTIONS /api/prices HTTP/1.1"))) = ""
  /\ incl cors_headers
       (header_lines
          (wfile (respond example_fs example_root
                    (request_of "OPTIONS /api/prices HTTP/1.1")))).
Proof.
  assert (W : wellformed (request_of "OPTIONS /api/prices HTTP/1.1") "OPTIONS"
                "/api/prices" "HTTP/1.1" [("Host", "localhost:3000")]).
  { prove_wellformed. }
  split; [exact W|].
  exact (options_preflight example_fs example_root _ _ _ _ W).
Defined.

Lemma post_not_implemented_witness :
  wellformed (request_of "POST /index.html HTTP/1.1") "POST" "/index.html"
    "HTTP/1.1" [("Host", "localhost:3000")]
  /\ status (wfile (respond example_fs example_root
                      (request_of "POST /index.html HTTP/1.1")))
     = Some 501%N
  /\ fs_trace (respond example_fs example_root
                 (request_of "POST /index.html HTTP/1.1")) = [].
Proof.
  assert (W : wellformed (request_of "POST /index.html HTTP/1.1") "POST"
                "/index.html" "HTTP/1.1" [("Host", "localhost:3000")]).
  { prove_wellformed. }
  split; [exact W|].
  pose proof (post_not_implemented example_fs example_root _ _ _ _ W)
    as (Hs & _ & _ & _ & Ht).
  split; assumption.
Defined.

Lemma options_independent_witness :
  wellformed (request_of "OPTIONS /index.html HTTP/1.1") "OPTIONS"
    "/index.html" "HTTP/1.1" [("Host", "localhost:3000")]
  /\ wellformed (request_of "OPTIONS /../../etc/passwd HTTP/1.1") "OPTIONS"
       "/../../etc/passwd" "HTTP/1.1" [("Host", "localhost:3000")]
  /\ wfile (respond example_fs example_root
              (request_of "OPTIONS /index.html HTTP/1.1"))
     = wfile (respond (tree_fs (Dir []) "/") example_root
                (request_of "OPTIONS /../../etc/passwd HTTP/1.1"))
  /\ fs_trace (respond (tree_fs (Dir []) "/") example_root
                 (request_of "OPTIONS /../../etc/passwd HTTP/1.1")) = [].
Proof.
  assert (W1 : wellformed (request_of "OPTIONS /index.html HTTP/1.1")
                 "OPTIONS" "/index.html" "HTTP/1.1"
                 [("Host", "localhost:3000")]).
  { prove_wellformed. }
  assert (W2 : wellformed (request_of "OPTIONS /../../etc/passwd HTTP/1.1")
                 "OPTIONS" "/../../etc/passwd" "HTTP/1.1"
                 [("Host", "localhost:3000")]).
  { prove_wellformed. }
  split; [exact W1|]. split; [exact W2|].
  pose proof (options_independent example_fs (tree_fs (Dir []) "/")
                example_root _ _ _ _ _ _ _ _ W1 W2) as (He & _ & _ & Ht).
  split; assumption.
Defined.

(** ** The process *)
Import Main.

Lemma existsb_map_false {A : Type} (f : A -> event) (p : event -> bool)
    (l : list A) :
  (forall a, p (f a) = false) -> existsb p (List.map f l) = false.
Proof.
  intros H. induction l as [|a l IH]; cbn; [reflexivity|].
  rewrite H, IH. reflexivity.
Qed.

Lemma cwd_after_no_chdir cwd evs :
  existsb is_chdir evs = false -> cwd_after cwd evs = cwd.
Proof.
  induction evs as [|e evs IH]; cbn; [reflexivity|].
  intros H. apply orb_false_iff in H as [He Hr].
  destruct e; try (apply IH, Hr). discriminate.
Qed.

Lemma existsb_prefix_false {A : Type} (p : A -> bool) (l1 l2 : list A) :
  existsb p (l1 ++ l2) = false -> existsb p l1 = false.
Proof. rewrite existsb_app. intros H. apply orb_false_iff in H. tauto. Qed.

Lemma stdout_app evs1 evs2 :
  stdout (evs1 ++ evs2) = (stdout evs1 ++ stdout evs2)%list.
Proof. unfold stdout. apply flat_map_app. Qed.

Lemma stderr_app evs1 evs2 :
  stderr (evs1 ++ evs2) = (stderr evs1 ++ stderr evs2)%list.
Proof. unfold stderr. apply flat_map_app. Qed.

Lemma stderr_quiet {A : Type} (f : A -> event) (l : list A) :
  (forall a, match f a with Traceback _ => False | _ => True end) ->
  stderr (List.map f l) = [].
Proof.
  intros H. induction l as [|a l IH]; [reflexivity|].
  cbn [List.map]. change (stderr (f a :: List.map f l))
    with ((match f a with Traceback x => [x] | _ => [] end)
          ++ stderr (List.map f l))%list.
  rewrite IH. specialize (H a). destruct (f a); try reflexivity. contradiction.
Qed.

Section Process.
Context {lib : Library}.

(** C6, as the code has it.  When the interrupt arrives while the
    server is serving (the server has started, and [serve_forever] ends
    with [KeyboardInterrupt]), the process prints the shutdown notice,
    an empty line followed by the line of the stop sign and the words
    [Server stopped], after everything else it prints, and then ends
    with exit code 0, without a traceback.  (An interrupt that arrives
    during [os.chdir] or while the server is created is not caught.) *)
Theorem interrupt_shutdown (w : world) :
  chdir_raises w = None ->
  create_server_raises w = None ->
  serve_forever_raises w = KeyboardInterrupt ->
  snd (run w) = ExitCode 0
  /\ (exists earlier,
        fst (run w)
        = (earlier
           ++ [Print (String "010"
                        (utf8 [240; 159; 155; 145]%N ++ " Server stopped"));
               ServerClose])%list)
  /\ stdout (fst (run w))
     = (banner w
        ++ [String "010" (utf8 [240; 159; 155; 145]%N ++ " Server stopped")])%list
  /\ stderr (fst (run w)) = [].
Proof.
  intros Hc Hb Hs. unfold run, main. rewrite Hc, Hb, Hs. cbn [fst snd].
  split; [reflexivity|]. split; [eexists; reflexivity|].
  rewrite stdout_app, stderr_app.
  cbn [app].
  change (stdout [Print shutdown_notice; ServerClose]) with [shutdown_notice].
  change (stderr [Print shutdown_notice; ServerClose]) with (@nil exn).
  change (stdout (Chdir (FRONTEND_DIR w) true
                  :: CreateServer "" PORT true
                     :: (List.map Print (banner w)
                         ++ List.map (CustomHTTPRequestHandler w)
                              (connections w))%list))
    with (stdout (List.map Print (banner w)
                  ++ List.map (CustomHTTPRequestHandler w) (connections w))).
  change (stderr (Chdir (FRONTEND_DIR w) true
                  :: CreateServer "" PORT true
                     :: (List.map Print (banner w)
                         ++ List.map (CustomHTTPRequestHandler w)
                              (connections w))%list))
    with (stderr (List.map Print (banner w)
                  ++ List.map (CustomHTTPRequestHandler w) (connections w))).
  rewrite stdout_app, stderr_app.
  rewrite !stderr_quiet by (intros; exact I).
  assert (Hserve : stdout (List.map (CustomHTTPRequestHandler w) (connections w))
                   = []).
  { induction (connections w) as [|c l IH]; [reflexivity|exact IH]. }
  assert (Hprint : forall l, stdout (List.map Print l) = l).
  { induction l as [|t l IH]; [reflexivity|].
    cbn [List.map]. change (stdout (Print t :: List.map Print l))
      with (t :: stdout (List.map Print l)). rewrite IH. reflexivity. }
  rewrite Hserve, Hprint, app_nil_r. split; reflexivity.
Qed.

(** C7. When the server fails at startup ([os.chdir] or the creation of
    the [TCPServer] raises, as for a port in use), the process prints
    nothing on standard output, the error is reported on standard error
    by its traceback, no connection is served, and the process does not
    end with exit code 0: the exit code is 1 for any error but an
    interrupt. *)
Theorem startup_failure (w : world) (e : exn) :
  chdir_raises w = Some e
  \/ (chdir_raises w = None /\ create_server_raises w = Some e) ->
  snd (run w) <> ExitCode 0
  /\ (e <> KeyboardInterrupt -> snd (run w) = ExitCode 1)
  /\ stderr (fst (run w)) = [e]
  /\ stdout (fst (run w)) = []
  /\ (forall rs ws, ~ In (Serve rs ws) (fst (run w))).
Proof.
  intros [Hc | [Hc Hb]]; unfold run, main; rewrite Hc; try rewrite Hb;
    destruct (bind_reached w); destruct e; cbn [fst snd app];
    (split; [discriminate|]);
    (split; [intros; try reflexivity; congruence|]);
    (split; [reflexivity|]);
    (split; [reflexivity|]);
    intros rs ws H; cbn [In] in H;
    repeat (destruct H as [H|H]; [discriminate|]); exact H.
Qed.

End Process.

Import Examples.

Lemma interrupt_shutdown_witness :
  snd (run (example_world None None
              [[request_of "GET /index.html HTTP/1.1"]] KeyboardInterrupt))
  = ExitCode 0
  /\ List.last
       (stdout (fst (run (example_world None None
                            [[request_of "GET /index.html HTTP/1.1"]]
                            KeyboardInterrupt)))) ""
     = String "010" (utf8 [240; 159; 155; 145]%N ++ " Server stopped").
Proof.
  pose proof (interrupt_shutdown
                (example_world None None
                   [[request_of "GET /index.html HTTP/1.1"]]
                   KeyboardInterrupt) eq_refl eq_refl eq_refl)
    as (Hs & _ & Ho & _).
  split; [exact Hs|]. rewrite Ho. reflexivity.
Defined.

Lemma startup_failure_witness :
  snd (run (example_world None (Some (OSError 98 "Address already in use"))
              [] KeyboardInterrupt))
  = ExitCode 1
  /\ stderr (fst (run (example_world None
                         (Some (OSError 98 "Address already in use")) []
                         KeyboardInterrupt)))
     = [OSError 98 "Address already in use"].
Proof.
  pose proof (startup_failure
                (example_world None
                   (Some (OSError 98 "Address already in use")) []
                   KeyboardInterrupt)
                (OSError 98 "Address already in use")
                (or_intror (conj eq_refl eq_refl)))
    as (_ & H1 & He & _).
  split; [apply H1; discriminate|exact He].
Defined.


(** ** The invariant of the handler *)
Section Preservation.
Context {lib : Library}.
Variable fs : filesystem.
Variable path_ok : string -> string -> Prop.
Variable root : string.

#[local] Abbreviation Inv := (Inv fs path_ok root).
#[local] Abbreviation pres := (preserves Inv).

Lemma pres_ret {A : Type} (a : A) : pres (ret a).
Proof. intros h H. exact H. Qed.

Lemma pres_get {A : Type} (f : handler -> A) : pres (get f).
Proof. intros h H. exact H. Qed.

Lemma pres_bind {A B : Type} (m : M A) (k : A -> M B) :
  pres m -> (forall a, pres (k a)) -> pres (bind m k).
Proof. intros Hm Hk h H. unfold bind. apply Hk, Hm, H. Qed.

Lemma pres_when (b : bool) (m : M unit) : pres m -> pres (when b m).
Proof. intros Hm. destruct b; [exact Hm|apply pres_ret]. Qed.

Lemma pres_if {A : Type} (b : bool) (m1 m2 : M A) :
  pres m1 -> pres m2 -> pres (if b then m1 else m2).
Proof. destruct b; auto. Qed.

Lemma Inv_same h h' :
  directory h' = directory h ->
  headers_buffer h' = headers_buffer h ->
  wfile h' = wfile h ->
  log h' = log h ->
  fs_trace h' = fs_trace h ->
  Inv h -> Inv h'.
Proof. unfold Props.Inv. intros -> -> -> -> ->. tauto. Qed.

Lemma pres_set_command v : pres (modify (set_command v)).
Proof. intros h. apply Inv_same; reflexivity. Qed.

Lemma pres_set_request_version v : pres (modify (set_request_version v)).
Proof. intros h. apply Inv_same; reflexivity. Qed.

Lemma pres_set_close_connection v : pres (modify (set_close_connection v)).
Proof. intros h. apply Inv_same; reflexivity. Qed.

Lemma pres_set_requestline v : pres (modify (set_requestline v)).
Proof. intros h. apply Inv_same; reflexivity. Qed.

Lemma pres_set_path v : pres (modify (set_path v)).
Proof. intros h. apply Inv_same; reflexivity. Qed.

Lemma pres_set_headers v : pres (modify (set_headers v)).
Proof. intros h. apply Inv_same; reflexivity. Qed.

Lemma Inv_buffered l h : Forall line_ok l -> Inv h -> Inv (buffered l h).
Proof.
  intros Hl H. unfold buffered. destruct (quiet h); [exact H|].
  destruct H as (Hd & Hb & Hw & Hg & Ht). unfold Props.Inv. hsimpl.
  repeat split; try assumption. apply Forall_app. split; assumption.
Qed.

Lemma Inv_logged e h : log_ok e -> Inv h -> Inv (logged e h).
Proof.
  intros He (Hd & Hb & Hw & Hg & Ht). unfold Props.Inv, logged. hsimpl.
  repeat split; try assumption. apply Forall_app. split; [assumption|].
  constructor; [exact He|constructor].
Qed.

Lemma Inv_end_headers h : Inv h -> Inv (flushed (buffered cors_headers h)).
Proof.
  intros H. unfold flushed, buffered.
  destruct (quiet h) eqn:Q; rewrite ?Q; [exact H|].
  unfold quiet in *. hsimpl. rewrite Q.
  destruct H as (Hd & Hb & Hw & Hg & Ht). unfold Props.Inv. hsimpl.
  repeat split; try assumption; [constructor|].
  apply Forall_app. split; [assumption|]. constructor; [|constructor].
  cbn [write_ok]. split.
  - intros l Hl. apply in_or_app. left. apply in_or_app. right. exact Hl.
  - rewrite !Forall_app. repeat split; try assumption;
      repeat constructor.
Qed.

Lemma Inv_data b h :
  data_ok fs path_ok root b ->
  Inv h -> Inv (set_wfile (wfile h ++ [Data b]) h).
Proof.
  intros Hdata (Hd & Hb & Hw & Hg & Ht). unfold Props.Inv. hsimpl.
  repeat split; try assumption. apply Forall_app. split; [assumption|].
  constructor; [exact Hdata|constructor].
Qed.

Lemma Inv_set_close b h : Inv h -> Inv (set_close_connection b h).
Proof. apply Inv_same; reflexivity. Qed.

Lemma pres_trace o :
  path_ok root (op_path o) -> pres (trace o).
Proof.
  intros Ho h (Hd & Hb & Hw & Hg & Ht). unfold trace, modify, Props.Inv. hsimpl.
  repeat split; try assumption. apply Forall_app. split; [assumption|].
  constructor; [exact Ho|constructor].
Qed.

Lemma pres_send_response code m : code <> 403%N -> pres (send_response code m).
Proof.
  intros Hc h H. rewrite send_response_eq. hsimpl.
  apply Inv_buffered; [|apply Inv_logged; [exact Hc|exact H]].
  unfold response_lines. repeat constructor. exact Hc.
Qed.

Lemma pres_send_header k v :
  String.eqb (lower k) "connection" = false -> pres (send_header k v).
Proof.
  intros Hk h H. rewrite send_header_eq by exact Hk. hsimpl.
  apply Inv_buffered; [repeat constructor|exact H].
Qed.

Lemma pres_end_headers : pres end_headers.
Proof. intros h H. rewrite end_headers_eq. hsimpl. apply Inv_end_headers, H. Qed.

Lemma pres_send_error code m e : code <> 403%N -> pres (send_error code m e).
Proof.
  intros Hc h H. rewrite send_error_eq. hsimpl. unfold sent_error.
  set (lines := (response_lines code (error_message code m) ++ _)%list).
  set (h0 := set_close_connection true _).
  assert (H0 : Inv h0).
  { apply Inv_set_close, Inv_logged; [exact Hc|].
    apply Inv_logged; [exact Hc|exact H]. }
  assert (Hl : exists l', lines = (l' ++ cors_headers)%list /\ Forall line_ok l').
  { exists (response_lines code (error_message code m)
            ++ [Header "Connection" "close"]
            ++ (if has_body code
                then [Header "Content-Type" error_content_type;
                      Header "Content-Length"
                        (of_N (len (error_page code m e)))]
                else []))%list.
    split; [unfold lines; rewrite <- !app_assoc; reflexivity|].
    rewrite !Forall_app. repeat split.
    - unfold response_lines. repeat constructor. exact Hc.
    - repeat constructor.
    - destruct (has_body code); repeat constructor. }
  destruct Hl as (l' & -> & Hl').
  assert (H1 : Inv (flushed (buffered (l' ++ cors_headers) h0))).
  { rewrite <- buffered_buffered. apply Inv_end_headers.
    apply Inv_buffered; assumption. }
  destruct (has_body code && negb (is_head h)); [|exact H1].
  apply Inv_data; [|exact H1].
  left. eauto.
Qed.

Lemma pres_send_response_only code m :
  code <> 403%N -> pres (send_response_only code m).
Proof.
  intros Hc h H. rewrite send_response_only_eq. hsimpl.
  apply Inv_buffered; [|exact H]. repeat constructor. exact Hc.
Qed.

Lemma pres_wfile_write b : data_ok fs path_ok root b -> pres (wfile_write (Data b)).
Proof. intros Hb h H. unfold wfile_write, modify. hsimpl. apply Inv_data; assumption. Qed.

(** *** Methods that return a value *)
#[local] Abbreviation returns := (returns fs path_ok root).

Lemma returns_ret {A : Type} (a : A) (Q : A -> Prop) : Q a -> returns (ret a) Q.
Proof. intros Ha h H. split; [exact H|exact Ha]. Qed.

Lemma returns_pres {A : Type} (m : M A) : pres m -> returns m (fun _ => True).
Proof. intros Hm h H. split; [apply Hm, H|exact I]. Qed.

Lemma pres_returns {A : Type} (m : M A) (Q : A -> Prop) : returns m Q -> pres m.
Proof. intros Hm h H. apply Hm, H. Qed.

Lemma returns_bind {A B : Type} (m : M A) (k : A -> M B)
    (Q1 : A -> Prop) (Q2 : B -> Prop) :
  returns m Q1 -> (forall a, Q1 a -> returns (k a) Q2) ->
  returns (bind m k) Q2.
Proof.
  intros Hm Hk h H. unfold bind. destruct (Hm h H) as (H1 & Ha).
  apply (Hk _ Ha), H1.
Qed.

Lemma returns_seq {A B : Type} (m : M A) (k : M B) (Q : B -> Prop) :
  pres m -> returns k Q -> returns (bind m (fun _ => k)) Q.
Proof.
  intros Hm Hk. apply (returns_bind _ _ (fun _ => True)).
  - apply returns_pres, Hm.
  - intros _ _. exact Hk.
Qed.

Lemma returns_if {A : Type} (b : bool) (m1 m2 : M A) (Q : A -> Prop) :
  returns m1 Q -> returns m2 Q -> returns (if b then m1 else m2) Q.
Proof. destruct b; auto. Qed.

Lemma returns_get_directory : returns (get directory) (fun d => d = root).
Proof. intros h H. split; [exact H|]. destruct H as (Hd & _). exact Hd. Qed.


(** *** The methods of the handler *)
Hypothesis translate_ok : forall p, path_ok root (translate_path root p).
Hypothesis index_ok :
  forall q, path_ok root q ->
            path_ok root (PosixPath.join q "index.html")
            /\ path_ok root (PosixPath.join q "index.htm").
Hypothesis entry_ok :
  forall q names name,
    path_ok root q -> listdir fs q = Some names -> In name names ->
    path_ok root (PosixPath.join q name).

Ltac code_ok := intros ?; discriminate.

Ltac pres_step :=
  lazymatch goal with
  | |- preserves _ (ret _) => apply pres_ret
  | |- preserves _ (get _) => apply pres_get
  | |- preserves _ (modify (set_command _)) => apply pres_set_command
  | |- preserves _ (modify (set_request_version _)) =>
      apply pres_set_request_version
  | |- preserves _ (modify (set_close_connection _)) =>
      apply pres_set_close_connection
  | |- preserves _ (modify (set_requestline _)) => apply pres_set_requestline
  | |- preserves _ (modify (set_path _)) => apply pres_set_path
  | |- preserves _ (modify (set_headers _)) => apply pres_set_headers
  | |- preserves _ end_headers => apply pres_end_headers
  | |- preserves _ (send_error _ _ _) => apply pres_send_error; code_ok
  | |- preserves _ (send_response _ _) => apply pres_send_response; code_ok
  | |- preserves _ (send_response_only _ _) =>
      apply pres_send_response_only; code_ok
  | |- preserves _ (send_header _ _) => apply pres_send_header; reflexivity
  | |- preserves _ (bind _ _) => apply pres_bind; [|intros ?]
  | |- preserves _ (when _ _) => apply pres_when
  | |- preserves _ (if ?b then _ else _) => first [apply pres_if|destruct b]
  | |- preserves _ (match ?x with _ => _ end) => destruct x
  end.

Lemma pres_do_OPTIONS : pres do_OPTIONS.
Proof. unfold do_OPTIONS. repeat pres_step. Qed.

Lemma pres_handle_expect_100 : pres handle_expect_100.
Proof. unfold handle_expect_100. repeat pres_step. Qed.

Lemma pres_parse_request_headers r : pres (parse_request_headers r).
Proof.
  unfold parse_request_headers. repeat pres_step.
  apply pres_handle_expect_100.
Qed.

Lemma pres_parse_request r : pres (parse_request r).
Proof.
  unfold parse_request.
  repeat first [apply pres_parse_request_headers | pres_step].
Qed.

Lemma In_insert_by_lower x a l :
  In x (insert_by_lower a l) -> x = a \/ In x l.
Proof.
  induction l as [|b l IH]; cbn [insert_by_lower].
  - intros [<-|[]]. left. reflexivity.
  - destruct (String.leb (lower a) (lower b)).
    + intros [<-|H]; [left; reflexivity|right; exact H].
    + intros [<-|H]; [right; left; reflexivity|].
      destruct (IH H) as [->|H']; [left; reflexivity|right; right; exact H'].
Qed.

Lemma In_sort_by_lower x l : In x (sort_by_lower l) -> In x l.
Proof.
  unfold sort_by_lower. induction l as [|a l IH]; cbn [fold_right].
  - intros [].
  - intros H. apply In_insert_by_lower in H as [->|H];
      [left; reflexivity|right; apply IH, H].
Qed.

Lemma returns_listing_entries p names :
  Forall (fun name => path_ok root (PosixPath.join p name)) names ->
  returns (listing_entries fs p names) (fun _ => True).
Proof.
  induction names as [|name names IH]; intros Hn; cbn [listing_entries].
  - apply returns_ret. exact I.
  - inversion Hn as [|? ? Hname Hrest]; subst.
    apply returns_seq; [apply pres_trace; exact Hname|].
    apply returns_seq; [apply pres_trace; exact Hname|].
    apply (returns_bind _ _ (fun _ => True)); [apply IH, Hrest|].
    intros entries _. apply returns_ret. exact I.
Qed.

#[local] Abbreviation body_ok := (body_ok fs path_ok root).

Lemma returns_none : returns (ret (@None string)) body_ok.
Proof. apply returns_ret. intros b Hb. discriminate. Qed.

Lemma returns_list_directory p :
  path_ok root p -> returns (list_directory fs p) body_ok.
Proof.
  intros Hp. unfold list_directory.
  apply returns_seq; [apply pres_trace; exact Hp|].
  destruct (listdir fs p) as [names|] eqn:L.
  - apply (returns_bind _ _ (fun _ => True)).
    + apply returns_listing_entries. apply Forall_forall. intros name Hn.
      apply (entry_ok p names); [exact Hp|exact L|apply In_sort_by_lower, Hn].
    + intros entries _.
      apply (returns_bind _ _ (fun _ => True));
        [apply returns_pres, pres_get|].
      intros self_path _.
      repeat (apply returns_seq; [pres_step|]).
      apply returns_ret. intros b Hb. injection Hb as <-.
      right. left. exists p, names, self_path, entries. auto.
  - apply returns_seq; [pres_step|]. apply returns_none.
Qed.

Lemma pres_raise_uncaught name : pres (raise_uncaught name).
Proof. intros h H. apply (Inv_logged (LogException name) h I H). Qed.

Lemma pres_guess_type p : path_ok root p -> pres (guess_type p).
Proof.
  intros Hp. unfold guess_type. cbv zeta.
  destruct (extensions_map _); [apply pres_ret|].
  destruct (extensions_map _); [apply pres_ret|].
  apply pres_bind; [apply pres_trace; exact Hp|]. intros _.
  destruct (mimetypes_guess_type p) as [g|]; [destruct (String.eqb g "")|];
    apply pres_ret.
Qed.

Lemma returns_send_file_head p :
  path_ok root p -> returns (send_file_head fs p) body_ok.
Proof.
  intros Hp. unfold send_file_head.
  apply (returns_bind _ _ (fun _ => True));
    [apply returns_pres, pres_guess_type, Hp|].
  intros ctype _.
  apply returns_if.
  - apply returns_seq; [pres_step|]. apply returns_none.
  - apply returns_seq; [apply pres_trace; exact Hp|].
    destruct (open_rb fs p) as [f|] eqn:O.
    + apply (returns_bind _ _ (fun _ => True));
        [apply returns_pres, pres_get|].
      intros hs _. cbv zeta. apply returns_if.
      * repeat (apply returns_seq; [pres_step|]). apply returns_none.
      * repeat (apply returns_seq; [pres_step|]).
        apply returns_ret. intros b Hb. injection Hb as <-.
        right. right. exists p, f. auto.
    + apply returns_if;
        (apply returns_seq;
         [first [apply pres_raise_uncaught|pres_step]|apply returns_none]).
Qed.

Lemma returns_send_head : returns (send_head fs) body_ok.
Proof.
  unfold send_head.
  apply (returns_bind _ _ (fun _ => True)); [apply returns_pres, pres_get|].
  intros self_path _.
  apply (returns_bind _ _ (fun d => d = root)); [apply returns_get_directory|].
  intros dir ->. cbv zeta.
  pose proof (translate_ok self_path) as Hp.
  apply returns_seq; [apply pres_trace; exact Hp|].
  destruct (index_ok _ Hp) as (Hhtml & Hhtm).
  apply returns_if; [|apply returns_send_file_head, Hp].
  apply returns_if.
  - repeat (apply returns_seq; [pres_step|]). apply returns_none.
  - apply returns_seq; [apply pres_trace; exact Hhtml|].
    apply returns_if; [apply returns_send_file_head, Hhtml|].
    apply returns_seq; [apply pres_trace; exact Hhtm|].
    apply returns_if; [apply returns_send_file_head, Hhtm|].
    apply returns_list_directory, Hp.
Qed.

Lemma pres_do_GET : pres (do_GET fs).
Proof.
  unfold do_GET. apply (pres_returns _ (fun _ => True)).
  apply (returns_bind _ _ body_ok); [apply returns_send_head|].
  intros [b|] Hb; apply returns_pres.
  - apply pres_wfile_write, Hb. reflexivity.
  - apply pres_ret.
Qed.

Lemma pres_do_HEAD : pres (do_HEAD fs).
Proof.
  unfold do_HEAD. apply (pres_returns _ (fun _ => True)).
  apply (returns_bind _ _ body_ok); [apply returns_send_head|].
  intros ? _. apply returns_ret. exact I.
Qed.

Lemma pres_getattr mname method :
  getattr fs mname = Some method -> pres method.
Proof.
  unfold getattr.
  destruct (String.eqb mname "do_GET");
    [intros [= <-]; apply pres_do_GET|].
  destruct (String.eqb mname "do_HEAD");
    [intros [= <-]; apply pres_do_HEAD|].
  destruct (String.eqb mname "do_OPTIONS");
    [intros [= <-]; apply pres_do_OPTIONS|discriminate].
Qed.

Lemma pres_handle_one_request r : pres (handle_one_request fs r).
Proof.
  unfold handle_one_request.
  apply pres_if; [repeat pres_step|].
  apply pres_if; [pres_step|].
  apply pres_bind; [apply pres_parse_request|]. intros ok.
  apply pres_if; [pres_step|].
  apply pres_bind; [pres_step|]. intros cmd. cbv zeta.
  destruct (getattr fs _) as [method|] eqn:G.
  - apply (pres_getattr _ _ G).
  - pres_step.
Qed.

Lemma pres_handle_loop rs : pres (handle_loop fs rs).
Proof.
  induction rs as [|r rs IH]; cbn [handle_loop]; [pres_step|].
  apply pres_bind; [apply pres_handle_one_request|]. intros _.
  apply pres_bind; [pres_step|]. intros closing.
  apply pres_if; [pres_step|exact IH].
Qed.

Lemma pres_handle rs : pres (handle fs rs).
Proof.
  unfold handle. apply pres_bind; [pres_step|]. intros _.
  apply pres_handle_loop.
Qed.

Lemma Inv_new_handler : Inv (new_handler root).
Proof. unfold Props.Inv, new_handler. hsimpl. repeat split; constructor. Qed.

Lemma Inv_respond r : Inv (respond fs root r).
Proof. apply pres_handle_one_request, Inv_new_handler. Qed.

End Preservation.

(** ** Paths handed to the file system *)
Section Inside.
Context {lib : Library}.

Lemma split_no_sep c s : Forall (fun w => contains c w = false) (split c s).
Proof.
  induction s as [|a s IH]; cbn [split].
  - constructor; [reflexivity|constructor].
  - destruct (Ascii.eqb a c) eqn:E.
    + constructor; [reflexivity|exact IH].
    + destruct (split c s) as [|w ws].
      * constructor; [cbn; rewrite E; reflexivity|constructor].
      * inversion IH as [|? ? Hw Hws]; subst.
        constructor; [cbn; rewrite E; exact Hw|exact Hws].
Qed.

Lemma join_words_inside root words q :
  Forall (fun w => contains "/" w = false) words ->
  inside root q -> inside root (join_words q words).
Proof.
  intros Hw. revert q. induction Hw as [|w words Hw _ IH]; intros q Hq.
  - exact Hq.
  - cbn [join_words]. destruct (skipped w) eqn:S; [apply IH, Hq|].
    apply IH. apply inside_child; [exact Hq|].
    unfold skipped in S. unfold plain_name. rewrite Hw.
    apply orb_false_iff in S as [S S2]. apply orb_false_iff in S as [_ S1].
    rewrite S1, S2. reflexivity.
Qed.

Lemma translate_path_inside root p : inside root (translate_path root p).
Proof.
  unfold translate_path.
  set (words := List.filter _ _).
  assert (Hw : Forall (fun w => contains "/" w = false) words).
  { unfold words. apply Forall_forall. intros w Hin.
    apply filter_In in Hin as [Hin _].
    revert w Hin. apply Forall_forall. apply split_no_sep. }
  destruct (endswith _ "/").
  - apply inside_slash, join_words_inside; [exact Hw|constructor].
  - apply join_words_inside; [exact Hw|constructor].
Qed.

Lemma index_inside root q :
  inside root q ->
  inside root (PosixPath.join q "index.html")
  /\ inside root (PosixPath.join q "index.htm").
Proof. intros Hq. split; apply inside_child; auto. Qed.

Lemma entry_inside (fs : filesystem) root q names name :
  listdir_plain fs ->
  inside root q -> listdir fs q = Some names -> In name names ->
  inside root (PosixPath.join q name).
Proof.
  intros Hfs Hq Hl Hn. apply inside_child; [exact Hq|].
  apply (Hfs q names name Hl Hn).
Qed.

(** Every run keeps the invariant, with "inside the root" for the
    paths when directory listings give plain names, and with no
    condition on the paths for any file system. *)
Lemma respond_inside (fs : filesystem) root r :
  listdir_plain fs -> Inv fs inside root (respond fs root r).
Proof.
  intros Hfs. apply Inv_respond.
  - apply translate_path_inside.
  - apply index_inside.
  - intros q names name. apply entry_inside, Hfs.
Qed.

Lemma respond_inv (fs : filesystem) root r :
  Inv fs (fun _ _ => True) root (respond fs root r).
Proof. apply Inv_respond; auto. Qed.

End Inside.

(** ** GET requests *)
Section Get.
Context {lib : Library}.
Variable fs : filesystem.

Lemma sent_error_wfile code m e h :
  quiet h = false ->
  exists lines,
    wfile (sent_error code m e h)
    = (wfile h
       ++ [HeaderBlock
             (headers_buffer h
              ++ StatusLine protocol_version code (error_message code m)
                 :: lines)]
       ++ (if has_body code && negb (is_head h)
           then [Data (error_page code m e)] else []))%list
    /\ fs_trace (sent_error code m e h) = fs_trace h.
Proof.
  intros Q. unfold sent_error.
  exists (Header "Server" version_string
          :: Header "Date" (date_time_string None)
             :: Header "Connection" "close"
                :: (if has_body code
                    then [Header "Content-Type" error_content_type;
                          Header "Content-Length"
                            (of_N (len (error_page code m e)))]
                    else [])
                   ++ cors_headers ++ [EndOfHeaders])%list.
  rewrite emitted_loud by (unfold quiet, logged in *; hsimpl; exact Q).
  unfold logged. destruct (has_body code && negb (is_head h)); hsimpl;
    (split; [|reflexivity]);
    rewrite ?app_nil_r; repeat rewrite <- app_assoc;
    cbn [app response_lines]; repeat rewrite <- app_assoc; reflexivity.
Qed.

Lemma status_first code m lines rest :
  status (HeaderBlock (StatusLine protocol_version code m :: lines) :: rest)
  = Some code.
Proof. reflexivity. Qed.

Lemma get_response root r p v fields :
  wellformed r "GET" p v fields ->
  respond fs root r
  = snd (do_GET fs (parsed (raw_requestline r) "GET" p v fields
                      (new_handler root))).
Proof.
  intros W. unfold respond. rewrite (handle_wellformed fs _ _ _ _ _ _ W).
  change (getattr fs ("do_" ++ "GET")) with (Some (do_GET fs)).
  reflexivity.
Qed.

Lemma bind_get {A B : Type} (f : handler -> A) (k : A -> M B) h :
  bind (get f) k h = k (f h) h.
Proof. reflexivity. Qed.

Lemma bind_trace {B : Type} o (k : unit -> M B) h :
  bind (trace o) k h = k tt (set_fs_trace (fs_trace h ++ [o]) h).
Proof. reflexivity. Qed.

Lemma bind_eq {A B : Type} (m : M A) (k : A -> M B) h a h' :
  m h = (a, h') -> bind m k h = k a h'.
Proof. intros E. unfold bind. rewrite E. reflexivity. Qed.

Lemma send_head_file h :
  isdir fs (translate_path (directory h) (path h)) = false ->
  send_head fs h
  = send_file_head fs (translate_path (directory h) (path h))
      (set_fs_trace
         (fs_trace h ++ [OpIsdir (translate_path (directory h) (path h))]) h).
Proof.
  intros Hd. unfold send_head. rewrite !bind_get. cbv zeta.
  rewrite bind_trace. rewrite Hd. reflexivity.
Qed.

Lemma send_file_head_missing t h :
  open_rb fs t = None ->
  open_raises fs t = false ->
  exists h',
    send_file_head fs t h
    = (None, sent_error 404 (Some "File not found") None h')
    /\ quiet h' = quiet h /\ wfile h' = wfile h
    /\ headers_buffer h' = headers_buffer h.
Proof.
  intros Ho Hr. unfold send_file_head.
  rewrite (bind_eq _ _ _ _ _ (guess_type_eq _ _)).
  destruct (endswith t "/").
  - eexists. rewrite (bind_eq _ _ _ _ _ (send_error_eq _ _ _ _)).
    split; [reflexivity|]. repeat split.
  - rewrite bind_trace, Ho, Hr. eexists.
    rewrite (bind_eq _ _ _ _ _ (send_error_eq _ _ _ _)).
    split; [reflexivity|]. repeat split.
Qed.

(** A GET for a path at which the file system has nothing to open, and
    no directory, is answered 404. *)
Lemma get_not_found root r p v fields :
  wellformed r "GET" p v fields ->
  isdir fs (translate_path root (fix_path p)) = false ->
  open_rb fs (translate_path root (fix_path p)) = None ->
  open_raises fs (translate_path root (fix_path p)) = false ->
  status (wfile (respond fs root r)) = Some 404%N.
Proof.
  intros W Hdir Hopen Hraise. rewrite (get_response _ _ _ _ _ W).
  destruct W as (_ & _ & Hv & _).
  set (h0 := parsed _ _ _ _ _ _).
  assert (Hd : directory h0 = root) by reflexivity.
  assert (Hp : path h0 = fix_path p) by reflexivity.
  assert (Q : quiet h0 = false).
  { unfold quiet, h0, parsed. hsimpl. apply http1_not_09, Hv. }
  assert (Hw : wfile h0 = [] /\ headers_buffer h0 = []) by (split; reflexivity).
  clearbody h0. unfold do_GET.
  rewrite <- Hd, <- Hp in Hdir, Hopen, Hraise.
  pose proof (send_head_file h0 Hdir) as E.
  destruct (send_file_head_missing _
              (set_fs_trace
                 (fs_trace h0
                  ++ [OpIsdir (translate_path (directory h0) (path h0))]) h0)
              Hopen Hraise) as (h' & E' & Qh & Wh & Bh).
  rewrite E' in E. rewrite (bind_eq _ _ _ _ _ E). unfold ret. hsimpl.
  assert (Q' : quiet h' = false) by (rewrite Qh; exact Q).
  destruct (sent_error_wfile 404 (Some "File not found") None h' Q')
    as (lines & -> & _).
  rewrite Wh, Bh. hsimpl. destruct Hw as (-> & ->). reflexivity.
Qed.

Lemma status_ok root ws c :
  Forall (write_ok fs (fun _ _ => True) root) ws ->
  status ws = Some c -> c <> 403%N.
Proof.
  induction ws as [|w ws IH]; intros Hw; [discriminate|].
  inversion Hw as [|? ? Hw1 Hws]; subst.
  destruct w as [ls|b]; cbn [status]; [|apply IH, Hws].
  destruct (first_status ls) as [c'|] eqn:F; [|apply IH, Hws].
  intros [= <-]. destruct Hw1 as (_ & Hl). clear -Hl F.
  induction Hl as [|l ls Hl _ IHl]; [discriminate|].
  destruct l; cbn [first_status] in F; auto.
  injection F as <-. exact Hl.
Qed.

Lemma blocks_cors root (path_ok : string -> string -> Prop) ws ls :
  Forall (write_ok fs path_ok root) ws ->
  In (HeaderBlock ls) ws -> incl cors_headers ls.
Proof.
  intros Hw Hin. rewrite Forall_forall in Hw.
  destruct (Hw _ Hin) as (Hc & _). exact Hc.
Qed.

Lemma status_block ws c :
  status ws = Some c -> exists ls, In (HeaderBlock ls) ws.
Proof.
  induction ws as [|w ws IH]; [discriminate|].
  destruct w as [ls|b]; cbn [status].
  - intros _. exists ls. left. reflexivity.
  - intros H. destruct (IH H) as (ls & Hin). exists ls. right. exact Hin.
Qed.

Lemma header_lines_incl ws ls :
  In (HeaderBlock ls) ws -> incl ls (header_lines ws).
Proof.
  intros Hin l Hl. unfold header_lines. apply in_flat_map.
  exists (HeaderBlock ls). split; assumption.
Qed.

(** C2, as the code has it.  Every status line and header section the
    handler sends carries the three CORS headers with their exact
    values: each block of headers written contains them, and so does
    every response that has a status code.  (A response to a request
    handled as HTTP/0.9 has no status line and no header at all.) *)
Theorem cors_on_every_header_block root r :
  (forall ls, In (HeaderBlock ls) (wfile (respond fs root r)) ->
              incl cors_headers ls)
  /\ (forall c, status (wfile (respond fs root r)) = Some c ->
                incl cors_headers (header_lines (wfile (respond fs root r)))).
Proof.
  pose proof (respond_inv fs root r) as (_ & _ & Hw & _).
  split.
  - intros ls. apply (blocks_cors _ _ _ _ Hw).
  - intros c Hc. destruct (status_block _ _ Hc) as (ls & Hin).
    intros l Hl. apply (header_lines_incl _ _ Hin).
    apply (blocks_cors _ _ _ _ Hw Hin), Hl.
Qed.

Lemma get_open_raises root r p v fields :
  wellformed r "GET" p v fields ->
  isdir fs (translate_path root (fix_path p)) = false ->
  endswith (translate_path root (fix_path p)) "/" = false ->
  open_rb fs (translate_path root (fix_path p)) = None ->
  open_raises fs (translate_path root (fix_path p)) = true ->
  wfile (respond fs root r) = []
  /\ log (respond fs root r) = [LogException "ValueError"].
Proof.
  intros W Hdir Hend Hopen Hraise. rewrite (get_response _ _ _ _ _ W).
  set (h0 := parsed _ _ _ _ _ _).
  assert (Hd : directory h0 = root) by reflexivity.
  assert (Hp : path h0 = fix_path p) by reflexivity.
  assert (Hw : wfile h0 = [] /\ log h0 = []) by (split; reflexivity).
  clearbody h0. unfold do_GET.
  rewrite <- Hd, <- Hp in Hdir, Hend, Hopen, Hraise.
  pose proof (send_head_file h0 Hdir) as E.
  unfold send_file_head in E.
  rewrite (bind_eq _ _ _ _ _ (guess_type_eq _ _)) in E.
  rewrite Hend, bind_trace, Hopen, Hraise in E.
  rewrite (bind_eq _ _ _ _ _ E).
  unfold bind, raise_uncaught, modify, ret. hsimpl.
  destruct Hw as (-> & ->). split; reflexivity.
Qed.

(** C5, as the code has it.  No request is ever answered 403: the
    handler has no such response.  A GET request, also one whose path
    resolves outside the root, is answered for the path that is left
    inside the root once the traversal components are dropped, and that
    answer is 404 when the file system has nothing to open there.  When
    [open] does not fail with an [OSError] but raises [ValueError] (the
    path holds a null byte), nothing catches the exception and nothing
    is sent. *)
Theorem traversal_is_not_forbidden root r :
  status (wfile (respond fs root r)) <> Some 403%N
  /\ Forall log_ok (log (respond fs root r))
  /\ (forall p v fields,
        wellformed r "GET" p v fields ->
        isdir fs (translate_path root (fix_path p)) = false ->
        open_rb fs (translate_path root (fix_path p)) = None ->
        open_raises fs (translate_path root (fix_path p)) = false ->
        status (wfile (respond fs root r)) = Some 404%N)
  /\ (forall p v fields,
        wellformed r "GET" p v fields ->
        isdir fs (translate_path root (fix_path p)) = false ->
        endswith (translate_path root (fix_path p)) "/" = false ->
        open_rb fs (translate_path root (fix_path p)) = None ->
        open_raises fs (translate_path root (fix_path p)) = true ->
        wfile (respond fs root r) = []
        /\ log (respond fs root r) = [LogException "ValueError"]).
Proof.
  pose proof (respond_inv fs root r) as (_ & _ & Hw & Hl & _).
  split; [|split; [|split]].
  - intros Hc. apply (status_ok _ _ _ Hw Hc). reflexivity.
  - exact Hl.
  - intros p v fields. apply get_not_found.
  - intros p v fields. apply get_open_raises.
Qed.

End Get.

(** ** Directory listings of a tree *)
Lemma names_plain_entries es :
  names_plain (Dir es) = true ->
  Forall (fun e => plain_name (fst e) = true /\ names_plain (snd e) = true) es.
Proof.
  induction es as [|[name x] es IH]; intros H; [constructor|].
  cbn in H. apply andb_true_iff in H as [H Hr].
  apply andb_true_iff in H as [Hn Hx].
  constructor; [split; assumption|apply IH, Hr].
Qed.

Lemma entry_names_plain es name n :
  names_plain (Dir es) = true -> entry name es = Some n ->
  names_plain n = true.
Proof.
  intros H. apply names_plain_entries in H.
  induction H as [|[k x] es [_ Hx] _ IH]; cbn [entry]; [discriminate|].
  destruct (String.eqb k name); [intros [= <-]; exact Hx|exact IH].
Qed.

Lemma walk_names_plain comps : forall up cur n,
  names_plain cur = true ->
  Forall (fun x => names_plain x = true) up ->
  walk up cur comps = Some n -> names_plain n = true.
Proof.
  induction comps as [|c cs IH]; intros up cur n Hc Hu; cbn [walk].
  - intros [= <-]. exact Hc.
  - destruct cur as [b m rd|es]; [discriminate|].
    destruct (String.eqb c "" || String.eqb c "."); [apply IH; assumption|].
    destruct (String.eqb c "..").
    + destruct up as [|p up']; [apply IH; assumption|].
      inversion Hu; subst. apply IH; assumption.
    + destruct (entry c es) as [x|] eqn:E; [|discriminate].
      apply IH; [apply (entry_names_plain _ _ _ Hc E)|].
      constructor; assumption.
Qed.

Lemma tree_fs_listdir_plain root cwd :
  names_plain root = true -> listdir_plain (tree_fs root cwd).
Proof.
  intros Hr q names name. cbn [listdir tree_fs].
  destruct (resolve root cwd q) as [[b m rd|es]|] eqn:R; try discriminate.
  intros [= <-] Hin.
  assert (Hes : names_plain (Dir es) = true).
  { unfold resolve in R. destruct (String.eqb q ""); [discriminate|].
    destruct (startswith q "/");
      apply (walk_names_plain _ _ _ _ Hr (Forall_nil _) R). }
  apply names_plain_entries in Hes. rewrite Forall_forall in Hes.
  apply in_map_iff in Hin as ([k x] & <- & Hin).
  apply (Hes _ Hin).
Qed.

(** ** Examples and counterexamples *)

Lemma example_fs_plain : listdir_plain example_fs.
Proof. apply tree_fs_listdir_plain. vm_compute. reflexivity. Qed.


(** C1 as stated fails: [/../index.html] resolves outside the root, and
    the answer to GET is 200, with the bytes of the [index.html] inside
    the root. *)
Lemma traversal_answered_200 :
  resolves_outside example_root "/../index.html" = true
  /\ status (wfile (respond example_fs example_root
                      (request_of "GET /../index.html HTTP/1.1")))
     = Some 200%N
  /\ body (wfile (respond example_fs example_root
                    (request_of "GET /../index.html HTTP/1.1")))
     = "<h1>Hi</h1>".
Proof. vm_compute. repeat split. Qed.

(** C2 as stated fails: the answer to the HTTP/0.9 request
    [GET /index.html] is the file alone, with no header. *)
Lemma http09_response_without_headers :
  wfile (respond example_fs example_root (request_of "GET /index.html"))
  = [Data "<h1>Hi</h1>"]
  /\ ~ incl cors_headers
         (header_lines
            (wfile (respond example_fs example_root
                      (request_of "GET /index.html")))).
Proof.
  assert (E : wfile (respond example_fs example_root
                       (request_of "GET /index.html"))
              = [Data "<h1>Hi</h1>"]) by (vm_compute; reflexivity).
  split; [exact E|]. rewrite E. intros H.
  apply (H (Header "Access-Control-Allow-Origin" "*")). left. reflexivity.
Qed.

(** C4 as stated fails: [private.key] is a regular file in the root
    that the server may not read, and GET for it is answered 404. *)
Lemma unreadable_file_answered_404 :
  isfile example_fs "/srv/frontend/private.key" = true
  /\ status (wfile (respond example_fs example_root
                      (request_of "GET /private.key HTTP/1.1")))
     = Some 404%N.
Proof. vm_compute. split; reflexivity. Qed.

(** C5 as stated fails: [/../../etc/passwd] resolves outside the root,
    and the answer to GET is 404, not 403. *)
Lemma traversal_answered_404 :
  resolves_outside example_root "/../../etc/passwd" = true
  /\ status (wfile (respond example_fs example_root
                      (request_of "GET /../../etc/passwd HTTP/1.1")))
     = Some 404%N.
Proof. vm_compute. split; reflexivity. Qed.

(** ** The path of a file named by plain segments *)
Section Segments.
Context {lib : Library}.

Lemma append_empty_r s : (s ++ "")%string = s.
Proof. induction s as [|a s IH]; cbn; [|rewrite IH]; reflexivity. Qed.

Lemma append_assoc' s1 s2 s3 :
  ((s1 ++ s2) ++ s3)%string = (s1 ++ (s2 ++ s3))%string.
Proof. induction s1 as [|a s1 IH]; cbn; [|rewrite IH]; reflexivity. Qed.

Lemma rev_snoc s a : rev (s ++ String a "") = String a (rev s).
Proof.
  induction s as [|b s IH]; cbn; [reflexivity|]. rewrite IH. reflexivity.
Qed.

Lemma rev_rev s : rev (rev s) = s.
Proof.
  induction s as [|a s IH]; cbn; [reflexivity|].
  rewrite rev_snoc, IH. reflexivity.
Qed.

Lemma snoc_cases s : s = "" \/ exists s' a, s = (s' ++ String a "")%string.
Proof.
  induction s as [|b s IH]; [left; reflexivity|right].
  destruct IH as [->|(s' & a & ->)].
  - exists "", b. reflexivity.
  - exists (String b s'), a. reflexivity.
Qed.

Lemma endswith_snoc s a c :
  endswith (s ++ String a "") (String c "") = Ascii.eqb c a.
Proof.
  unfold endswith. rewrite rev_snoc. cbn [rev append String.prefix].
  destruct (ascii_dec c a) as [->|N].
  - rewrite Ascii.eqb_refl. destruct (rev s); reflexivity.
  - symmetry. apply Ascii.eqb_neq, N.
Qed.

Lemma rstrip_snoc f s a :
  f a = false -> rstrip f (s ++ String a "") = (s ++ String a "")%string.
Proof.
  intros F. unfold rstrip. rewrite rev_snoc. cbn. rewrite F.
  cbn. rewrite rev_rev. reflexivity.
Qed.

(** The last character of a segment. *)
Lemma segment_chars_app s1 s2 :
  segment_chars (s1 ++ s2) = segment_chars s1 && segment_chars s2.
Proof.
  induction s1 as [|a s1 IH]; cbn; [reflexivity|].
  rewrite IH, Bool.andb_assoc. reflexivity.
Qed.

Lemma segment_last w :
  segment w = true ->
  exists s a, w = (s ++ String a "")%string /\ segment_char a = true.
Proof.
  unfold segment. intros H.
  apply Bool.andb_true_iff in H as (H & _).
  apply Bool.andb_true_iff in H as (H & _).
  apply Bool.andb_true_iff in H as (Hn & Hc).
  destruct (snoc_cases w) as [->|(s & a & ->)]; [discriminate|].
  exists s, a. split; [reflexivity|].
  rewrite segment_chars_app in Hc. apply Bool.andb_true_iff in Hc as (_ & Hc).
  cbn in Hc. rewrite Bool.andb_true_r in Hc. exact Hc.
Qed.

Lemma segment_char_spec a :
  segment_char a = true ->
  isspace a = false /\ Ascii.eqb a "/" = false /\ Ascii.eqb a "?" = false
  /\ Ascii.eqb a "#" = false /\ Ascii.eqb a "%" = false.
Proof.
  unfold segment_char. intros H.
  repeat (apply Bool.andb_true_iff in H as (H & ?)).
  repeat match goal with
         | H : negb _ = true |- _ => apply Bool.negb_true_iff in H
         end.
  repeat split; assumption.
Qed.

Lemma segment_contains w c :
  segment_chars w = true -> segment_char c = false -> contains c w = false.
Proof.
  intros Hw Hc. induction w as [|a w IH]; [reflexivity|].
  cbn in Hw |- *. apply Bool.andb_true_iff in Hw as (Ha & Hw).
  rewrite (IH Hw), Bool.orb_false_r.
  apply Ascii.eqb_neq. intros ->. congruence.
Qed.

Lemma segment_spec w :
  segment w = true ->
  String.eqb w "" = false /\ segment_chars w = true
  /\ String.eqb w "." = false /\ String.eqb w ".." = false.
Proof.
  unfold segment. intros H.
  repeat (apply Bool.andb_true_iff in H as (H & ?)).
  repeat match goal with
         | H : negb _ = true |- _ => apply Bool.negb_true_iff in H
         end.
  repeat split; assumption.
Qed.

Lemma contains_app c s1 s2 :
  contains c (s1 ++ s2) = contains c s1 || contains c s2.
Proof.
  induction s1 as [|a s1 IH]; cbn; [reflexivity|].
  rewrite IH, Bool.orb_assoc. reflexivity.
Qed.

Lemma before_absent c s : contains c s = false -> before c s = s.
Proof.
  induction s as [|a s IH]; cbn; [reflexivity|]. intros H.
  apply Bool.orb_false_iff in H as (Ha & Hs). rewrite Ha, (IH Hs).
  reflexivity.
Qed.

Lemma split_absent c s : contains c s = false -> split c s = [s].
Proof.
  induction s as [|a s IH]; cbn; [reflexivity|]. intros H.
  apply Bool.orb_false_iff in H as (Ha & Hs). rewrite Ha, (IH Hs).
  reflexivity.
Qed.

Lemma split_app c w s :
  contains c w = false ->
  split c (w ++ String c s) = w :: split c s.
Proof.
  induction w as [|a w IH]; cbn.
  - intros _. rewrite Ascii.eqb_refl. reflexivity.
  - intros H. apply Bool.orb_false_iff in H as (Ha & Hw).
    rewrite Ha, (IH Hw). reflexivity.
Qed.

Lemma join_cons sep w w' ws :
  PyStr.join sep (w :: w' :: ws)
  = (w ++ sep ++ PyStr.join sep (w' :: ws))%string.
Proof. reflexivity. Qed.

Lemma split_join ws :
  ws <> [] -> Forall (fun w => segment w = true) ws ->
  split "/" (PyStr.join "/" ws) = ws.
Proof.
  intros Hn Hs. induction Hs as [|w ws Hw Hs IH]; [contradiction|].
  apply segment_spec in Hw as (_ & Hc & _).
  pose proof (segment_contains w "/" Hc eq_refl) as Hsl.
  destruct ws as [|w' ws].
  - apply split_absent, Hsl.
  - rewrite join_cons. change ("/" ++ ?s)%string with (String "/" s).
    rewrite split_app by exact Hsl. rewrite IH by discriminate. reflexivity.
Qed.

Lemma contains_join c ws :
  segment_char c = false -> Ascii.eqb "/" c = false ->
  Forall (fun w => segment w = true) ws ->
  contains c (PyStr.join "/" ws) = false.
Proof.
  intros Hc Hsl Hs. induction Hs as [|w ws Hw Hs IH]; [reflexivity|].
  apply segment_spec in Hw as (_ & Hw & _).
  destruct ws as [|w' ws]; [apply segment_contains; assumption|].
  rewrite join_cons, contains_app, (segment_contains _ _ Hw Hc).
  change ("/" ++ ?s)%string with (String "/" s). cbn [contains orb].
  rewrite Hsl. exact IH.
Qed.

(** The target ends with the last character of its last segment. *)
Lemma join_last ws :
  ws <> [] -> Forall (fun w => segment w = true) ws ->
  exists s a,
    PyStr.join "/" ws = (s ++ String a "")%string /\ segment_char a = true.
Proof.
  intros Hn Hs. induction Hs as [|w ws Hw Hs IH]; [contradiction|].
  destruct ws as [|w' ws].
  - apply segment_last, Hw.
  - destruct IH as (s & a & E & Ha); [discriminate|].
    exists (w ++ "/" ++ s)%string, a. split; [|exact Ha].
    rewrite join_cons, E, !append_assoc'. reflexivity.
Qed.

Lemma target_last ws :
  ws <> [] -> Forall (fun w => segment w = true) ws ->
  exists s a, target ws = (s ++ String a "")%string /\ segment_char a = true.
Proof.
  intros Hn Hs. destruct (join_last ws Hn Hs) as (s & a & E & Ha).
  exists ("/" ++ s)%string, a. split; [|exact Ha].
  unfold target. rewrite E. reflexivity.
Qed.

Lemma segment_head w :
  segment w = true ->
  exists a s, w = String a s /\ Ascii.eqb a "/" = false.
Proof.
  intros H. apply segment_spec in H as (Hn & Hc & _).
  destruct w as [|a s]; [discriminate|]. exists a, s. split; [reflexivity|].
  cbn in Hc. apply Bool.andb_true_iff in Hc as (Ha & _).
  apply segment_char_spec in Ha. tauto.
Qed.

Lemma startswith_slash a s :
  Ascii.eqb a "/" = false -> startswith (String a s) "/" = false.
Proof.
  intros H. unfold startswith. cbn [String.prefix].
  destruct (ascii_dec "/" a) as [<-|]; [discriminate|reflexivity].
Qed.

Lemma target_head ws :
  ws <> [] -> Forall (fun w => segment w = true) ws ->
  exists a s, target ws = String "/" (String a s) /\ Ascii.eqb a "/" = false.
Proof.
  intros Hn Hs. destruct Hs as [|w ws Hw Hs]; [contradiction|].
  destruct (segment_head w Hw) as (a & s & -> & Ha).
  destruct ws as [|w' ws].
  - exists a, s. split; [reflexivity|exact Ha].
  - exists a, (s ++ "/" ++ PyStr.join "/" (w' :: ws))%string.
    split; [reflexivity|exact Ha].
Qed.

Lemma fix_path_target ws :
  ws <> [] -> Forall (fun w => segment w = true) ws ->
  fix_path (target ws) = target ws.
Proof.
  intros Hn Hs. destruct (target_head ws Hn Hs) as (a & s & -> & Ha).
  unfold fix_path, startswith. cbn [String.prefix].
  destruct (ascii_dec "/" "/") as [_|N]; [|contradiction].
  destruct (ascii_dec "/" a) as [<-|]; [discriminate|reflexivity].
Qed.

Lemma contains_target c ws :
  segment_char c = false -> Ascii.eqb "/" c = false ->
  Forall (fun w => segment w = true) ws ->
  contains c (target ws) = false.
Proof.
  intros Hc Hsl Hs. unfold target.
  change ("/" ++ ?s)%string with (String "/" s). cbn [contains].
  rewrite Hsl. apply contains_join; assumption.
Qed.

(** [normpath] leaves such a target as it is. *)
Lemma normpath_loop_segments n ws acc :
  Forall (fun w => segment w = true) ws ->
  PosixPath.normpath_loop n ws acc = (List.rev acc ++ ws)%list.
Proof.
  intros Hs. revert acc.
  induction Hs as [|w ws Hw Hs IH]; intros acc; cbn [PosixPath.normpath_loop].
  - rewrite app_nil_r. reflexivity.
  - apply segment_spec in Hw as (H1 & _ & H2 & H3).
    rewrite H1, H2, H3. cbn [orb negb]. rewrite IH. cbn [List.rev].
    rewrite <- app_assoc. reflexivity.
Qed.

Lemma split_target ws :
  ws <> [] -> Forall (fun w => segment w = true) ws ->
  split "/" (target ws) = "" :: ws.
Proof.
  intros Hn Hs. unfold target.
  change ("/" ++ ?s)%string with (String "/" s). cbn [split].
  rewrite Ascii.eqb_refl, split_join by assumption. reflexivity.
Qed.

Lemma normpath_target ws :
  ws <> [] -> Forall (fun w => segment w = true) ws ->
  PosixPath.normpath (target ws) = target ws.
Proof.
  intros Hn Hs. unfold PosixPath.normpath.
  rewrite (split_target ws Hn Hs).
  destruct (target_head ws Hn Hs) as (a & s & E & Ha).
  assert (Hi : PosixPath.initial_slashes (target ws) = 1%nat).
  { rewrite E. unfold PosixPath.initial_slashes, startswith.
    cbn [String.prefix].
    destruct (ascii_dec "/" "/") as [_|N]; [|contradiction].
    destruct (ascii_dec "/" a) as [<-|]; [discriminate|reflexivity]. }
  rewrite Hi. cbv zeta. cbn [PosixPath.normpath_loop String.eqb orb].
  rewrite normpath_loop_segments by exact Hs. cbn [List.rev app].
  change (PosixPath.repeat_sep 1 ++ PyStr.join "/" ws)%string
    with (target ws).
  rewrite E. reflexivity.
Qed.

Lemma filter_segments ws :
  Forall (fun w => segment w = true) ws ->
  List.filter (fun w => negb (String.eqb w "")) ws = ws.
Proof.
  intros Hs. induction Hs as [|w ws Hw Hs IH]; [reflexivity|].
  cbn [List.filter]. apply segment_spec in Hw as (-> & _). cbn [negb].
  rewrite IH. reflexivity.
Qed.

(** No segment is skipped when the path is put together again. *)
Lemma rfind_from_absent c s i last :
  contains c s = false -> PosixPath.rfind_from c s i last = last.
Proof.
  revert i last. induction s as [|a s IH]; intros i last; cbn;
    [reflexivity|].
  intros H. apply Bool.orb_false_iff in H as (Ha & Hs).
  rewrite Ha. apply IH, Hs.
Qed.

Lemma dirname_segment w :
  segment w = true -> PosixPath.dirname w = "".
Proof.
  intros H. apply segment_spec in H as (_ & Hc & _).
  unfold PosixPath.dirname, PosixPath.rfind.
  rewrite rfind_from_absent by (apply segment_contains; [exact Hc|reflexivity]).
  cbn. destruct w; reflexivity.
Qed.

Lemma skipped_segment w : segment w = true -> skipped w = false.
Proof.
  intros H. unfold skipped. rewrite (dirname_segment w H).
  apply segment_spec in H as (_ & _ & -> & ->). reflexivity.
Qed.

Lemma join_words_segments root ws :
  Forall (fun w => segment w = true) ws ->
  join_words root ws = location root ws.
Proof.
  intros Hs. revert root. unfold location.
  induction Hs as [|w ws Hw Hs IH]; intros root; cbn [join_words fold_left];
    [reflexivity|].
  rewrite (skipped_segment w Hw). apply IH.
Qed.

(** The path [translate_path] makes of such a target. *)
Lemma translate_path_target root ws :
  ws <> [] -> Forall (fun w => segment w = true) ws ->
  translate_path root (target ws) = location root ws.
Proof.
  intros Hn Hs. unfold translate_path.
  rewrite (before_absent "?") by (apply contains_target; auto).
  rewrite (before_absent "#") by (apply contains_target; auto).
  unfold unquote. rewrite (contains_target "%") by auto.
  rewrite normpath_target, split_target by assumption.
  cbn [List.filter String.eqb negb]. rewrite filter_segments by exact Hs.
  rewrite join_words_segments by exact Hs.
  destruct (target_last ws Hn Hs) as (s & a & -> & Ha).
  apply segment_char_spec in Ha as (Hsp & Hsl & _).
  rewrite rstrip_snoc by exact Hsp. rewrite endswith_snoc.
  rewrite Ascii.eqb_sym, Hsl. reflexivity.
Qed.

(** That path does not end with a slash. *)
Lemma join_snoc path s a :
  Ascii.eqb a "/" = false -> (s ++ String a "")%string <> "" ->
  startswith (s ++ String a "") "/" = false ->
  exists s', PosixPath.join path (s ++ String a "")
             = (s' ++ String a "")%string.
Proof.
  intros Ha _ Hst. unfold PosixPath.join. rewrite Hst.
  destruct (_ || _).
  - exists (path ++ s)%string. rewrite append_assoc'. reflexivity.
  - exists (path ++ "/" ++ s)%string. rewrite !append_assoc'. reflexivity.
Qed.

Lemma location_last root ws :
  ws <> [] -> Forall (fun w => segment w = true) ws ->
  exists s a,
    location root ws = (s ++ String a "")%string /\ Ascii.eqb a "/" = false.
Proof.
  intros Hn Hs. revert root.
  induction Hs as [|w ws Hw Hs IH]; intros root; [contradiction|].
  unfold location. cbn [fold_left]. destruct ws as [|w' ws].
  - cbn [fold_left]. destruct (segment_last w Hw) as (s & a & E & Ha).
    destruct (segment_head w Hw) as (b & t & E' & Hb).
    apply segment_char_spec in Ha as (_ & Ha & _).
    assert (Hst : startswith (s ++ String a "") "/" = false).
    { rewrite <- E, E'. apply startswith_slash, Hb. }
    rewrite E.
    destruct (join_snoc root s a Ha) as (s' & ->);
      [destruct s; discriminate|exact Hst|].
    exists s', a. split; [reflexivity|exact Ha].
  - apply IH. discriminate.
Qed.

Lemma location_no_slash root ws :
  ws <> [] -> Forall (fun w => segment w = true) ws ->
  endswith (location root ws) "/" = false.
Proof.
  intros Hn Hs. destruct (location_last root ws Hn Hs) as (s & a & -> & Ha).
  rewrite endswith_snoc, Ascii.eqb_sym. exact Ha.
Qed.

End Segments.

(** ** GET of a file *)
Section GetFile.
Context {lib : Library}.
Variable fs : filesystem.

Lemma send_file_head_found t h f :
  endswith t "/" = false ->
  open_rb fs t = Some f ->
  not_modified (headers h) f = false ->
  quiet h = false ->
  exists h',
    send_file_head fs t h = (Some (content f), h')
    /\ wfile h'
       = (wfile h
          ++ [HeaderBlock
                (headers_buffer h
                 ++ (response_lines 200 (phrase 200 None)
                     ++ [Header "Content-type" (content_type t);
                         Header "Content-Length" (of_N (len (content f)));
                         Header "Last-Modified"
                           (date_time_string (Some (st_mtime f)))]
                     ++ cors_headers)
                 ++ [EndOfHeaders])])%list.
Proof.
  intros He Ho Hm Q. unfold send_file_head.
  rewrite (bind_eq _ _ _ _ _ (guess_type_eq _ _)). rewrite He.
  rewrite bind_trace, Ho, bind_get. cbv zeta. hsimpl.
  unfold not_modified in Hm. rewrite Hm.
  rewrite (bind_eq _ _ _ _ _ (send_response_eq _ _ _)).
  rewrite (bind_eq _ _ _ _ _ (send_header_eq "Content-type" _ _ eq_refl)).
  rewrite (bind_eq _ _ _ _ _ (send_header_eq "Content-Length" _ _ eq_refl)).
  rewrite (bind_eq _ _ _ _ _ (send_header_eq "Last-Modified" _ _ eq_refl)).
  rewrite (bind_eq _ _ _ _ _ (end_headers_eq _)).
  unfold ret. eexists. split; [reflexivity|].
  rewrite !buffered_buffered.
  rewrite emitted_loud by (unfold quiet, logged in *; hsimpl; exact Q).
  unfold logged. hsimpl. rewrite <- !app_assoc. reflexivity.
Qed.

Lemma get_file_response root r p v fields f :
  wellformed r "GET" p v fields ->
  isdir fs (translate_path root (fix_path p)) = false ->
  endswith (translate_path root (fix_path p)) "/" = false ->
  open_rb fs (translate_path root (fix_path p)) = Some f ->
  not_modified fields f = false ->
  status (wfile (respond fs root r)) = Some 200%N
  /\ body (wfile (respond fs root r)) = content f.
Proof.
  intros W Hdir Hend Hopen Hm. rewrite (get_response _ _ _ _ _ _ W).
  destruct W as (_ & _ & Hv & _).
  set (h0 := parsed _ _ _ _ _ _).
  assert (Hd : directory h0 = root) by reflexivity.
  assert (Hp : path h0 = fix_path p) by reflexivity.
  assert (Hh : headers h0 = fields) by reflexivity.
  assert (Q : quiet h0 = false).
  { unfold quiet, h0, parsed. hsimpl. apply http1_not_09, Hv. }
  assert (Hw : wfile h0 = [] /\ headers_buffer h0 = []) by (split; reflexivity).
  clearbody h0. unfold do_GET.
  rewrite <- Hd, <- Hp in Hdir, Hend, Hopen. rewrite <- Hh in Hm.
  pose proof (send_head_file fs h0 Hdir) as E.
  destruct (send_file_head_found _
              (set_fs_trace
                 (fs_trace h0
                  ++ [OpIsdir (translate_path (directory h0) (path h0))]) h0)
              f Hend Hopen Hm Q) as (h' & E' & Wh).
  rewrite E' in E. rewrite (bind_eq _ _ _ _ _ E).
  unfold wfile_write, modify. hsimpl. rewrite Wh. hsimpl.
  destruct Hw as (-> & ->). split; [reflexivity|].
  unfold body. cbn [app flat_map String.concat]. reflexivity.
Qed.

(** C4, amended: a GET whose target is made of plain segments that name
    a file the server can open, and no directory, below the root is
    answered 200 with the bytes of that file, unless the request carries
    an [If-Modified-Since] date that the file is not newer than. *)
Theorem get_serves_file root r ws v fields f :
  ws <> [] ->
  Forall (fun w => segment w = true) ws ->
  wellformed r "GET" (target ws) v fields ->
  isdir fs (location root ws) = false ->
  open_rb fs (location root ws) = Some f ->
  not_modified fields f = false ->
  status (wfile (respond fs root r)) = Some 200%N
  /\ body (wfile (respond fs root r)) = content f.
Proof.
  intros Hn Hs W Hdir Hopen Hm.
  pose proof (translate_path_target root ws Hn Hs) as T.
  pose proof (fix_path_target ws Hn Hs) as F.
  apply (get_file_response root r (target ws) v fields f W);
    rewrite ?F, ?T; try assumption.
  apply location_no_slash; assumption.
Qed.

End GetFile.

Lemma get_serves_file_witness :
  Forall (fun w => segment w = true) ["assets"; "app.js"]
  /\ wellformed (request_of "GET /assets/app.js HTTP/1.1") "GET"
       (target ["assets"; "app.js"]) "HTTP/1.1" [("Host", "localhost:3000")]
  /\ isdir example_fs (location example_root ["assets"; "app.js"]) = false
  /\ open_rb example_fs (location example_root ["assets"; "app.js"])
     = Some {| content := "main()"; st_mtime := 0 |}
  /\ not_modified [("Host", "localhost:3000")]
       {| content := "main()"; st_mtime := 0 |} = false
  /\ status (wfile (respond example_fs example_root
                      (request_of "GET /assets/app.js HTTP/1.1")))
     = Some 200%N
  /\ body (wfile (respond example_fs example_root
                    (request_of "GET /assets/app.js HTTP/1.1")))
     = "main()".
Proof.
  assert (S : Forall (fun w => segment w = true) ["assets"; "app.js"]).
  { repeat constructor. }
  assert (W : wellformed (request_of "GET /assets/app.js HTTP/1.1") "GET"
                (target ["assets"; "app.js"]) "HTTP/1.1"
                [("Host", "localhost:3000")]).
  { prove_wellformed. }
  assert (D : isdir example_fs (location example_root ["assets"; "app.js"])
              = false) by (vm_compute; reflexivity).
  assert (O : open_rb example_fs (location example_root ["assets"; "app.js"])
              = Some {| content := "main()"; st_mtime := 0 |})
    by (vm_compute; reflexivity).
  assert (M : not_modified [("Host", "localhost:3000")]
                {| content := "main()"; st_mtime := 0 |} = false)
    by (vm_compute; reflexivity).
  repeat (split; [assumption|]).
  exact (get_serves_file example_fs example_root _ ["assets"; "app.js"] _ _ _
           ltac:(discriminate) S W D O M).
Defined.

(** ** Requests the handler turns down *)
Section Rejected.
Context {lib : Library}.
Variable fs : filesystem.

Lemma getattr_other cmd :
  cmd <> "GET" -> cmd <> "HEAD" -> cmd <> "OPTIONS" ->
  getattr fs ("do_" ++ cmd) = None.
Proof.
  intros H1 H2 H3. unfold getattr.
  change (("do_" ++ cmd) =? "do_GET")%string with (cmd =? "GET")%string.
  change (("do_" ++ cmd) =? "do_HEAD")%string with (cmd =? "HEAD")%string.
  change (("do_" ++ cmd) =? "do_OPTIONS")%string
    with (cmd =? "OPTIONS")%string.
  apply String.eqb_neq in H1, H2, H3. rewrite H1, H2, H3. reflexivity.
Qed.

Lemma header_lines_block ls rest :
  header_lines (HeaderBlock ls :: rest) = (ls ++ header_lines rest)%list.
Proof. reflexivity. Qed.

Lemma incl_cors_block pre rest :
  incl cors_headers
    (header_lines
       (HeaderBlock (pre ++ cors_headers ++ [EndOfHeaders]) :: rest)).
Proof.
  intros l Hl. rewrite header_lines_block.
  apply in_or_app. left. apply in_or_app. right.
  apply in_or_app. left. exact Hl.
Qed.

(** The answer of [send_error] on a fresh connection, once the version
    of the request is known not to be HTTP/0.9. *)
Lemma sent_error_fresh code m e h :
  quiet h = false -> has_body code = true -> is_head h = false ->
  wfile h = [] -> headers_buffer h = [] ->
  wfile (sent_error code m e h)
  = [HeaderBlock
       ((response_lines code (error_message code m)
         ++ [Header "Connection" "close";
             Header "Content-Type" error_content_type;
             Header "Content-Length" (of_N (len (error_page code m e)))])
        ++ cors_headers ++ [EndOfHeaders]);
     Data (error_page code m e)]
  /\ fs_trace (sent_error code m e h) = fs_trace h
  /\ close_connection (sent_error code m e h) = true.
Proof.
  intros Q B Hd Hw Hb. unfold sent_error. rewrite B, Hd. cbn [andb negb].
  rewrite emitted_loud by (unfold quiet, logged in *; hsimpl; exact Q).
  unfold logged. hsimpl. rewrite Hw, Hb. cbn [app].
  repeat split.
Qed.

(** X1. A request whose method is none of GET, HEAD and OPTIONS (the
    names are compared as they are written, so also [get]) is answered
    501 with the error page that names the method and with the CORS
    headers, and the handler makes no call into the file system. *)
Theorem unsupported_method dir r cmd p v fields :
  wellformed r cmd p v fields ->
  cmd <> "GET" -> cmd <> "HEAD" -> cmd <> "OPTIONS" ->
  status (wfile (respond fs dir r)) = Some 501%N
  /\ body (wfile (respond fs dir r))
     = error_page 501 (Some ("Unsupported method (" ++ repr cmd ++ ")")) None
  /\ incl cors_headers (header_lines (wfile (respond fs dir r)))
  /\ fs_trace (respond fs dir r) = [].
Proof.
  intros W H1 H2 H3. unfold respond.
  rewrite (handle_wellformed fs _ _ _ _ _ _ W).
  rewrite (getattr_other cmd H1 H2 H3), send_error_eq.
  destruct W as (_ & _ & Hv & _). hsimpl.
  destruct (sent_error_fresh 501
              (Some ("Unsupported method (" ++ repr cmd ++ ")")) None
              (parsed (raw_requestline r) cmd p v fields (new_handler dir)))
    as (-> & -> & _); try reflexivity.
  - apply quiet_parsed, Hv.
  - unfold is_head, parsed. hsimpl. apply String.eqb_neq, H2.
  - repeat split. apply incl_cors_block.
Qed.

Lemma respond_too_long dir r :
  (65536 <? len (raw_requestline r))%N = true ->
  respond fs dir r
  = sent_error 414 None None
      (set_command (Some "")
         (set_request_version "" (set_requestline "" (new_handler dir)))).
Proof.
  intros L. unfold respond, handle_one_request. rewrite L.
  unfold bind, modify. hsimpl. rewrite send_error_eq. reflexivity.
Qed.

(** X2. A request line of more than 65536 bytes is not parsed: it is
    answered 414 with the error page and the CORS headers, the
    connection is closed, and the file system is not touched. *)
Theorem request_line_too_long dir r :
  (65536 <? len (raw_requestline r))%N = true ->
  status (wfile (respond fs dir r)) = Some 414%N
  /\ body (wfile (respond fs dir r)) = error_page 414 None None
  /\ incl cors_headers (header_lines (wfile (respond fs dir r)))
  /\ In (Header "Connection" "close")
        (header_lines (wfile (respond fs dir r)))
  /\ close_connection (respond fs dir r) = true
  /\ fs_trace (respond fs dir r) = [].
Proof.
  intros L. rewrite (respond_too_long dir r L).
  match goal with |- context [sent_error _ _ _ ?h] => set (h0 := h) end.
  destruct (sent_error_fresh 414 None None h0) as (-> & -> & ->);
    try reflexivity.
  repeat split.
  - apply incl_cors_block.
  - rewrite header_lines_block. cbn [response_lines app In]. tauto.
Qed.

(** X3. A request line without a word (the end of the stream, an empty
    line, white space only) is answered with nothing at all: nothing is
    written or logged, no file is touched, and the connection is
    closed. *)
Theorem blank_request_line dir r :
  (len (raw_requestline r) <=? 65536)%N = true ->
  split_ws (rstrip is_crlf (raw_requestline r)) = [] ->
  wfile (respond fs dir r) = []
  /\ log (respond fs dir r) = []
  /\ fs_trace (respond fs dir r) = []
  /\ close_connection (respond fs dir r) = true.
Proof.
  intros L E. unfold respond, handle_one_request.
  rewrite N.ltb_antisym, L. cbn [negb].
  destruct (String.eqb (raw_requestline r) ""); [repeat split|].
  unfold parse_request. rewrite E.
  unfold bind, modify, ret. hsimpl. repeat split.
Qed.

(** [send_error] while the request counts as HTTP/0.9: the page alone. *)
Lemma sent_error_quiet code m e h :
  quiet h = true -> has_body code = true -> is_head h = false ->
  wfile (sent_error code m e h) = (wfile h ++ [Data (error_page code m e)])%list
  /\ headers_buffer (sent_error code m e h) = headers_buffer h
  /\ fs_trace (sent_error code m e h) = fs_trace h
  /\ close_connection (sent_error code m e h) = true.
Proof.
  intros Q B Hd. unfold sent_error. rewrite B, Hd. cbn [andb negb].
  rewrite emitted_quiet by (unfold quiet, logged in *; hsimpl; exact Q).
  unfold logged. hsimpl. repeat split.
Qed.

(** X4. A request line that is turned down before its version is
    accepted is answered as if it were HTTP/0.9: the HTML error page
    and nothing else, so no status line, no header and no CORS header.
    This is so for a last word that is no [HTTP/<major>.<minor>], for a
    version from 2.0 on, for a two-word line whose method is not GET,
    and for a single word. *)
Theorem request_line_rejected dir r words :
  (len (raw_requestline r) <=? 65536)%N = true ->
  split_ws (rstrip is_crlf (raw_requestline r)) = words ->
  (3 <= List.length words ->
   version_number (List.last words "") = None ->
   wfile (respond fs dir r)
   = [Data (error_page 400
              (Some ("Bad request version (" ++ repr (List.last words "")
                     ++ ")")) None)])
  /\ (forall base number,
        3 <= List.length words ->
        version_number (List.last words "") = Some (base, number) ->
        pair_ge number (2, 0)%Z = true ->
        wfile (respond fs dir r)
        = [Data (error_page 505
                   (Some ("Invalid HTTP version (" ++ base ++ ")")) None)])
  /\ (forall cmd p,
        words = [cmd; p] -> cmd <> "GET" ->
        wfile (respond fs dir r)
        = [Data (error_page 400
                   (Some ("Bad HTTP/0.9 request type (" ++ repr cmd ++ ")"))
                   None)])
  /\ (forall w,
        words = [w] ->
        wfile (respond fs dir r)
        = [Data (error_page 400
                   (Some ("Bad request syntax ("
                          ++ repr (rstrip is_crlf (raw_requestline r))
                          ++ ")")) None)]).
Proof.
  intros L E.
  assert (R : forall h,
             words <> [] ->
             handle_one_request fs r h
             = (let (ok, h') := parse_request r h in
                if negb ok then (tt, h')
                else
                  match getattr fs ("do_" ++ match command h' with
                                             | Some c => c
                                             | None => ""
                                             end) with
                  | None =>
                      send_error 501
                        (Some ("Unsupported method ("
                               ++ repr match command h' with
                                       | Some c => c
                                       | None => ""
                                       end ++ ")")) None
                  | Some method => method
                  end h')).
  { intros h Hw. unfold handle_one_request.
    rewrite N.ltb_antisym, L. cbn [negb].
    destruct (String.eqb_spec (raw_requestline r) "") as [Hr|_].
    - rewrite Hr in E. vm_compute in E. congruence.
    - unfold bind at 1. destruct (parse_request r h) as [ok h'].
      destruct ok; reflexivity. }
  assert (F : forall code m e h,
             quiet h = true -> is_head h = false -> has_body code = true ->
             wfile h = [] ->
             wfile (sent_error code m e h) = [Data (error_page code m e)]).
  { intros code m e h Q Hd B Hw.
    destruct (sent_error_quiet code m e h Q B Hd) as (-> & _).
    rewrite Hw. reflexivity. }
  unfold respond. repeat split.
  - intros Hlen Hv. rewrite R by (intros ->; cbn in Hlen; lia).
    unfold parse_request. rewrite E.
    destruct words as [|w1 [|w2 [|w3 rest]]]; cbn in Hlen; try lia.
    cbn [List.length Nat.leb].
    unfold bind, modify, ret, when. hsimpl. rewrite Hv.
    rewrite send_error_eq. hsimpl. cbn [negb]. apply F; reflexivity.
  - intros base number Hlen Hv Hge. rewrite R by (intros ->; cbn in Hlen; lia).
    unfold parse_request. rewrite E.
    destruct words as [|w1 [|w2 [|w3 rest]]]; cbn in Hlen; try lia.
    cbn [List.length Nat.leb].
    unfold bind, modify, ret, when. hsimpl. rewrite Hv. hsimpl.
    replace (str_ge protocol_version "HTTP/1.1") with false by reflexivity.
    rewrite andb_false_r, Hge. hsimpl.
    rewrite send_error_eq. hsimpl. cbn [negb]. apply F; reflexivity.
  - intros cmd p -> Hc. rewrite R by discriminate.
    unfold parse_request. rewrite E.
    cbn [List.length Nat.leb].
    unfold bind, modify, ret, when. hsimpl. cbn [negb].
    apply String.eqb_neq in Hc. rewrite Hc. cbn [negb]. hsimpl.
    rewrite send_error_eq. hsimpl. cbn [negb]. apply F; reflexivity.
  - intros w ->. rewrite R by discriminate.
    unfold parse_request. rewrite E.
    cbn [List.length Nat.leb].
    unfold bind, modify, ret, when. hsimpl. cbn [negb].
    rewrite send_error_eq. hsimpl. cbn [negb]. apply F; reflexivity.
Qed.

(** [send_error] once the version of the request is accepted. *)
Lemma sent_error_loud code m e h :
  quiet h = false ->
  wfile (sent_error code m e h)
  = (wfile h
     ++ HeaderBlock
          (headers_buffer h
           ++ (response_lines code (error_message code m)
               ++ Header "Connection" "close"
                  :: (if has_body code
                      then [Header "Content-Type" error_content_type;
                            Header "Content-Length"
                              (of_N (len (error_page code m e)))]
                      else []))
           ++ cors_headers ++ [EndOfHeaders])
        :: (if has_body code && negb (is_head h)
            then [Data (error_page code m e)] else []))%list
  /\ fs_trace (sent_error code m e h) = fs_trace h
  /\ close_connection (sent_error code m e h) = true.
Proof.
  intros Q. unfold sent_error.
  rewrite emitted_loud by (unfold quiet, logged in *; hsimpl; exact Q).
  unfold logged.
  destruct (has_body code && negb (is_head h)); hsimpl;
    (split; [|split; reflexivity]);
    rewrite <- ?app_assoc; cbn [app]; rewrite <- ?app_assoc; cbn [app];
    rewrite ?app_nil_r; reflexivity.
Qed.

Lemma parse_request_bad_headers line cmd p v raw h :
  split_ws (rstrip is_crlf line) = [cmd; p; v] ->
  http1 v ->
  (raw = LineTooLong \/ raw = TooManyHeaders) ->
  exists m e h',
    parse_request {| raw_requestline := line; raw_headers := raw |} h
    = (false, sent_error 431 m e h')
    /\ quiet h' = false /\ wfile h' = wfile h
    /\ headers_buffer h' = headers_buffer h /\ fs_trace h' = fs_trace h.
Proof.
  intros Hsplit (b & n & Hv) Hraw.
  unfold parse_request. cbn [raw_requestline raw_headers].
  rewrite Hsplit.
  unfold bind, modify, ret, when, get, parse_request_headers.
  cbn [raw_requestline raw_headers List.length Nat.leb List.last fst snd].
  rewrite Hv. cbn [fst snd pair_ge].
  replace (str_ge protocol_version "HTTP/1.1") with false by reflexivity.
  replace (pair_ge (1%Z, n) (2, 0)%Z) with false by reflexivity.
  rewrite !andb_false_r. cbn [negb fst snd]. hsimpl.
  assert (Q : (v =? "HTTP/0.9")%string = false)
    by (apply http1_not_09; exists b, n; exact Hv).
  destruct Hraw as [-> | ->]; unfold bind, ret; rewrite send_error_eq; hsimpl;
    do 3 eexists; (split; [reflexivity|]); unfold quiet; hsimpl;
    repeat split; exact Q.
Qed.

(** X5. When the header section of an HTTP/1.x request cannot be read
    (a header line of more than 65536 bytes, or more than 100 headers)
    the request is answered 431 with the CORS headers, the connection is
    closed, and no method is run: the file system is not touched. *)
Theorem header_section_rejected dir r cmd p v :
  (len (raw_requestline r) <=? 65536)%N = true ->
  split_ws (rstrip is_crlf (raw_requestline r)) = [cmd; p; v] ->
  http1 v ->
  raw_headers r = LineTooLong \/ raw_headers r = TooManyHeaders ->
  status (wfile (respond fs dir r)) = Some 431%N
  /\ incl cors_headers (header_lines (wfile (respond fs dir r)))
  /\ close_connection (respond fs dir r) = true
  /\ fs_trace (respond fs dir r) = [].
Proof.
  intros L E Hv Hraw.
  destruct r as [line raw]. cbn [raw_requestline raw_headers] in *.
  destruct (parse_request_bad_headers line cmd p v raw (new_handler dir)
              E Hv Hraw) as (m & e & h' & P & Q & Hw & Hb & Ht).
  assert (R : respond fs dir {| raw_requestline := line; raw_headers := raw |}
              = sent_error 431 m e h').
  { unfold respond, handle_one_request. cbn [raw_requestline].
    rewrite N.ltb_antisym, L. cbn [negb].
    destruct (String.eqb_spec line "") as [Hr|_];
      [rewrite Hr in E; vm_compute in E; discriminate|].
    unfold bind. rewrite P. reflexivity. }
  rewrite R.
  destruct (sent_error_loud 431 m e h' Q) as (-> & -> & ->).
  rewrite Hw, Hb, Ht. cbn [app]. repeat split.
  apply incl_cors_block.
Qed.

End Rejected.

Lemma unsupported_method_witness :
  wellformed (request_of "get /index.html HTTP/1.1") "get" "/index.html"
    "HTTP/1.1" [("Host", "localhost:3000")]
  /\ status (wfile (respond example_fs example_root
                      (request_of "get /index.html HTTP/1.1")))
     = Some 501%N
  /\ fs_trace (respond example_fs example_root
                 (request_of "get /index.html HTTP/1.1")) = [].
Proof.
  assert (W : wellformed (request_of "get /index.html HTTP/1.1") "get"
                "/index.html" "HTTP/1.1" [("Host", "localhost:3000")]).
  { prove_wellformed. }
  split; [exact W|].
  pose proof (unsupported_method example_fs example_root _ _ _ _ _ W
                ltac:(discriminate) ltac:(discriminate) ltac:(discriminate))
    as (S & _ & _ & T).
  split; [exact S|exact T].
Defined.

Lemma request_line_too_long_witness :
  (65536 <? len (raw_requestline
                   (request_of ("GET " ++ long_target ++ " HTTP/1.1"))))%N
  = true
  /\ status (wfile (respond example_fs example_root
                      (request_of ("GET " ++ long_target ++ " HTTP/1.1"))))
     = Some 414%N.
Proof.
  assert (L : (65536 <? len (raw_requestline
                               (request_of
                                  ("GET " ++ long_target ++ " HTTP/1.1"))))%N
              = true) by (vm_compute; reflexivity).
  split; [exact L|].
  exact (proj1 (request_line_too_long example_fs example_root _ L)).
Defined.

Lemma blank_request_line_witness :
  (len (raw_requestline (request_of "  ")) <=? 65536)%N = true
  /\ split_ws (rstrip is_crlf (raw_requestline (request_of "  "))) = []
  /\ wfile (respond example_fs example_root (request_of "  ")) = [].
Proof.
  assert (L : (len (raw_requestline (request_of "  ")) <=? 65536)%N = true)
    by (vm_compute; reflexivity).
  assert (E : split_ws (rstrip is_crlf (raw_requestline (request_of "  ")))
              = []) by (vm_compute; reflexivity).
  split; [exact L|]. split; [exact E|].
  exact (proj1 (blank_request_line example_fs example_root _ L E)).
Defined.

Lemma request_line_rejected_witness :
  (len (raw_requestline (request_of "GET / HTTP/2.0")) <=? 65536)%N = true
  /\ split_ws (rstrip is_crlf (raw_requestline (request_of "GET / HTTP/2.0")))
     = ["GET"; "/"; "HTTP/2.0"]
  /\ wfile (respond example_fs example_root (request_of "GET / HTTP/2.0"))
     = [Data (error_page 505 (Some "Invalid HTTP version (2.0)") None)].
Proof.
  assert (L : (len (raw_requestline (request_of "GET / HTTP/2.0"))
               <=? 65536)%N = true) by (vm_compute; reflexivity).
  assert (E : split_ws (rstrip is_crlf
                          (raw_requestline (request_of "GET / HTTP/2.0")))
              = ["GET"; "/"; "HTTP/2.0"]) by (vm_compute; reflexivity).
  split; [exact L|]. split; [exact E|].
  destruct (request_line_rejected example_fs example_root _ _ L E)
    as (_ & H & _).
  apply (H "2.0" (2, 0)%Z).
  - cbn. lia.
  - vm_compute. reflexivity.
  - reflexivity.
Defined.

Lemma header_section_rejected_witness :
  (len "GET / HTTP/1.1" <=? 65536)%N = true
  /\ split_ws (rstrip is_crlf "GET / HTTP/1.1") = ["GET"; "/"; "HTTP/1.1"]
  /\ http1 "HTTP/1.1"
  /\ status (wfile (respond example_fs example_root
                      {| raw_requestline := "GET / HTTP/1.1";
                         raw_headers := TooManyHeaders |}))
     = Some 431%N.
Proof.
  assert (L : (len "GET / HTTP/1.1" <=? 65536)%N = true)
    by (vm_compute; reflexivity).
  assert (E : split_ws (rstrip is_crlf "GET / HTTP/1.1")
              = ["GET"; "/"; "HTTP/1.1"]) by (vm_compute; reflexivity).
  assert (V : http1 "HTTP/1.1")
    by (exists "1.1", 1%Z; vm_compute; reflexivity).
  split; [exact L|]. split; [exact E|]. split; [exact V|].
  exact (proj1 (header_section_rejected example_fs example_root
                  {| raw_requestline := "GET / HTTP/1.1";
                     raw_headers := TooManyHeaders |} _ _ _ L E V
                  (or_intror eq_refl))).
Defined.

(** ** More answers to GET *)
Ltac in_lines :=
  rewrite ?header_lines_block, ?in_app_iff; cbn [In]; intuition auto.

Section GetMore.
Context {lib : Library}.
Variable fs : filesystem.

(** The handler on which [do_GET] runs for a well-formed request. *)
Lemma get_run root r p v fields :
  wellformed r "GET" p v fields ->
  exists h0,
    respond fs root r = snd (do_GET fs h0)
    /\ directory h0 = root /\ path h0 = fix_path p /\ headers h0 = fields
    /\ quiet h0 = false /\ is_head h0 = false
    /\ wfile h0 = [] /\ headers_buffer h0 = [] /\ fs_trace h0 = [].
Proof.
  intros W. exists (parsed (raw_requestline r) "GET" p v fields
                      (new_handler root)).
  split; [apply (get_response fs _ _ _ _ _ W)|].
  destruct W as (_ & _ & Hv & _).
  repeat split. apply quiet_parsed, Hv.
Qed.

Lemma quiet_trace o h :
  quiet (set_fs_trace (fs_trace h ++ [o]) h) = quiet h.
Proof. reflexivity. Qed.

(** [send_head] for a directory asked for without the final slash. *)
Lemma send_head_redirect h :
  isdir fs (translate_path (directory h) (path h)) = true ->
  endswith (urlsplit_path (path h)) "/" = false ->
  quiet h = false ->
  exists h',
    send_head fs h = (None, h')
    /\ wfile h'
       = (wfile h
          ++ [HeaderBlock
                (headers_buffer h
                 ++ (response_lines 301 (phrase 301 None)
                     ++ [Header "Location" (urlunsplit_slash (path h));
                         Header "Content-Length" "0"]
                     ++ cors_headers)
                 ++ [EndOfHeaders])])%list
    /\ fs_trace h'
       = (fs_trace h ++ [OpIsdir (translate_path (directory h) (path h))])%list.
Proof.
  intros Hd He Q. unfold send_head. rewrite !bind_get. cbv zeta.
  rewrite bind_trace, Hd, He. cbn [negb].
  rewrite (bind_eq _ _ _ _ _ (send_response_eq _ _ _)).
  rewrite (bind_eq _ _ _ _ _ (send_header_eq "Location" _ _ eq_refl)).
  rewrite (bind_eq _ _ _ _ _ (send_header_eq "Content-Length" _ _ eq_refl)).
  rewrite (bind_eq _ _ _ _ _ (end_headers_eq _)).
  unfold ret. eexists. split; [reflexivity|].
  rewrite !buffered_buffered.
  rewrite emitted_loud by (unfold quiet, logged in *; hsimpl; exact Q).
  unfold logged. hsimpl. rewrite <- !app_assoc. split; reflexivity.
Qed.

(** X6. GET for a directory whose path in the request does not end with
    a slash is answered 301 with the same path and a slash appended as
    [Location], a content length of 0 and no body; the directory is
    neither listed nor searched for an index file. *)
Theorem directory_redirect root r p v fields :
  wellformed r "GET" p v fields ->
  isdir fs (translate_path root (fix_path p)) = true ->
  endswith (urlsplit_path (fix_path p)) "/" = false ->
  status (wfile (respond fs root r)) = Some 301%N
  /\ In (Header "Location" (urlunsplit_slash (fix_path p)))
        (header_lines (wfile (respond fs root r)))
  /\ In (Header "Content-Length" "0")
        (header_lines (wfile (respond fs root r)))
  /\ incl cors_headers (header_lines (wfile (respond fs root r)))
  /\ body (wfile (respond fs root r)) = ""
  /\ fs_trace (respond fs root r)
     = [OpIsdir (translate_path root (fix_path p))].
Proof.
  intros W Hd He.
  destruct (get_run root r p v fields W)
    as (h0 & -> & Hr & Hp & _ & Q & _ & Hw & Hb & Ht).
  rewrite <- Hr, <- Hp in *.
  destruct (send_head_redirect h0 Hd He Q) as (h' & E & Ew & Et).
  unfold do_GET. rewrite (bind_eq _ _ _ _ _ E). unfold ret. hsimpl.
  rewrite Ew, Et, Hw, Hb, Ht. cbn [app].
  split; [reflexivity|].
  split; [in_lines|]. split; [in_lines|].
  split; [intros l Hl; in_lines|]. split; reflexivity.
Qed.

Lemma guess_ops_mimetypes o p : In o (guess_ops p) -> o = OpMimetypes p.
Proof.
  unfold guess_ops. cbv zeta.
  destruct (extensions_map _); [intros []|].
  destruct (extensions_map _); [intros []|].
  intros [<-|[]]. reflexivity.
Qed.

(** [send_head] from [guess_type] on, for a file that opens. *)
Lemma send_file_head_200 t h f :
  endswith t "/" = false ->
  open_rb fs t = Some f ->
  not_modified (headers h) f = false ->
  quiet h = false ->
  exists h',
    send_file_head fs t h = (Some (content f), h')
    /\ wfile h'
       = (wfile h
          ++ [HeaderBlock
                (headers_buffer h
                 ++ (response_lines 200 (phrase 200 None)
                     ++ [Header "Content-type" (content_type t);
                         Header "Content-Length" (of_N (len (content f)));
                         Header "Last-Modified"
                           (date_time_string (Some (st_mtime f)))]
                     ++ cors_headers)
                 ++ [EndOfHeaders])])%list
    /\ fs_trace h' = (fs_trace h ++ guess_ops t ++ [OpOpen t])%list
    /\ log h' = (log h ++ [LogRequest (requestline h) 200])%list.
Proof.
  intros He Ho Hm Q. unfold send_file_head.
  rewrite (bind_eq _ _ _ _ _ (guess_type_eq _ _)). rewrite He.
  rewrite bind_trace, Ho, bind_get. cbv zeta. hsimpl.
  unfold not_modified in Hm. rewrite Hm.
  rewrite (bind_eq _ _ _ _ _ (send_response_eq _ _ _)).
  rewrite (bind_eq _ _ _ _ _ (send_header_eq "Content-type" _ _ eq_refl)).
  rewrite (bind_eq _ _ _ _ _ (send_header_eq "Content-Length" _ _ eq_refl)).
  rewrite (bind_eq _ _ _ _ _ (send_header_eq "Last-Modified" _ _ eq_refl)).
  rewrite (bind_eq _ _ _ _ _ (end_headers_eq _)).
  unfold ret. eexists. split; [reflexivity|].
  rewrite !buffered_buffered.
  rewrite emitted_loud by (unfold quiet, logged in *; hsimpl; exact Q).
  unfold logged. hsimpl. rewrite <- !app_assoc. repeat split.
Qed.

(** The same for a file the client already has. *)
Lemma send_file_head_304 t h f :
  endswith t "/" = false ->
  open_rb fs t = Some f ->
  not_modified (headers h) f = true ->
  quiet h = false ->
  exists h',
    send_file_head fs t h = (None, h')
    /\ wfile h'
       = (wfile h
          ++ [HeaderBlock
                (headers_buffer h
                 ++ (response_lines 304 (phrase 304 None) ++ cors_headers)
                 ++ [EndOfHeaders])])%list
    /\ fs_trace h' = (fs_trace h ++ guess_ops t ++ [OpOpen t])%list.
Proof.
  intros He Ho Hm Q. unfold send_file_head.
  rewrite (bind_eq _ _ _ _ _ (guess_type_eq _ _)). rewrite He.
  rewrite bind_trace, Ho, bind_get. cbv zeta. hsimpl.
  unfold not_modified in Hm. rewrite Hm.
  rewrite (bind_eq _ _ _ _ _ (send_response_eq _ _ _)).
  rewrite (bind_eq _ _ _ _ _ (end_headers_eq _)).
  unfold ret. eexists. split; [reflexivity|].
  rewrite !buffered_buffered.
  rewrite emitted_loud by (unfold quiet, logged in *; hsimpl; exact Q).
  unfold logged. hsimpl. rewrite <- !app_assoc. repeat split.
Qed.

(** X7. The headers of the answer to GET for a file: the status line,
    [Server] and [Date], the type guessed from the name, the length of
    the file as [Content-Length], its modification time as
    [Last-Modified], and the three CORS headers, in this order.  The
    calls are, in order: the test for a directory, the call of
    [mimetypes.guess_type] when the extension of the name is not in
    [extensions_map] (the first such call in a process reads the
    [mime.types] files of the system), and the one [open] of the file.
    The request is logged with 200. *)
Theorem file_response_headers root r ws v fields f :
  ws <> [] ->
  Forall (fun w => segment w = true) ws ->
  wellformed r "GET" (target ws) v fields ->
  isdir fs (location root ws) = false ->
  open_rb fs (location root ws) = Some f ->
  not_modified fields f = false ->
  header_lines (wfile (respond fs root r))
  = [StatusLine "HTTP/1.0" 200 "OK";
     Header "Server" version_string;
     Header "Date" (date_time_string None);
     Header "Content-type" (content_type (location root ws));
     Header "Content-Length" (of_N (len (content f)));
     Header "Last-Modified" (date_time_string (Some (st_mtime f)));
     Header "Access-Control-Allow-Origin" "*";
     Header "Access-Control-Allow-Methods" "GET, POST, OPTIONS";
     Header "Access-Control-Allow-Headers" "Content-Type";
     EndOfHeaders]
  /\ fs_trace (respond fs root r)
     = (OpIsdir (location root ws)
        :: guess_ops (location root ws) ++ [OpOpen (location root ws)])%list
  /\ log (respond fs root r)
     = [LogRequest (rstrip is_crlf (raw_requestline r)) 200].
Proof.
  intros Hn Hs W Hdir Hopen Hm.
  pose proof (translate_path_target root ws Hn Hs) as T.
  pose proof (fix_path_target ws Hn Hs) as F.
  pose proof (location_no_slash root ws Hn Hs) as E.
  assert (Hl : requestline (parsed (raw_requestline r) "GET" (target ws) v
                              fields (new_handler root))
               = rstrip is_crlf (raw_requestline r)) by reflexivity.
  rewrite (get_response fs _ _ _ _ _ W).
  destruct W as (_ & _ & Hv & _).
  set (h0 := parsed _ _ _ _ _ _) in *.
  assert (Hd : directory h0 = root) by reflexivity.
  assert (Hp : path h0 = target ws) by (unfold h0, parsed; hsimpl; exact F).
  assert (Hh : headers h0 = fields) by reflexivity.
  assert (Q : quiet h0 = false) by (apply quiet_parsed, Hv).
  assert (Hw : wfile h0 = []) by reflexivity.
  assert (Hb : headers_buffer h0 = []) by reflexivity.
  assert (Ht : fs_trace h0 = []) by reflexivity.
  assert (Hg : log h0 = []) by reflexivity.
  clearbody h0.
  assert (Ht' : translate_path (directory h0) (path h0) = location root ws)
    by (rewrite Hd, Hp; exact T).
  rewrite <- Ht' in Hdir. pose proof (send_head_file fs h0 Hdir) as S.
  rewrite Ht' in S. rewrite <- Hh in Hm.
  destruct (send_file_head_200 (location root ws)
              (set_fs_trace (fs_trace h0 ++ [OpIsdir (location root ws)]) h0)
              f E Hopen Hm Q) as (h' & S' & Ew & Et & Eg).
  rewrite S' in S. unfold do_GET. rewrite (bind_eq _ _ _ _ _ S).
  unfold wfile_write, modify. hsimpl. rewrite Ew, Et, Eg. hsimpl.
  rewrite Hw, Hb, Ht, Hg, Hl. repeat split.
Qed.

(** X8. GET for a file the client already has (the request carries an
    [If-Modified-Since] date that parses and that the modification time
    of the file does not exceed, and no [If-None-Match]) is answered
    304 with the CORS headers and without a body or a length. *)
Theorem not_modified_304 root r ws v fields f :
  ws <> [] ->
  Forall (fun w => segment w = true) ws ->
  wellformed r "GET" (target ws) v fields ->
  isdir fs (location root ws) = false ->
  open_rb fs (location root ws) = Some f ->
  not_modified fields f = true ->
  wfile (respond fs root r)
  = [HeaderBlock
       (response_lines 304 "Not Modified" ++ cors_headers ++ [EndOfHeaders])]
  /\ status (wfile (respond fs root r)) = Some 304%N
  /\ body (wfile (respond fs root r)) = "".
Proof.
  intros Hn Hs W Hdir Hopen Hm.
  pose proof (translate_path_target root ws Hn Hs) as T.
  pose proof (fix_path_target ws Hn Hs) as F.
  pose proof (location_no_slash root ws Hn Hs) as E.
  destruct (get_run root r _ v fields W)
    as (h0 & -> & Hd & Hp & Hh & Q & _ & Hw & Hb & Ht).
  rewrite F in Hp.
  assert (Ht' : translate_path (directory h0) (path h0) = location root ws)
    by (rewrite Hd, Hp; exact T).
  rewrite <- Ht' in Hdir. pose proof (send_head_file fs h0 Hdir) as S.
  rewrite Ht' in S. rewrite <- Hh in Hm.
  destruct (send_file_head_304 (location root ws)
              (set_fs_trace (fs_trace h0 ++ [OpIsdir (location root ws)]) h0)
              f E Hopen Hm Q) as (h' & S' & Ew & Et).
  rewrite S' in S. unfold do_GET. rewrite (bind_eq _ _ _ _ _ S).
  unfold ret. hsimpl. rewrite Ew. hsimpl. rewrite Hw, Hb. cbn [app].
  rewrite <- app_assoc. repeat split.
Qed.

(** [send_head] for a directory asked for with the final slash. *)
Lemma send_head_directory h :
  isdir fs (translate_path (directory h) (path h)) = true ->
  endswith (urlsplit_path (path h)) "/" = true ->
  send_head fs h
  = (let t := translate_path (directory h) (path h) in
     let html := PosixPath.join t "index.html" in
     let htm := PosixPath.join t "index.htm" in
     if isfile fs html
     then send_file_head fs html
            (set_fs_trace (fs_trace h ++ [OpIsdir t; OpIsfile html]) h)
     else if isfile fs htm
     then send_file_head fs htm
            (set_fs_trace
               (fs_trace h ++ [OpIsdir t; OpIsfile html; OpIsfile htm]) h)
     else list_directory fs t
            (set_fs_trace
               (fs_trace h ++ [OpIsdir t; OpIsfile html; OpIsfile htm]) h)).
Proof.
  intros Hd He. unfold send_head. rewrite !bind_get. cbv zeta.
  rewrite bind_trace, Hd, He. cbn [negb]. rewrite bind_trace.
  destruct (isfile fs (PosixPath.join _ "index.html")).
  - f_equal. hext.
  - rewrite bind_trace. destruct (isfile fs (PosixPath.join _ "index.htm"));
      f_equal; hext.
Qed.

Lemma index_no_slash t :
  endswith (PosixPath.join t "index.html") "/" = false
  /\ endswith (PosixPath.join t "index.htm") "/" = false.
Proof.
  split.
  - change "index.html" with ("index.htm" ++ String "l" "")%string.
    destruct (join_snoc t "index.htm" "l" eq_refl) as (s & ->);
      [discriminate|reflexivity|].
    rewrite endswith_snoc. reflexivity.
  - change "index.htm" with ("index.ht" ++ String "m" "")%string.
    destruct (join_snoc t "index.ht" "m" eq_refl) as (s & ->);
      [discriminate|reflexivity|].
    rewrite endswith_snoc. reflexivity.
Qed.

(** X9. GET for a directory, with the final slash, serves the file
    [index.html] of the directory when there is one, and else the file
    [index.htm]: the answer is 200 with the bytes of that file, and the
    directory is not listed. *)
Theorem index_served root r p v fields index f :
  wellformed r "GET" p v fields ->
  isdir fs (translate_path root (fix_path p)) = true ->
  endswith (urlsplit_path (fix_path p)) "/" = true ->
  (index = PosixPath.join (translate_path root (fix_path p)) "index.html"
   /\ isfile fs index = true)
  \/ (index = PosixPath.join (translate_path root (fix_path p)) "index.htm"
      /\ isfile fs
           (PosixPath.join (translate_path root (fix_path p)) "index.html")
         = false
      /\ isfile fs index = true) ->
  open_rb fs index = Some f ->
  not_modified fields f = false ->
  status (wfile (respond fs root r)) = Some 200%N
  /\ body (wfile (respond fs root r)) = content f
  /\ In (Header "Content-Length" (of_N (len (content f))))
        (header_lines (wfile (respond fs root r)))
  /\ ~ In (OpListdir (translate_path root (fix_path p)))
          (fs_trace (respond fs root r)).
Proof.
  intros W Hd He Hi Ho Hm.
  destruct (get_run root r p v fields W)
    as (h0 & -> & Hr & Hp & Hh & Q & _ & Hw & Hb & Ht).
  rewrite <- Hr, <- Hp in *. rewrite <- Hh in Hm.
  pose proof (send_head_directory h0 Hd He) as S. cbv zeta in S.
  destruct (index_no_slash (translate_path (directory h0) (path h0)))
    as (E1 & E2).
  assert (R : exists h1 h',
             send_head fs h0 = (Some (content f), h')
             /\ wfile h'
                = [HeaderBlock
                     ((response_lines 200 (phrase 200 None)
                       ++ [Header "Content-type" (content_type index);
                           Header "Content-Length" (of_N (len (content f)));
                           Header "Last-Modified"
                             (date_time_string (Some (st_mtime f)))]
                       ++ cors_headers)
                      ++ [EndOfHeaders])]
             /\ fs_trace h' = (fs_trace h1 ++ guess_ops index ++ [OpOpen index])%list
             /\ ~ In (OpListdir (translate_path (directory h0) (path h0)))
                     (fs_trace h1)).
  { destruct Hi as [(-> & Hf)|(-> & Hf1 & Hf2)].
    - rewrite Hf in S.
      match type of S with
      | _ = send_file_head _ _ ?h =>
          destruct (send_file_head_200 _ h f E1 Ho Hm Q)
            as (h' & S' & Ew & Et & _); exists h, h'
      end.
      rewrite S' in S. split; [exact S|]. rewrite Ew. hsimpl.
      rewrite Hw, Hb, Ht. cbn [app].
      split; [reflexivity|].
      split; [rewrite Et; hsimpl; rewrite Ht; reflexivity|].
      intros [H|[H|[]]]; discriminate.
    - rewrite Hf1, Hf2 in S.
      match type of S with
      | _ = send_file_head _ _ ?h =>
          destruct (send_file_head_200 _ h f E2 Ho Hm Q)
            as (h' & S' & Ew & Et & _); exists h, h'
      end.
      rewrite S' in S. split; [exact S|]. rewrite Ew. hsimpl.
      rewrite Hw, Hb, Ht. cbn [app].
      split; [reflexivity|].
      split; [rewrite Et; hsimpl; rewrite Ht; reflexivity|].
      intros [H|[H|[H|[]]]]; discriminate. }
  destruct R as (h1 & h' & S' & Ew & Et & Hnl).
  unfold do_GET. rewrite (bind_eq _ _ _ _ _ S').
  unfold wfile_write, modify. hsimpl. rewrite Ew, Et. cbn [app].
  split; [reflexivity|]. split; [reflexivity|]. split; [in_lines|].
  intros H. apply in_app_or in H as [H|H]; [exact (Hnl H)|].
  apply in_app_or in H as [H|[H|[]]];
    [apply guess_ops_mimetypes in H|]; discriminate.
Qed.

(** The loop of [list_directory]. *)
Lemma listing_entries_eq p names h :
  listing_entries fs p names h
  = (listed fs p names,
     set_fs_trace (fs_trace h ++ listing_ops p names) h).
Proof.
  revert h. induction names as [|name names IH]; intros h;
    cbn [listing_entries listed listing_ops List.map List.flat_map].
  - unfold ret. f_equal. hext. rewrite app_nil_r. reflexivity.
  - rewrite !bind_trace. rewrite (bind_eq _ _ _ _ _ (IH _)).
    unfold ret. f_equal. hext.
Qed.







(** The path of a target with a slash after its last segment. *)
Lemma split_join_slash ws :
  ws <> [] -> Forall (fun w => segment w = true) ws ->
  split "/" (PyStr.join "/" ws ++ "/") = (ws ++ [""])%list.
Proof.
  intros Hn Hs. induction Hs as [|w ws Hw Hs IH]; [contradiction|].
  apply segment_spec in Hw as (_ & Hc & _).
  pose proof (segment_contains w "/" Hc eq_refl) as Hsl.
  destruct ws as [|w' ws].
  - cbn [PyStr.join String.concat]. rewrite (split_app "/" w "" Hsl).
    reflexivity.
  - rewrite join_cons, !append_assoc'.
    change ("/" ++ ?s)%string with (String "/" s).
    rewrite split_app by exact Hsl. rewrite IH by discriminate. reflexivity.
Qed.

Lemma normpath_loop_app n ws rest acc :
  Forall (fun w => segment w = true) ws ->
  PosixPath.normpath_loop n (ws ++ rest) acc
  = PosixPath.normpath_loop n rest (List.rev ws ++ acc).
Proof.
  intros Hs. revert acc.
  induction Hs as [|w ws Hw Hs IH]; intros acc; [reflexivity|].
  cbn [app PosixPath.normpath_loop].
  apply segment_spec in Hw as (H1 & _ & H2 & H3).
  rewrite H1, H2, H3. cbn [orb negb]. rewrite IH. cbn [List.rev].
  rewrite <- app_assoc. reflexivity.
Qed.

Lemma translate_path_slash root ws :
  ws <> [] -> Forall (fun w => segment w = true) ws ->
  translate_path root (target ws ++ "/") = (location root ws ++ "/")%string.
Proof.
  intros Hn Hs. unfold translate_path.
  assert (C : forall c, segment_char c = false -> Ascii.eqb "/" c = false ->
                        contains c (target ws ++ "/") = false).
  { intros c H1 H2. rewrite contains_app, contains_target by assumption.
    cbn [contains orb]. rewrite H2. reflexivity. }
  rewrite (before_absent "?") by (apply C; reflexivity).
  rewrite (before_absent "#") by (apply C; reflexivity).
  unfold unquote. rewrite (C "%"%char) by reflexivity.
  rewrite rstrip_snoc by reflexivity. rewrite endswith_snoc.
  cbn [Ascii.eqb Bool.eqb]. 
  assert (N : PosixPath.normpath (target ws ++ "/") = target ws).
  { unfold PosixPath.normpath.
    destruct (target_head ws Hn Hs) as (a & s & E & Ha).
    assert (Hi : PosixPath.initial_slashes (target ws ++ "/") = 1%nat).
    { rewrite E. unfold PosixPath.initial_slashes, startswith.
      cbn [append String.prefix].
      destruct (ascii_dec "/" "/") as [_|N]; [|contradiction].
      destruct (ascii_dec "/" a) as [<-|]; [discriminate|reflexivity]. }
    rewrite Hi. cbv zeta.
    assert (Sp : split "/" (target ws ++ "/") = ("" :: ws ++ [""])%list).
    { unfold target. change (("/" ++ ?s) ++ "/")%string
        with (String "/" (s ++ "/")).
      cbn [split]. rewrite Ascii.eqb_refl, split_join_slash by assumption.
      reflexivity. }
    rewrite Sp. cbn [PosixPath.normpath_loop String.eqb orb].
    rewrite normpath_loop_app by exact Hs.
    cbn [PosixPath.normpath_loop String.eqb orb].
    rewrite app_nil_r, rev_involutive.
    change (PosixPath.repeat_sep 1 ++ PyStr.join "/" ws)%string
      with (target ws).
    rewrite E at 1 2. cbn [append String.eqb]. 
    destruct (Ascii.eqb "/" "/") eqn:X; [|discriminate].
    rewrite <- E. reflexivity. }
  rewrite N, split_target by assumption.
  cbn [List.filter String.eqb negb]. rewrite filter_segments by exact Hs.
  rewrite join_words_segments by exact Hs. reflexivity.
Qed.

Lemma fix_path_slash ws :
  ws <> [] -> Forall (fun w => segment w = true) ws ->
  fix_path (target ws ++ "/") = (target ws ++ "/")%string.
Proof.
  intros Hn Hs. destruct (target_head ws Hn Hs) as (a & s & -> & Ha).
  unfold fix_path, startswith. cbn [append String.prefix].
  destruct (ascii_dec "/" "/") as [_|N]; [|contradiction].
  destruct (ascii_dec "/" a) as [<-|]; [discriminate|reflexivity].
Qed.

(** X11. GET for the path of a file with a slash after it is answered
    404, and the file is not even opened: the handler asks whether the
    path is a directory, guesses the type from the name (which calls
    [mimetypes.guess_type] when the extension is not in
    [extensions_map]) and, as the path ends with a slash, gives up. *)
Theorem trailing_slash_on_file root r ws v fields :
  ws <> [] ->
  Forall (fun w => segment w = true) ws ->
  wellformed r "GET" (target ws ++ "/") v fields ->
  isdir fs (location root ws ++ "/") = false ->
  status (wfile (respond fs root r)) = Some 404%N
  /\ body (wfile (respond fs root r))
     = error_page 404 (Some "File not found") None
  /\ fs_trace (respond fs root r)
     = OpIsdir (location root ws ++ "/")
       :: guess_ops (location root ws ++ "/")
  /\ ~ In (OpOpen (location root ws ++ "/")) (fs_trace (respond fs root r)).
Proof.
  intros Hn Hs W Hdir.
  pose proof (translate_path_slash root ws Hn Hs) as T.
  pose proof (fix_path_slash ws Hn Hs) as F.
  destruct (get_run root r _ v fields W)
    as (h0 & -> & Hd & Hp & Hh & Q & Hhd & Hw & Hb & Ht).
  rewrite F in Hp.
  assert (Ht' : translate_path (directory h0) (path h0)
                = (location root ws ++ "/")%string)
    by (rewrite Hd, Hp; exact T).
  rewrite <- Ht' in Hdir. pose proof (send_head_file fs h0 Hdir) as S.
  rewrite Ht' in S. unfold send_file_head in S.
  rewrite (bind_eq _ _ _ _ _ (guess_type_eq _ _)) in S.
  rewrite endswith_snoc in S. cbn [Ascii.eqb Bool.eqb] in S.
  rewrite (bind_eq _ _ _ _ _ (send_error_eq _ _ _ _)) in S. unfold ret in S.
  unfold do_GET. rewrite (bind_eq _ _ _ _ _ S). unfold ret. hsimpl.
  match goal with
  | |- context [sent_error _ ?m ?e ?h] =>
      destruct (sent_error_loud 404 m e h Q) as (-> & -> & _);
      change (is_head h) with (is_head h0)
  end.
  rewrite Hhd. hsimpl. rewrite Hw, Hb, Ht. cbn [app andb negb has_body].
  split; [reflexivity|]. split; [reflexivity|]. split; [reflexivity|].
  intros [H|H]; [discriminate|].
  apply guess_ops_mimetypes in H. discriminate.
Qed.

End GetMore.

Lemma directory_redirect_witness :
  wellformed (request_of "GET /assets HTTP/1.1") "GET" "/assets" "HTTP/1.1"
    [("Host", "localhost:3000")]
  /\ isdir example_fs (translate_path example_root (fix_path "/assets")) = true
  /\ endswith (urlsplit_path (fix_path "/assets")) "/" = false
  /\ status (wfile (respond example_fs example_root
                      (request_of "GET /assets HTTP/1.1")))
     = Some 301%N
  /\ In (Header "Location" "/assets/")
        (header_lines (wfile (respond example_fs example_root
                                (request_of "GET /assets HTTP/1.1")))).
Proof.
  assert (W : wellformed (request_of "GET /assets HTTP/1.1") "GET" "/assets"
                "HTTP/1.1" [("Host", "localhost:3000")]).
  { prove_wellformed. }
  assert (D : isdir example_fs
                (translate_path example_root (fix_path "/assets")) = true)
    by (vm_compute; reflexivity).
  assert (E : endswith (urlsplit_path (fix_path "/assets")) "/" = false)
    by (vm_compute; reflexivity).
  split; [exact W|]. split; [exact D|]. split; [exact E|].
  destruct (directory_redirect example_fs example_root _ _ _ _ W D E)
    as (S & L & _).
  split; [exact S|exact L].
Defined.

Lemma file_response_headers_witness :
  Forall (fun w => segment w = true) ["index.html"]
  /\ wellformed (request_of "GET /index.html HTTP/1.1") "GET"
       (target ["index.html"]) "HTTP/1.1" [("Host", "localhost:3000")]
  /\ isdir example_fs (location example_root ["index.html"]) = false
  /\ open_rb example_fs (location example_root ["index.html"])
     = Some {| content := "<h1>Hi</h1>"; st_mtime := 0 |}
  /\ not_modified [("Host", "localhost:3000")]
       {| content := "<h1>Hi</h1>"; st_mtime := 0 |} = false
  /\ In (Header "Content-Length" "11")
        (header_lines (wfile (respond example_fs example_root
                                (request_of "GET /index.html HTTP/1.1")))).
Proof.
  assert (S : Forall (fun w => segment w = true) ["index.html"]).
  { repeat constructor. }
  assert (W : wellformed (request_of "GET /index.html HTTP/1.1") "GET"
                (target ["index.html"]) "HTTP/1.1"
                [("Host", "localhost:3000")]).
  { prove_wellformed. }
  assert (D : isdir example_fs (location example_root ["index.html"])
              = false) by (vm_compute; reflexivity).
  assert (O : open_rb example_fs (location example_root ["index.html"])
              = Some {| content := "<h1>Hi</h1>"; st_mtime := 0 |})
    by (vm_compute; reflexivity).
  assert (M : not_modified [("Host", "localhost:3000")]
                {| content := "<h1>Hi</h1>"; st_mtime := 0 |} = false)
    by (vm_compute; reflexivity).
  do 5 (split; [assumption|]).
  rewrite (proj1 (file_response_headers example_fs example_root _
                    ["index.html"] _ _ _ ltac:(discriminate) S W D O M)).
  cbn [In]. do 4 right. left. reflexivity.
Defined.

Lemma not_modified_304_witness :
  Forall (fun w => segment w = true) ["index.html"]
  /\ wellformed (conditional_request "GET /index.html HTTP/1.1") "GET"
       (target ["index.html"]) "HTTP/1.1"
       [("Host", "localhost:3000");
        ("If-Modified-Since", "Thu, 01 Jan 1970 00:00:00 GMT")]
  /\ isdir example_fs (location example_root ["index.html"]) = false
  /\ open_rb example_fs (location example_root ["index.html"])
     = Some {| content := "<h1>Hi</h1>"; st_mtime := 0 |}
  /\ @not_modified dated_library
       [("Host", "localhost:3000");
        ("If-Modified-Since", "Thu, 01 Jan 1970 00:00:00 GMT")]
       {| content := "<h1>Hi</h1>"; st_mtime := 0 |} = true
  /\ status (wfile (@respond dated_library example_fs example_root
                      (conditional_request "GET /index.html HTTP/1.1")))
     = Some 304%N.
Proof.
  assert (S : Forall (fun w => segment w = true) ["index.html"]).
  { repeat constructor. }
  assert (W : wellformed (conditional_request "GET /index.html HTTP/1.1")
                "GET" (target ["index.html"]) "HTTP/1.1"
                [("Host", "localhost:3000");
                 ("If-Modified-Since", "Thu, 01 Jan 1970 00:00:00 GMT")]).
  { prove_wellformed. }
  assert (D : isdir example_fs (location example_root ["index.html"])
              = false) by (vm_compute; reflexivity).
  assert (O : open_rb example_fs (location example_root ["index.html"])
              = Some {| content := "<h1>Hi</h1>"; st_mtime := 0 |})
    by (vm_compute; reflexivity).
  assert (M : @not_modified dated_library
                [("Host", "localhost:3000");
                 ("If-Modified-Since", "Thu, 01 Jan 1970 00:00:00 GMT")]
                {| content := "<h1>Hi</h1>"; st_mtime := 0 |} = true)
    by (vm_compute; reflexivity).
  do 5 (split; [assumption|]).
  exact (proj1 (proj2 (@not_modified_304 dated_library example_fs
                         example_root _ ["index.html"] _ _ _
                         ltac:(discriminate) S W D O M))).
Defined.

Lemma index_served_witness :
  wellformed (request_of "GET / HTTP/1.1") "GET" "/" "HTTP/1.1"
    [("Host", "localhost:3000")]
  /\ isdir example_fs (translate_path example_root (fix_path "/")) = true
  /\ endswith (urlsplit_path (fix_path "/")) "/" = true
  /\ isfile example_fs "/srv/frontend/index.html" = true
  /\ open_rb example_fs "/srv/frontend/index.html"
     = Some {| content := "<h1>Hi</h1>"; st_mtime := 0 |}
  /\ not_modified [("Host", "localhost:3000")]
       {| content := "<h1>Hi</h1>"; st_mtime := 0 |} = false
  /\ body (wfile (respond example_fs example_root
                    (request_of "GET / HTTP/1.1")))
     = "<h1>Hi</h1>".
Proof.
  assert (W : wellformed (request_of "GET / HTTP/1.1") "GET" "/" "HTTP/1.1"
                [("Host", "localhost:3000")]).
  { prove_wellformed. }
  assert (D : isdir example_fs (translate_path example_root (fix_path "/"))
              = true) by (vm_compute; reflexivity).
  assert (E : endswith (urlsplit_path (fix_path "/")) "/" = true)
    by (vm_compute; reflexivity).
  assert (F : isfile example_fs "/srv/frontend/index.html" = true)
    by (vm_compute; reflexivity).
  assert (O : open_rb example_fs "/srv/frontend/index.html"
              = Some {| content := "<h1>Hi</h1>"; st_mtime := 0 |})
    by (vm_compute; reflexivity).
  assert (M : not_modified [("Host", "localhost:3000")]
                {| content := "<h1>Hi</h1>"; st_mtime := 0 |} = false)
    by (vm_compute; reflexivity).
  do 6 (split; [assumption|]).
  exact (proj1 (proj2 (index_served example_fs example_root _ _ _ _
                         "/srv/frontend/index.html" _ W D E
                         (or_introl (conj eq_refl F)) O M))).
Defined.


Lemma trailing_slash_on_file_witness :
  Forall (fun w => segment w = true) ["index.html"]
  /\ wellformed (request_of "GET /index.html/ HTTP/1.1") "GET"
       (target ["index.html"] ++ "/") "HTTP/1.1" [("Host", "localhost:3000")]
  /\ isdir example_fs (location example_root ["index.html"] ++ "/") = false
  /\ status (wfile (respond example_fs example_root
                      (request_of "GET /index.html/ HTTP/1.1")))
     = Some 404%N.
Proof.
  assert (S : Forall (fun w => segment w = true) ["index.html"]).
  { repeat constructor. }
  assert (W : wellformed (request_of "GET /index.html/ HTTP/1.1") "GET"
                (target ["index.html"] ++ "/") "HTTP/1.1"
                [("Host", "localhost:3000")]).
  { prove_wellformed. }
  assert (D : isdir example_fs (location example_root ["index.html"] ++ "/")
              = false) by (vm_compute; reflexivity).
  do 3 (split; [assumption|]).
  exact (proj1 (trailing_slash_on_file example_fs example_root _
                  ["index.html"] _ _ ltac:(discriminate) S W D)).
Defined.

(** ** More on the process *)
Section ProcessMore.
Context {lib : Library}.

Lemma stdout_serving (w : world) :
  stdout (List.map (CustomHTTPRequestHandler w) (connections w)) = [].
Proof. induction (connections w) as [|c l IH]; [reflexivity|exact IH]. Qed.

Lemma stdout_print l : stdout (List.map Print l) = l.
Proof.
  induction l as [|t l IH]; [reflexivity|].
  cbn [List.map]. change (stdout (Print t :: List.map Print l))
    with (t :: stdout (List.map Print l)). rewrite IH. reflexivity.
Qed.

Lemma notice_not_in_banner (w : world) : ~ In shutdown_notice (banner w).
Proof.
  unfold banner, shutdown_notice. cbn [In].
  intros [H|[H|[H|[H|[H|[]]]]]]; discriminate.
Qed.

(** X12. The process ends with exit code 0 in one case only: the server
    was started and [serve_forever] was ended by [KeyboardInterrupt].
    The shutdown notice is printed in exactly that case; an interrupt
    that arrives during [os.chdir] or while the server is created, and
    any other exception, ends the process otherwise and without the
    notice. *)
Theorem clean_exit_iff (w : world) :
  (snd (run w) = ExitCode 0
   <-> chdir_raises w = None /\ create_server_raises w = None
       /\ serve_forever_raises w = KeyboardInterrupt)
  /\ (In shutdown_notice (stdout (fst (run w)))
      <-> chdir_raises w = None /\ create_server_raises w = None
          /\ serve_forever_raises w = KeyboardInterrupt).
Proof.
  assert (S : forall tail,
             stdout
               (([Chdir (FRONTEND_DIR w) true; CreateServer "" PORT true]
                 ++ List.map Print (banner w)
                 ++ List.map (CustomHTTPRequestHandler w) (connections w))
                ++ tail)%list
             = (banner w ++ stdout tail)%list).
  { intros tail. rewrite stdout_app. cbn [app].
    change (stdout (Chdir (FRONTEND_DIR w) true
                    :: CreateServer "" PORT true
                       :: (List.map Print (banner w)
                           ++ List.map (CustomHTTPRequestHandler w)
                                (connections w))%list))
      with (stdout (List.map Print (banner w)
                    ++ List.map (CustomHTTPRequestHandler w) (connections w))).
    rewrite stdout_app, stdout_serving, stdout_print, app_nil_r.
    reflexivity. }
  pose proof (notice_not_in_banner w) as N.
  unfold run, main.
  destruct (chdir_raises w) as [e|].
  - destruct e; cbn [fst snd app]; split; split;
      try (intros (? & _); discriminate); try discriminate;
      cbn; tauto.
  - destruct (create_server_raises w) as [e|].
    + destruct (bind_reached w); destruct e; cbn [fst snd app]; split; split;
        try (intros (_ & ? & _); discriminate); try discriminate;
        cbn; tauto.
    + destruct (serve_forever_raises w) eqn:F; cbn [fst snd].
      * split; split; try (intros _; repeat split; fail).
        intros _. rewrite S. apply in_or_app. right. left. reflexivity.
      * split; split; try discriminate;
          try (intros (_ & _ & ?); discriminate).
        rewrite <- app_assoc, S. cbn [app stdout flat_map].
        rewrite app_nil_r. intros H. contradiction.
      * split; split; try discriminate;
          try (intros (_ & _ & ?); discriminate).
        rewrite <- app_assoc, S. cbn [app stdout flat_map].
        rewrite app_nil_r. intros H. contradiction.
Qed.



End ProcessMore.

(** ** One request on each connection *)
Section Closing.
Context {lib : Library}.
Variable fs : filesystem.

Lemma keeps_ret {A : Type} (P : handler -> Prop) (a : A) :
  preserves P (ret a).
Proof. intros h H. exact H. Qed.

Lemma keeps_get {A : Type} (P : handler -> Prop) (f : handler -> A) :
  preserves P (get f).
Proof. intros h H. exact H. Qed.

Lemma keeps_bind {A B : Type} (P : handler -> Prop) (m : M A)
    (k : A -> M B) :
  preserves P m -> (forall a, preserves P (k a)) -> preserves P (bind m k).
Proof. intros Hm Hk h H. unfold bind. apply Hk, Hm, H. Qed.

Lemma keeps_when (P : handler -> Prop) (b : bool) (m : M unit) :
  preserves P m -> preserves P (when b m).
Proof. intros Hm. destruct b; [exact Hm|apply keeps_ret]. Qed.

Lemma keeps_when_false (P : handler -> Prop) (b : bool) (m : M unit) :
  b = false -> preserves P (when b m).
Proof. intros ->. apply keeps_ret. Qed.

Lemma keeps_if {A : Type} (P : handler -> Prop) (b : bool) (m1 m2 : M A) :
  preserves P m1 -> preserves P m2 -> preserves P (if b then m1 else m2).
Proof. destruct b; auto. Qed.

Lemma closing_modify (f : handler -> handler) :
  (forall h, close_connection (f h) = close_connection h) ->
  preserves closing (modify f).
Proof. intros Hf h H. unfold closing, modify. hsimpl. rewrite Hf. exact H. Qed.

Lemma closing_set_true :
  preserves closing (modify (set_close_connection true)).
Proof. intros h _. reflexivity. Qed.

Lemma close_buffered l h :
  close_connection (buffered l h) = close_connection h.
Proof. unfold buffered. destruct (quiet h); reflexivity. Qed.

Lemma close_flushed h : close_connection (flushed h) = close_connection h.
Proof. unfold flushed. destruct (quiet h); reflexivity. Qed.

Lemma closing_send_response code m :
  preserves closing (send_response code m).
Proof.
  intros h H. rewrite send_response_eq. unfold closing. hsimpl.
  rewrite close_buffered. exact H.
Qed.

Lemma closing_send_header k v :
  String.eqb (lower k) "connection" = false ->
  preserves closing (send_header k v).
Proof.
  intros Hk h H. rewrite send_header_eq by exact Hk. unfold closing. hsimpl.
  rewrite close_buffered. exact H.
Qed.

Lemma closing_end_headers : preserves closing end_headers.
Proof.
  intros h H. rewrite end_headers_eq. unfold closing. hsimpl.
  rewrite close_flushed, close_buffered. exact H.
Qed.

Lemma close_sent_error code m e h :
  close_connection (sent_error code m e h) = true.
Proof.
  unfold sent_error. destruct (has_body code && negb (is_head h)); hsimpl;
    rewrite close_flushed, close_buffered; reflexivity.
Qed.

Lemma closing_send_error code m e : preserves closing (send_error code m e).
Proof.
  intros h _. rewrite send_error_eq. unfold closing. hsimpl.
  apply close_sent_error.
Qed.

Lemma closing_send_response_only code m :
  preserves closing (send_response_only code m).
Proof.
  intros h H. rewrite send_response_only_eq. unfold closing. hsimpl.
  rewrite close_buffered. exact H.
Qed.

End Closing.

Ltac keep_step :=
  lazymatch goal with
  | |- preserves _ (ret _) => apply keeps_ret
  | |- preserves _ (get _) => apply keeps_get
  | |- preserves _ (modify (set_close_connection true)) =>
      apply closing_set_true
  | |- preserves _ (modify _) => apply closing_modify; reflexivity
  | |- preserves _ (trace _) => apply closing_modify; reflexivity
  | |- preserves _ (wfile_write _) => apply closing_modify; reflexivity
  | |- preserves _ end_headers => apply closing_end_headers
  | |- preserves _ (send_error _ _ _) => apply closing_send_error
  | |- preserves _ (send_response _ _) => apply closing_send_response
  | |- preserves _ (send_response_only _ _) =>
      apply closing_send_response_only
  | |- preserves _ (send_header _ _) => apply closing_send_header; reflexivity
  | |- preserves _ (bind _ _) => apply keeps_bind; [|intros ?]
  | |- preserves _ (when _ _) =>
      first [ apply keeps_when_false; rewrite ?andb_false_r; reflexivity
            | apply keeps_when ]
  | |- preserves _ (if ?b then _ else _) => first [apply keeps_if|destruct b]
  | |- preserves _ (match ?x with _ => _ end) => destruct x
  end.

Section ClosingMethods.
Context {lib : Library}.
Variable fs : filesystem.

Lemma closing_parse_request r : preserves closing (parse_request r).
Proof.
  unfold parse_request, parse_request_headers, handle_expect_100.
  repeat keep_step.
Qed.

Lemma closing_listing_entries p names :
  preserves closing (listing_entries fs p names).
Proof.
  induction names as [|name names IH]; cbn [listing_entries].
  - keep_step.
  - apply keeps_bind; [keep_step|intros ?].
    apply keeps_bind; [keep_step|intros ?].
    apply keeps_bind; [exact IH|intros ?]. keep_step.
Qed.

Lemma closing_send_head : preserves closing (send_head fs).
Proof.
  unfold send_head, send_file_head, list_directory, guess_type,
    raise_uncaught. cbv zeta.
  repeat first [apply closing_listing_entries | keep_step].
Qed.

Lemma closing_handle_one_request r :
  preserves closing (handle_one_request fs r).
Proof.
  unfold handle_one_request.
  apply keeps_if; [repeat keep_step|].
  apply keeps_if; [keep_step|].
  apply keeps_bind; [apply closing_parse_request|]. intros ok.
  apply keeps_if; [keep_step|].
  apply keeps_bind; [keep_step|]. intros cmd. cbv zeta.
  unfold getattr.
  destruct (String.eqb _ "do_GET").
  { unfold do_GET. apply keeps_bind; [apply closing_send_head|].
    intros [b|]; keep_step. }
  destruct (String.eqb _ "do_HEAD").
  { unfold do_HEAD. apply keeps_bind; [apply closing_send_head|].
    intros ?; keep_step. }
  destruct (String.eqb _ "do_OPTIONS").
  { unfold do_OPTIONS. repeat keep_step. }
  keep_step.
Qed.

(** X14. Each connection serves one request.  Whatever the first
    request is (also HTTP/1.1 with [Connection: keep-alive]), the
    handler leaves it with the connection to be closed, so [handle]
    never reads the requests that follow on the same connection: its
    result is the answer to the first request alone. *)
Theorem one_request_per_connection root r rest :
  close_connection (respond fs root r) = true
  /\ snd (handle fs (r :: rest) (new_handler root)) = respond fs root r.
Proof.
  assert (C : close_connection (respond fs root r) = true).
  { apply (closing_handle_one_request r (new_handler root)). reflexivity. }
  split; [exact C|].
  unfold handle, handle_loop. fold (handle_loop fs).
  unfold bind, modify, get. hsimpl.
  change (set_close_connection true (new_handler root))
    with (new_handler root).
  fold (respond fs root r). rewrite C. reflexivity.
Qed.

End ClosingMethods.

(** ** HEAD *)
Section Head.
Context {lib : Library}.
Variable fs : filesystem.

Lemma head_run root r p v fields :
  wellformed r "HEAD" p v fields ->
  exists h0,
    respond fs root r = snd (do_HEAD fs h0)
    /\ directory h0 = root /\ path h0 = fix_path p /\ headers h0 = fields
    /\ quiet h0 = false /\ is_head h0 = true
    /\ wfile h0 = [] /\ headers_buffer h0 = [] /\ fs_trace h0 = [].
Proof.
  intros W. exists (parsed (raw_requestline r) "HEAD" p v fields
                      (new_handler root)).
  split.
  - unfold respond. rewrite (handle_wellformed fs _ _ _ _ _ _ W).
    change (getattr fs ("do_" ++ "HEAD")) with (Some (do_HEAD fs)).
    reflexivity.
  - destruct W as (_ & _ & Hv & _). repeat split. apply quiet_parsed, Hv.
Qed.

(** X15. HEAD for a file is answered with the header lines GET gives for
    it (status 200, type, length and modification time of the file, the
    CORS headers) and with no body; the calls are those of GET: the
    test for a directory, the call of [mimetypes.guess_type] when the
    extension is not in [extensions_map], and the [open] of the file. *)
Theorem head_sends_headers_only root r ws v fields f :
  ws <> [] ->
  Forall (fun w => segment w = true) ws ->
  wellformed r "HEAD" (target ws) v fields ->
  isdir fs (location root ws) = false ->
  open_rb fs (location root ws) = Some f ->
  not_modified fields f = false ->
  wfile (respond fs root r)
  = [HeaderBlock
       [StatusLine "HTTP/1.0" 200 "OK";
        Header "Server" version_string;
        Header "Date" (date_time_string None);
        Header "Content-type" (content_type (location root ws));
        Header "Content-Length" (of_N (len (content f)));
        Header "Last-Modified" (date_time_string (Some (st_mtime f)));
        Header "Access-Control-Allow-Origin" "*";
        Header "Access-Control-Allow-Methods" "GET, POST, OPTIONS";
        Header "Access-Control-Allow-Headers" "Content-Type";
        EndOfHeaders]]
  /\ body (wfile (respond fs root r)) = ""
  /\ fs_trace (respond fs root r)
     = (OpIsdir (location root ws)
        :: guess_ops (location root ws) ++ [OpOpen (location root ws)])%list.
Proof.
  intros Hn Hs W Hdir Hopen Hm.
  pose proof (translate_path_target root ws Hn Hs) as T.
  pose proof (fix_path_target ws Hn Hs) as F.
  pose proof (location_no_slash root ws Hn Hs) as E.
  destruct (head_run root r _ v fields W)
    as (h0 & -> & Hd & Hp & Hh & Q & _ & Hw & Hb & Ht).
  rewrite F in Hp.
  assert (Ht' : translate_path (directory h0) (path h0) = location root ws)
    by (rewrite Hd, Hp; exact T).
  rewrite <- Ht' in Hdir. pose proof (send_head_file fs h0 Hdir) as S.
  rewrite Ht' in S. rewrite <- Hh in Hm.
  destruct (send_file_head_200 fs (location root ws)
              (set_fs_trace (fs_trace h0 ++ [OpIsdir (location root ws)]) h0)
              f E Hopen Hm Q) as (h' & S' & Ew & Et & _).
  rewrite S' in S. unfold do_HEAD. rewrite (bind_eq _ _ _ _ _ S).
  unfold ret. hsimpl. rewrite Ew, Et. hsimpl.
  rewrite Hw, Hb, Ht. repeat split.
Qed.

End Head.

Lemma head_sends_headers_only_witness :
  Forall (fun w => segment w = true) ["index.html"]
  /\ wellformed (request_of "HEAD /index.html HTTP/1.1") "HEAD"
       (target ["index.html"]) "HTTP/1.1" [("Host", "localhost:3000")]
  /\ isdir example_fs (location example_root ["index.html"]) = false
  /\ open_rb example_fs (location example_root ["index.html"])
     = Some {| content := "<h1>Hi</h1>"; st_mtime := 0 |}
  /\ not_modified [("Host", "localhost:3000")]
       {| content := "<h1>Hi</h1>"; st_mtime := 0 |} = false
  /\ body (wfile (respond example_fs example_root
                    (request_of "HEAD /index.html HTTP/1.1"))) = "".
Proof.
  assert (S : Forall (fun w => segment w = true) ["index.html"]).
  { repeat constructor. }
  assert (W : wellformed (request_of "HEAD /index.html HTTP/1.1") "HEAD"
                (target ["index.html"]) "HTTP/1.1"
                [("Host", "localhost:3000")]).
  { prove_wellformed. }
  assert (D : isdir example_fs (location example_root ["index.html"])
              = false) by (vm_compute; reflexivity).
  assert (O : open_rb example_fs (location example_root ["index.html"])
              = Some {| content := "<h1>Hi</h1>"; st_mtime := 0 |})
    by (vm_compute; reflexivity).
  assert (M : not_modified [("Host", "localhost:3000")]
                {| content := "<h1>Hi</h1>"; st_mtime := 0 |} = false)
    by (vm_compute; reflexivity).
  do 5 (split; [assumption|]).
  exact (proj1 (proj2 (head_sends_headers_only example_fs example_root _
                         ["index.html"] _ _ _ ltac:(discriminate)
                         S W D O M))).
Defined.

(** ** Requests and runs outside the cases above *)

(** C3 as stated fails: an OPTIONS request whose path makes the request
    line longer than 65536 bytes is answered 414, and an OPTIONS request
    of version HTTP/0.9 is answered with nothing at all. *)
Lemma options_not_always_200 :
  status (wfile (respond example_fs example_root
                   (request_of ("OPTIONS " ++ long_target ++ " HTTP/1.1"))))
  = Some 414%N
  /\ wfile (respond example_fs example_root
              (request_of "OPTIONS /api/prices HTTP/0.9")) = [].
Proof.
  split; [|vm_compute; reflexivity].
  rewrite respond_too_long by (vm_compute; reflexivity).
  match goal with |- context [sent_error _ _ _ ?h] => set (h0 := h) end.
  destruct (sent_error_fresh 414 None None h0) as (-> & _);
    reflexivity.
Qed.

(** C8 as stated fails: on one file system, two OPTIONS requests that
    differ in the path only are answered 200 and 414. *)
Lemma options_depends_on_path :
  status (wfile (respond example_fs example_root
                   (request_of ("OPTIONS " ++ "/api/prices" ++ " HTTP/1.1"))))
  = Some 200%N
  /\ status (wfile (respond example_fs example_root
                      (request_of ("OPTIONS " ++ long_target ++ " HTTP/1.1"))))
     = Some 414%N.
Proof.
  split; [vm_compute; reflexivity|].
  rewrite respond_too_long by (vm_compute; reflexivity).
  match goal with |- context [sent_error _ _ _ ?h] => set (h0 := h) end.
  destruct (sent_error_fresh 414 None None h0) as (-> & _);
    reflexivity.
Qed.

(** C9 as stated fails: a POST request of version HTTP/0.9 is answered
    with the page of the error alone, without a status line, so not with
    a response of status 501; and a POST request line of two words is
    answered with the page of error 400. *)
Lemma post_without_status_501 :
  wfile (respond example_fs example_root
           (request_of "POST /index.html HTTP/0.9"))
  = [Data (error_page 501 (Some "Unsupported method ('POST')") None)]
  /\ status (wfile (respond example_fs example_root
                      (request_of "POST /index.html HTTP/0.9"))) = None
  /\ wfile (respond example_fs example_root (request_of "POST /index.html"))
     = [Data (error_page 400 (Some "Bad HTTP/0.9 request type ('POST')")
                None)].
Proof. vm_compute. repeat split. Qed.

(** C6 as stated fails: an interrupt that arrives during [os.chdir], or
    while the server is created, is not caught: the process prints no
    notice and is ended by the signal, not with exit code 0. *)
Lemma interrupt_during_startup :
  Main.run (example_world (Some Main.KeyboardInterrupt) None []
              Main.KeyboardInterrupt)
  = ([Main.Chdir "/srv/frontend" false;
      Main.Traceback Main.KeyboardInterrupt], Main.KilledBy 2)
  /\ Main.stdout
       (fst (Main.run (example_world None (Some Main.KeyboardInterrupt) []
                         Main.KeyboardInterrupt))) = []
  /\ snd (Main.run (example_world None (Some Main.KeyboardInterrupt) []
                      Main.KeyboardInterrupt)) = Main.KilledBy 2.
Proof. vm_compute. repeat split. Qed.

Lemma traversal_is_not_forbidden_witness :
  wellformed (request_of "GET /%00 HTTP/1.1") "GET" "/%00" "HTTP/1.1"
    [("Host", "localhost:3000")]
  /\ open_raises example_fs (translate_path example_root (fix_path "/%00"))
     = true
  /\ wfile (respond example_fs example_root (request_of "GET /%00 HTTP/1.1"))
     = []
  /\ status (wfile (respond example_fs example_root
                      (request_of "GET /%00 HTTP/1.1"))) <> Some 403%N.
Proof.
  assert (W : wellformed (request_of "GET /%00 HTTP/1.1") "GET" "/%00"
                "HTTP/1.1" [("Host", "localhost:3000")]).
  { prove_wellformed. }
  assert (R : open_raises example_fs
                (translate_path example_root (fix_path "/%00")) = true)
    by (vm_compute; reflexivity).
  split; [exact W|]. split; [exact R|].
  destruct (traversal_is_not_forbidden example_fs example_root
              (request_of "GET /%00 HTTP/1.1")) as (N & _ & _ & H).
  split; [|exact N].
  apply (H "/%00" "HTTP/1.1" [("Host", "localhost:3000")] W);
    [vm_compute; reflexivity|vm_compute; reflexivity
    |vm_compute; reflexivity|exact R].
Defined.

(** ** The directory of the script *)
Section Script.
Context {lib : Library}.

Lemma filter_parts ws :
  Forall (fun w => segment w = true) ws ->
  List.filter (fun c => negb (String.eqb c "" || String.eqb c ".")) ws = ws.
Proof.
  intros Hs. induction Hs as [|w ws Hw Hs IH]; [reflexivity|].
  cbn [List.filter]. apply segment_spec in Hw as (-> & _ & -> & _).
  cbn [orb negb]. rewrite IH. reflexivity.
Qed.

Lemma len_cons a s : (len (String a s) - len s =? 2)%N = false.
Proof.
  unfold len. cbn [String.length]. rewrite Nat2N.inj_succ.
  apply N.eqb_neq. lia.
Qed.

(** [Path(s).parent] for the absolute path [s] of a file: the path of
    the directory that holds it. *)
Lemma parent_target ws name :
  Forall (fun w => segment w = true) (ws ++ [name]) ->
  PosixPath.parent (target (ws ++ [name])) = target ws.
Proof.
  intros Hs.
  assert (Hn : (ws ++ [name])%list <> []) by (destruct ws; discriminate).
  destruct (target_head _ Hn Hs) as (a & s & E & Ha).
  assert (Ej : PyStr.join "/" (ws ++ [name]) = String a s).
  { unfold target in E. injection E as E. exact E. }
  unfold PosixPath.parent, PosixPath.path_root, PosixPath.path_parts.
  assert (L : lstrip (is_char "/") (target (ws ++ [name]))
              = PyStr.join "/" (ws ++ [name])).
  { rewrite E, Ej. cbn [lstrip]. unfold is_char.
    change (Ascii.eqb "/" "/") with true. cbv iota. rewrite Ha.
    reflexivity. }
  rewrite L, split_join, filter_parts by assumption.
  rewrite removelast_last.
  assert (S : startswith (target (ws ++ [name])) "/" = true).
  { rewrite E. unfold startswith. cbn [String.prefix].
    destruct (ascii_dec "/" "/") as [_|N]; [|contradiction].
    destruct s; reflexivity. }
  rewrite S. unfold target at 1.
  change ("/" ++ PyStr.join "/" (ws ++ [name]))%string
    with (String "/" (PyStr.join "/" (ws ++ [name]))).
  rewrite len_cons. reflexivity.
Qed.

Lemma served_by_handler (w : world) rs answer tail :
  (forall x, In x tail -> match x with Serve _ _ => False | _ => True end) ->
  In (Serve rs answer)
    (([Chdir (FRONTEND_DIR w) true; CreateServer "" PORT true]
      ++ List.map Print (banner w)
      ++ List.map (CustomHTTPRequestHandler w) (connections w))
     ++ tail)%list ->
  answer = wfile (snd (handle (disk w) rs (new_handler (FRONTEND_DIR w)))).
Proof.
  intros Ht H. apply in_app_or in H as [H|H]; [|destruct (Ht _ H)].
  cbn [app In] in H. destruct H as [H|[H|H]]; try discriminate.
  apply in_app_or in H as [H|H]; apply in_map_iff in H as (x & H & _);
    [discriminate|].
  unfold CustomHTTPRequestHandler in H. injection H as <- <-. reflexivity.
Qed.

(** C10. The first thing the process does is [os.chdir] to the directory
    of the script; nothing after it changes the directory; the server
    socket is created and connections are served only after it has
    succeeded, and from then on the current directory is that
    directory.  The directory is the one that holds the script: for the
    script [/d1/.../dn/name] it is [/d1/.../dn].  It is also the
    directory every connection is served from. *)
Theorem chdir_first_and_once (w : world) :
  (exists ok rest,
     fst (run w) = Chdir (FRONTEND_DIR w) ok :: rest
     /\ existsb is_chdir rest = false
     /\ (existsb is_network rest = true -> ok = true)
     /\ (ok = true ->
         forall cwd earlier later,
           rest = (earlier ++ later)%list ->
           cwd_after cwd (Chdir (FRONTEND_DIR w) ok :: earlier)
           = FRONTEND_DIR w))
  /\ (forall ws name,
        Forall (fun x => segment x = true) (ws ++ [name]) ->
        script_file w = target (ws ++ [name]) ->
        FRONTEND_DIR w = target ws)
  /\ (forall rs answer,
        In (Serve rs answer) (fst (run w)) ->
        answer
        = wfile (snd (handle (disk w) rs (new_handler (FRONTEND_DIR w))))).
Proof.
  split; [|split].
  2: { intros ws name Hs E. unfold FRONTEND_DIR. rewrite E.
       apply parent_target, Hs. }
  2: { intros rs answer. unfold run, main.
       destruct (chdir_raises w) as [e|].
       - destruct e; cbn [fst app In]; intros H;
           repeat (destruct H as [H|H]; [discriminate|]); destruct H.
       - destruct (create_server_raises w) as [e|].
         + destruct (bind_reached w); destruct e; cbn [fst app In]; intros H;
             repeat (destruct H as [H|H]; [discriminate|]); destruct H.
         + destruct (serve_forever_raises w); cbn [fst]; intros H.
           * apply (served_by_handler w rs answer _) in H; [exact H|].
             intros x [<-|[<-|[]]]; exact I.
           * rewrite <- app_assoc in H.
             apply (served_by_handler w rs answer _) in H; [exact H|].
             intros x [<-|[<-|[]]]; exact I.
           * rewrite <- app_assoc in H.
             apply (served_by_handler w rs answer _) in H; [exact H|].
             intros x [<-|[<-|[]]]; exact I. }
  assert (Hrest : forall ok rest,
             existsb is_chdir rest = false ->
             ok = true ->
             forall cwd earlier later,
               rest = (earlier ++ later)%list ->
               cwd_after cwd (Chdir (FRONTEND_DIR w) ok :: earlier)
               = FRONTEND_DIR w).
  { intros ok rest Hn -> cwd earlier later ->.
    cbn [cwd_after]. apply cwd_after_no_chdir.
    apply (existsb_prefix_false _ _ _ Hn). }
  assert (Hserving :
            existsb is_chdir
              (List.map Print (banner w)
               ++ List.map (CustomHTTPRequestHandler w) (connections w))
            = false).
  { rewrite existsb_app, !existsb_map_false by reflexivity. reflexivity. }
  unfold run, main.
  destruct (chdir_raises w) as [e|].
  - exists false. destruct e; cbn [fst]; eexists;
      (split; [reflexivity|]); (split; [reflexivity|]);
      (split; [discriminate|]); discriminate.
  - destruct (create_server_raises w) as [e|].
    + exists true. destruct (bind_reached w); destruct e; cbn [fst app];
        eexists;
        (split; [reflexivity|]);
        (split; [reflexivity|]);
        (split; [reflexivity|]);
        apply Hrest; reflexivity.
    + exists true.
      destruct (serve_forever_raises w); cbn [fst app]; eexists;
        (split; [reflexivity|]);
        match goal with
        | |- existsb is_chdir ?r = false /\ _ =>
            assert (Hn : existsb is_chdir r = false)
              by (cbn [existsb is_chdir orb];
                  rewrite <- ?app_assoc, !existsb_app, !existsb_map_false
                    by reflexivity;
                  reflexivity)
        end;
        (split; [exact Hn|]);
        (split; [reflexivity|]);
        apply Hrest; exact Hn.
Qed.

End Script.

Lemma chdir_first_and_once_witness :
  Forall (fun x => segment x = true) ["srv"; "frontend"; "server.py"]
  /\ Main.script_file (example_world None None [] Main.KeyboardInterrupt)
     = target ["srv"; "frontend"; "server.py"]
  /\ exists ok rest,
       fst (Main.run (example_world None None [] Main.KeyboardInterrupt))
       = Main.Chdir "/srv/frontend" ok :: rest.
Proof.
  assert (S : Forall (fun x => segment x = true)
                (["srv"; "frontend"] ++ ["server.py"])).
  { repeat constructor. }
  assert (E : Main.script_file
                (example_world None None [] Main.KeyboardInterrupt)
              = target (["srv"; "frontend"] ++ ["server.py"]))
    by reflexivity.
  split; [exact S|]. split; [exact E|].
  destruct (chdir_first_and_once
              (example_world None None [] Main.KeyboardInterrupt))
    as ((ok & rest & H & _) & D & _).
  rewrite (D ["srv"; "frontend"] "server.py" S E) in H.
  exists ok, rest. exact H.
Defined.

(** ** What a response depends on *)
Section Confined.
Context {lib : Library}.
Variables fs1 fs2 : filesystem.
Variable root : string.
Hypothesis plain : listdir_plain fs1.
Hypothesis agree : agree_inside root fs1 fs2.

Lemma send_file_head_agree t h :
  inside root t -> send_file_head fs1 t h = send_file_head fs2 t h.
Proof.
  intros Ht. destruct (agree t Ht) as (_ & _ & _ & Ho & Hr & _).
  unfold send_file_head. rewrite Ho, Hr. reflexivity.
Qed.

Lemma listed_agree t names :
  inside root t ->
  (forall name, In name names -> plain_name name = true) ->
  listed fs1 t names = listed fs2 t names.
Proof.
  intros Ht Hn. unfold listed. apply map_ext_in. intros name Hin.
  destruct (agree (PosixPath.join t name)) as (-> & _ & -> & _);
    [apply inside_child; [exact Ht|apply Hn, Hin]|reflexivity].
Qed.

Lemma list_directory_agree t h :
  inside root t -> list_directory fs1 t h = list_directory fs2 t h.
Proof.
  intros Ht. destruct (agree t Ht) as (_ & _ & _ & _ & _ & Hl).
  unfold list_directory. rewrite !bind_trace, <- Hl.
  destruct (listdir fs1 t) as [names|] eqn:L; [|reflexivity].
  rewrite !(bind_eq _ _ _ _ _ (listing_entries_eq _ _ _ _)).
  rewrite (listed_agree t (sort_by_lower names) Ht); [reflexivity|].
  intros name Hin. apply (plain t names name L), In_sort_by_lower, Hin.
Qed.

Lemma send_head_agree h :
  directory h = root -> send_head fs1 h = send_head fs2 h.
Proof.
  intros Hd. unfold send_head. rewrite !bind_get. cbv zeta. rewrite Hd.
  pose proof (translate_path_inside root (path h)) as Ht.
  destruct (index_inside root _ Ht) as (Hhtml & Hhtm).
  rewrite !bind_trace.
  destruct (agree _ Ht) as (<- & _).
  destruct (isdir fs1 (translate_path root (path h)));
    [|apply send_file_head_agree, Ht].
  destruct (negb (endswith (urlsplit_path (path h)) "/")); [reflexivity|].
  rewrite !bind_trace.
  destruct (agree _ Hhtml) as (_ & <- & _).
  destruct (isfile fs1 (PosixPath.join _ "index.html"));
    [apply send_file_head_agree, Hhtml|].
  rewrite !bind_trace.
  destruct (agree _ Hhtm) as (_ & <- & _).
  destruct (isfile fs1 (PosixPath.join _ "index.htm"));
    [apply send_file_head_agree, Hhtm|].
  apply list_directory_agree, Ht.
Qed.

Lemma directory_parse_request r :
  directory (snd (parse_request r (new_handler root))) = root.
Proof.
  apply (pres_parse_request fs1 (fun _ _ => True) root r (new_handler root)).
  apply Inv_new_handler.
Qed.

Lemma respond_agree r : respond fs2 root r = respond fs1 root r.
Proof.
  unfold respond, handle_one_request.
  destruct (65536 <? len (raw_requestline r))%N; [reflexivity|].
  destruct (String.eqb (raw_requestline r) ""); [reflexivity|].
  unfold bind at 1 3. pose proof (directory_parse_request r) as Hd.
  destruct (parse_request r (new_handler root)) as [ok h'].
  cbn [fst snd] in *. destruct ok; [|reflexivity]. cbn [negb].
  rewrite !bind_get. cbv zeta. unfold getattr.
  destruct (String.eqb _ "do_GET").
  { unfold do_GET, bind. rewrite (send_head_agree h' Hd). reflexivity. }
  destruct (String.eqb _ "do_HEAD").
  { unfold do_HEAD, bind. rewrite (send_head_agree h' Hd). reflexivity. }
  destruct (String.eqb _ "do_OPTIONS"); reflexivity.
Qed.

End Confined.

(** C1, as the code has it.  Whatever the request path, also one that
    resolves outside the root, every path the handler makes a call with
    ([os.path.isdir], [os.path.isfile], [os.path.islink], [open],
    [os.listdir], and [mimetypes.guess_type] for the type) is the root
    followed by names that are neither [..] nor hold a slash; and the
    whole answer depends on the file system through what it holds at
    such paths only: a file system that answers alike there gives the
    same answer.  So what is served is what the file system has at a
    path inside the root (a symbolic link there is followed to wherever
    it leads), and the status is that of this path, which may be
    200.  (The table of types that [mimetypes] consults is read from
    the [mime.types] files of the system on its first call; it bears on
    the [Content-type] header only, and is a part of the library
    here.) *)
Theorem served_from_inside_root {lib : Library} (fs : filesystem) root r :
  listdir_plain fs ->
  (forall o, In o (fs_trace (respond fs root r)) -> inside root (op_path o))
  /\ (forall fs',
        agree_inside root fs fs' -> respond fs' root r = respond fs root r).
Proof.
  intros Hfs. split.
  - pose proof (respond_inside fs root r Hfs) as (_ & _ & _ & _ & Ht).
    intros o Ho. rewrite Forall_forall in Ht. apply Ht, Ho.
  - intros fs' Ha. apply respond_agree; assumption.
Qed.

Lemma served_from_inside_root_witness :
  listdir_plain example_fs
  /\ (forall o,
        In o (fs_trace (respond example_fs example_root
                          (request_of "GET /../../etc/passwd HTTP/1.1"))) ->
        inside example_root (op_path o)).
Proof.
  split; [exact example_fs_plain|].
  exact (proj1 (served_from_inside_root example_fs example_root
                  (request_of "GET /../../etc/passwd HTTP/1.1")
                  example_fs_plain)).
Defined.
